(** * cvprac: the client's session, retry and failover engine

    A shallow embedding of [cvprac/cvp_client.py]: version resolution
    ([set_version]), session establishment ([connect], [_create_session],
    [_reset_session], [_login]), response classification
    ([_is_good_response], [_finditem]), the request dispatcher
    ([_make_request], [_send_request]) and the streaming decoder
    ([json_decoder]).

    Python's [str] is modelled by [string] (characters in the 8-bit range),
    exceptions by the type [exn], and a method of the client by a function
    from the client's state to an outcome and a new state.  Logging calls
    are left out: nothing below depends on them. *)

From Stdlib Require Import String Ascii List ZArith Lia Bool Arith.
Import ListNotations.
Open Scope list_scope.
Open Scope string_scope.

(** ** Strings as Python uses them *)

Module PyStr.

(** [needle in hay] on two strings. *)
Fixpoint contains (needle hay : string) : bool :=
  if prefix needle hay then true
  else match hay with
       | EmptyString => false
       | String _ hay' => contains needle hay'
       end.

(** [s.split(sep)] for a one-character separator: never the empty list. *)
Fixpoint split (sep : ascii) (s : string) : list string :=
  match s with
  | EmptyString => [EmptyString]
  | String c s' =>
      if Ascii.eqb c sep then EmptyString :: split sep s'
      else match split sep s' with
           | w :: ws => String c w :: ws
           | [] => [String c EmptyString]
           end
  end.

(** [sep.join(l)]. *)
Fixpoint join (sep : string) (l : list string) : string :=
  match l with
  | [] => EmptyString
  | [w] => w
  | w :: ws => w ++ sep ++ join sep ws
  end.

(** [s[n:]]. *)
Fixpoint drop (n : nat) (s : string) : string :=
  match n, s with
  | S n', String _ s' => drop n' s'
  | _, _ => s
  end.

Definition is_digit (c : ascii) : bool :=
  let n := nat_of_ascii c in Nat.leb 48 n && Nat.leb n 57.

Definition digit_val (c : ascii) : Z := Z.of_nat (nat_of_ascii c) - 48.

(** The value of a run of decimal digits, most significant first. *)
Fixpoint digits_val (acc : Z) (s : string) : Z :=
  match s with
  | EmptyString => acc
  | String c s' => digits_val (10 * acc + digit_val c) s'
  end.

Fixpoint all_digits (s : string) : bool :=
  match s with
  | EmptyString => true
  | String c s' => is_digit c && all_digits s'
  end.

(** ['%d' % z]: the decimal numeral of an integer. *)
Fixpoint pos_digits (fuel : nat) (z : Z) (acc : string) : string :=
  match fuel with
  | O => acc
  | S f =>
      let d := ascii_of_nat (48 + Z.to_nat (z mod 10)) in
      if Z.ltb z 10 then String d acc else pos_digits f (z / 10) (String d acc)
  end.

Definition of_Z (z : Z) : string :=
  if Z.ltb z 0 then String "-" (pos_digits (Z.to_nat (Z.log2 (- z)) + 1) (- z) EmptyString)
  else pos_digits (Z.to_nat (Z.log2 z) + 1) z EmptyString.

End PyStr.

(** ** Decoded JSON values

    What [json.loads] produces: [None], [bool], [int], [float], [str],
    [list] and [dict].  A [dict] keeps insertion order, so it is a list of
    pairs with distinct keys; a [float] is kept as the numeral it was read
    from, with whether its value is different from zero. *)

#[warnings="-register-all"]
Inductive json : Type :=
| JNull
| JBool (b : bool)
| JInt (z : Z)
| JFloat (numeral : string) (nonzero : bool)
| JStr (s : string)
| JArr (items : list json)
| JObj (members : list (string * json)).

Module PyDict.
Section Dict.
Context {V : Type}.

(** [k in d]. *)
Fixpoint mem (k : string) (d : list (string * V)) : bool :=
  match d with
  | [] => false
  | (k', _) :: d' => String.eqb k k' || mem k d'
  end.

(** [d.get(k)]. *)
Fixpoint get (k : string) (d : list (string * V)) : option V :=
  match d with
  | [] => None
  | (k', v) :: d' => if String.eqb k k' then Some v else get k d'
  end.

(** [d[k] = v]: a present key keeps its place, a new one goes last. *)
Fixpoint set (k : string) (v : V) (d : list (string * V)) : list (string * V) :=
  match d with
  | [] => [(k, v)]
  | (k', v') :: d' =>
      if String.eqb k k' then (k', v) :: d' else (k', v') :: set k v d'
  end.

(** [d.pop(k, None)], the value dropped. *)
Fixpoint pop (k : string) (d : list (string * V)) : list (string * V) :=
  match d with
  | [] => []
  | (k', v') :: d' => if String.eqb k k' then d' else (k', v') :: pop k d'
  end.

(** [dict(pairs)]. *)
Definition of_pairs (pairs : list (string * V)) : list (string * V) :=
  fold_left (fun d kv => set (fst kv) (snd kv) d) pairs [].
End Dict.
End PyDict.



(** ** The JSON scanner of the standard library

    [json.JSONDecoder.raw_decode] and [json.loads] are library code.  The
    scanner below follows [json.scanner.py_make_scanner] and
    [json.decoder] ([JSONObject], [JSONArray], [scanstring], [NUMBER_RE])
    on the text that is left to read; a position of the Python code is the
    length of the document minus the length of that text.  What is read
    and what is refused, and where, are those of the library as CPython
    runs it, with the [scanstring] of its C module, whose messages and
    whose check of the end of the text after a [\u] escape differ from
    [py_scanstring].  The values keep two things as they are written: a
    float keeps its numeral, and a character above U+00FF, which the 8-bit
    strings cannot hold, stays the [\u] escape it was (in lower case; a
    surrogate pair stays two escapes).  The recursion limit of the
    interpreter is not part of the model. *)

Module PyJson.

Inductive scan (A : Type) : Type :=
| Scanned (a : A) (rest : string)
| ScanError (msg : string) (at_ : string).
Arguments Scanned {A} a rest.
Arguments ScanError {A} msg at_.

(** The double quote. *)
Definition dquote : ascii := "034"%char.

(** [WHITESPACE]: blank, tab, line feed, carriage return. *)
Definition is_ws (c : ascii) : bool :=
  Ascii.eqb c " " || Ascii.eqb c "009" || Ascii.eqb c "010" || Ascii.eqb c "013".

Fixpoint skip_ws (s : string) : string :=
  match s with
  | String c r => if is_ws c then skip_ws r else s
  | EmptyString => s
  end.

Fixpoint span_digits (s : string) : string * string :=
  match s with
  | String c r =>
      if PyStr.is_digit c
      then let (d, r') := span_digits r in (String c d, r')
      else (EmptyString, s)
  | EmptyString => (EmptyString, EmptyString)
  end.

(** [NUMBER_RE], group by group: an optional minus sign and either 0 or a
    numeral without leading zero; a dot and digits; an exponent. *)
Definition match_integer (s : string) : option (bool * string * string) :=
  let (neg, r0) := match s with
                   | String c r => if Ascii.eqb c "-" then (true, r) else (false, s)
                   | EmptyString => (false, s)
                   end in
  match r0 with
  | String c r =>
      if Ascii.eqb c "0" then Some (neg, String c EmptyString, r)
      else if PyStr.is_digit c
           then let (d, r') := span_digits r in Some (neg, String c d, r')
           else None
  | EmptyString => None
  end.

Definition match_frac (s : string) : string * string :=
  match s with
  | String c r =>
      if Ascii.eqb c "." then
        match span_digits r with
        | (EmptyString, _) => (EmptyString, s)
        | (d, r') => (String c d, r')
        end
      else (EmptyString, s)
  | EmptyString => (EmptyString, s)
  end.

Definition match_exp (s : string) : string * string :=
  match s with
  | String c r =>
      if Ascii.eqb c "e" || Ascii.eqb c "E" then
        let (sign, r1) :=
          match r with
          | String c1 r1 =>
              if Ascii.eqb c1 "-" || Ascii.eqb c1 "+"
              then (String c1 EmptyString, r1) else (EmptyString, r)
          | EmptyString => (EmptyString, r)
          end in
        match span_digits r1 with
        | (EmptyString, _) => (EmptyString, s)
        | (d, r2) => (String c (sign ++ d), r2)
        end
      else (EmptyString, s)
  | EmptyString => (EmptyString, s)
  end.

(** Whether a mantissa denotes a number other than zero (a float that
    underflows to zero is not told apart). *)
Fixpoint has_nonzero_digit (s : string) : bool :=
  match s with
  | EmptyString => false
  | String c r => (PyStr.is_digit c && negb (Ascii.eqb c "0")) || has_nonzero_digit r
  end.

Definition match_number (s : string) : option (json * string) :=
  match match_integer s with
  | None => None
  | Some (neg, int_digits, r) =>
      let (frac, r1) := match_frac r in
      let (exp, r2) := match_exp r1 in
      let sign := if neg then "-" else EmptyString in
      match frac, exp with
      | EmptyString, EmptyString =>
          let v := PyStr.digits_val 0 int_digits in
          Some (JInt (if neg then (- v)%Z else v), r2)
      | _, _ =>
          Some (JFloat (sign ++ int_digits ++ frac ++ exp)
                       (has_nonzero_digit (int_digits ++ frac)), r2)
      end
  end.

Definition hex_val (c : ascii) : option nat :=
  let n := nat_of_ascii c in
  if Nat.leb 48 n && Nat.leb n 57 then Some (n - 48)
  else if Nat.leb 65 n && Nat.leb n 70 then Some (n - 55)
  else if Nat.leb 97 n && Nat.leb n 102 then Some (n - 87)
  else None.

(** [BACKSLASH]: the one-character escapes. *)
Definition backslash (esc : ascii) : option ascii :=
  if Ascii.eqb esc dquote then Some dquote
  else if Ascii.eqb esc "\" then Some "\"%char
  else if Ascii.eqb esc "/" then Some "/"%char
  else if Ascii.eqb esc "b" then Some "008"%char
  else if Ascii.eqb esc "f" then Some "012"%char
  else if Ascii.eqb esc "n" then Some "010"%char
  else if Ascii.eqb esc "r" then Some "013"%char
  else if Ascii.eqb esc "t" then Some "009"%char
  else None.

(** The hexadecimal digit of [n], in lower case. *)
Definition hex_digit (n : nat) : ascii :=
  match String.get n "0123456789abcdef" with
  | Some c => c
  | None => "0"%char
  end.

(** A character above U+00FF as the escape that stands for it. *)
Definition escape_text (uni : nat) : string :=
  String "\" (String "u"
    (String (hex_digit (uni / 4096)) (String (hex_digit ((uni / 256) mod 16))
       (String (hex_digit ((uni / 16) mod 16)) (String (hex_digit (uni mod 16))
          EmptyString))))).

Definition is_empty (s : string) : bool :=
  match s with
  | EmptyString => true
  | String _ _ => false
  end.

(** [scanstring(s, end)] with [strict=True], as the interpreter runs it:
    [s] is the text after the opening quote, [begin] the text from that
    quote on.  The four digits of a [\u] escape must not be the last
    characters of the text. *)
Fixpoint scanstring (begin s : string) : scan string :=
  match s with
  | EmptyString => ScanError "Unterminated string starting at" begin
  | String c r =>
      if Ascii.eqb c dquote then Scanned EmptyString r
      else if Ascii.eqb c "\" then
        match r with
        | EmptyString => ScanError "Unterminated string starting at" begin
        | String esc r1 =>
            if Ascii.eqb esc "u" then
              match r1 with
              | String h1 (String h2 (String h3 (String h4 r2))) =>
                  if is_empty r2 then ScanError "Invalid \uXXXX escape" r
                  else
                    match hex_val h1, hex_val h2, hex_val h3, hex_val h4 with
                    | Some a, Some b, Some c', Some d =>
                        let uni := ((a * 16 + b) * 16 + c') * 16 + d in
                        match scanstring begin r2 with
                        | Scanned str r3 =>
                            Scanned (if Nat.ltb uni 256 then String (ascii_of_nat uni) str
                                     else escape_text uni ++ str) r3
                        | ScanError m a' => ScanError m a'
                        end
                    | _, _, _, _ => ScanError "Invalid \uXXXX escape" r
                    end
              | _ => ScanError "Invalid \uXXXX escape" r
              end
            else
              match backslash esc with
              | Some ch =>
                  match scanstring begin r1 with
                  | Scanned str r2 => Scanned (String ch str) r2
                  | ScanError m a => ScanError m a
                  end
              | None => ScanError "Invalid \escape" s
              end
        end
      else if Nat.ltb (nat_of_ascii c) 32 then ScanError "Invalid control character at" s
      else
        match scanstring begin r with
        | Scanned str r' => Scanned (String c str) r'
        | ScanError m a => ScanError m a
        end
  end.

(** [s[0:1]] and [s[1:]]. *)
Definition uncons (s : string) : option (ascii * string) :=
  match s with
  | String c r => Some (c, r)
  | EmptyString => None
  end.

Definition next_is (c : ascii) (s : string) : bool :=
  match s with
  | String c' _ => Ascii.eqb c' c
  | EmptyString => false
  end.

(** [_scan_once], [JSONObject] (from the first key on) and [JSONArray] (from
    the first element on).  [fuel] bounds the depth of the calls; more than
    twice the length of the text is always enough (see [scan_fuel]). *)
Fixpoint scan_once (fuel : nat) (s : string) {struct fuel} : scan json :=
  match fuel with
  | O => ScanError "maximum recursion depth exceeded" s
  | S f =>
      match s with
      | EmptyString => ScanError "Expecting value" s
      | String c rest =>
          if Ascii.eqb c dquote then
            match scanstring s rest with
            | Scanned str r => Scanned (JStr str) r
            | ScanError m a => ScanError m a
            end
          else if Ascii.eqb c "{" then
            let r0 := skip_ws rest in
            if next_is "}" r0 then Scanned (JObj []) (PyStr.drop 1 r0)
            else if next_is dquote r0 then object_members f r0 (PyStr.drop 1 r0) []
            else ScanError "Expecting property name enclosed in double quotes" r0
          else if Ascii.eqb c "[" then
            let r0 := skip_ws rest in
            if next_is "]" r0 then Scanned (JArr []) (PyStr.drop 1 r0)
            else array_elements f r0 []
          else if prefix "null" s then Scanned JNull (PyStr.drop 4 s)
          else if prefix "true" s then Scanned (JBool true) (PyStr.drop 4 s)
          else if prefix "false" s then Scanned (JBool false) (PyStr.drop 5 s)
          else
            match match_number s with
            | Some (v, r) => Scanned v r
            | None =>
                if prefix "NaN" s then Scanned (JFloat "NaN" true) (PyStr.drop 3 s)
                else if prefix "Infinity" s then Scanned (JFloat "Infinity" true) (PyStr.drop 8 s)
                else if prefix "-Infinity" s then Scanned (JFloat "-Infinity" true) (PyStr.drop 9 s)
                else ScanError "Expecting value" s
            end
      end
  end

with object_members (fuel : nat) (begin s : string) (pairs : list (string * json))
       {struct fuel} : scan json :=
  match fuel with
  | O => ScanError "maximum recursion depth exceeded" s
  | S f =>
      match scanstring begin s with
      | ScanError m a => ScanError m a
      | Scanned key r1 =>
          let r2 := if next_is ":" r1 then r1 else skip_ws r1 in
          if next_is ":" r2 then
            match scan_once f (skip_ws (PyStr.drop 1 r2)) with
            | ScanError m a => ScanError m a
            | Scanned value r3 =>
                let pairs' := (pairs ++ [(key, value)])%list in
                let r4 := skip_ws r3 in
                if next_is "}" r4 then
                  Scanned (JObj (PyDict.of_pairs pairs')) (PyStr.drop 1 r4)
                else if next_is "," r4 then
                  let r5 := skip_ws (PyStr.drop 1 r4) in
                  if next_is dquote r5 then object_members f r5 (PyStr.drop 1 r5) pairs'
                  else ScanError "Expecting property name enclosed in double quotes" r5
                else ScanError "Expecting ',' delimiter" r4
            end
          else ScanError "Expecting ':' delimiter" r2
      end
  end

with array_elements (fuel : nat) (s : string) (values : list json)
       {struct fuel} : scan json :=
  match fuel with
  | O => ScanError "maximum recursion depth exceeded" s
  | S f =>
      match scan_once f s with
      | ScanError m a => ScanError m a
      | Scanned value r1 =>
          let values' := (values ++ [value])%list in
          let r2 := skip_ws r1 in
          if next_is "]" r2 then Scanned (JArr values') (PyStr.drop 1 r2)
          else if next_is "," r2 then array_elements f (skip_ws (PyStr.drop 1 r2)) values'
          else ScanError "Expecting ',' delimiter" r2
      end
  end.

(** A scan that stopped for lack of fuel. *)
Definition exhausted {A} (r : scan A) : Prop :=
  match r with
  | ScanError msg _ => msg = "maximum recursion depth exceeded"
  | Scanned _ _ => False
  end.

(** A JSON text written with apostrophes in place of double quotes. *)
Fixpoint text (s : string) : string :=
  match s with
  | EmptyString => EmptyString
  | String c r => String (if Ascii.eqb c "'" then dquote else c) (text r)
  end.

End PyJson.


(** ** Exceptions

    The exception classes the client raises, catches or lets through.
    [requests] has [ReadTimeout] below [Timeout], and [ConnectTimeout]
    below both [ConnectionError] and [Timeout]: an [except] clause for
    [ConnectionError] that comes first takes a [ConnectTimeout]. *)

Inductive requests_error : Type :=
| ConnectionError
| ConnectTimeout
| HTTPError
| TooManyRedirects
| ReadTimeout
| Timeout.

(** A [json.JSONDecodeError]: [msg], [doc] and [pos]. *)
Record json_error : Type := mk_json_error {
  je_msg : string;
  je_doc : string;
  je_pos : nat
}.

(** Modelled from the spec: the module [cvprac.cvp_client_errors] is not
    among the sources; its four classes [CvpApiError], [CvpLoginError],
    [CvpRequestError] and [CvpSessionLogOutError] are the spec's distinct
    error kinds (ApiError, ConnectFailure, RequestMalformedError,
    SessionLoggedOutError), each carrying its message [msg], none a subclass
    of another or of a [requests] exception. *)
Inductive exn : Type :=
| ValueError (msg : string)
| CvpApiError (msg : string)
| CvpLoginError (msg : string)
| CvpRequestError (msg : string)
| CvpSessionLogOutError (msg : string)
| RequestsError (kind : requests_error) (msg : string)
| JSONDecodeError (error : json_error)
| InvalidVersion (version : string)
| KeyError (key : string)
| IndexError
| TypeError
| AttributeError
| StopIteration.

Inductive outcome (A : Type) : Type :=
| Return (a : A)
| Raise (e : exn).
Arguments Return {A} a.
Arguments Raise {A} e.

(** ** What the interpreter and its libraries supply

    [raw_decode s idx] is [json.JSONDecoder().raw_decode(s, idx)]: the value
    scanned at [idx] and the position after it, or the error raised.
    [py_format v] is ['%s' % v] for a decoded value, [exn_str e] is
    [str(e)] for an exception caught on login. *)
Class Runtime : Type := {
  raw_decode : string -> nat -> (json * nat) + json_error;
  py_format : json -> string;
  exn_str : exn -> string
}.

(** The decoder never reads before [idx] nor past the end, and a value
    takes at least one character. *)
Definition decoder_advances `{Runtime} : Prop :=
  forall s idx v e, raw_decode s idx = inl (v, e) -> idx < e <= String.length s.

Module PyJsonDecode.

(** [WHITESPACE.match(s, idx).end()]. *)
Definition ws_end (s : string) (idx : nat) : nat :=
  let r := PyStr.drop idx s in
  idx + (String.length r - String.length (PyJson.skip_ws r)).

(** [json.loads(s)], that is [JSONDecoder.decode]: one value between
    optional whitespace, and nothing after it. *)
Definition loads `{Runtime} (s : string) : json + json_error :=
  match raw_decode s (ws_end s 0) with
  | inl (obj, e) =>
      let e' := ws_end s e in
      if Nat.eqb e' (String.length s) then inl obj
      else inr (mk_json_error "Extra data" s e')
  | inr err => inr err
  end.

(** [lineno] and [colno] of a [JSONDecodeError]. *)
Fixpoint line_col (doc : string) (pos line col : nat) : nat * nat :=
  match pos with
  | O => (line, col)
  | S p =>
      match doc with
      | String c r =>
          if Ascii.eqb c "010" then line_col r p (S line) 1
          else line_col r p line (S col)
      | EmptyString => (line, col + pos)
      end
  end.

(** [str(error)] of a [JSONDecodeError]:
    ['%s: line %d column %d (char %d)']. *)
Definition error_str (e : json_error) : string :=
  let (line, col) := line_col (je_doc e) (je_pos e) 1 1 in
  je_msg e ++ ": line " ++ PyStr.of_Z (Z.of_nat line)
           ++ " column " ++ PyStr.of_Z (Z.of_nat col)
           ++ " (char " ++ PyStr.of_Z (Z.of_nat (je_pos e)) ++ ")".

(** The scanner above as [raw_decode]; past the end of the text
    [s[idx]] raises at [idx]. *)
Definition py_raw_decode (s : string) (idx : nat) : (json * nat) + json_error :=
  if Nat.ltb (String.length s) idx then inr (mk_json_error "Expecting value" s idx)
  else
    match PyJson.scan_once (2 * String.length s + 1) (PyStr.drop idx s) with
    | PyJson.Scanned v r => inl (v, String.length s - String.length r)
    | PyJson.ScanError m a => inr (mk_json_error m s (String.length s - String.length a))
    end.

End PyJsonDecode.

(** ** The transport: [requests]

    A request as [requests.Session.get/post/delete] receives it, and the
    reply.  [content] is the body; [text] is the body decoded, the same
    string in the 8-bit model.  [bool(response)] is [response.ok]. *)

Inductive req_type : Type := GET | POST | DELETE.

Inductive cert_t : Type :=
| CertFlag (verify : bool)
| CertPath (path : string).

Inductive timeout_t : Type :=
| ConnectOnly (connect : option Z)
| ConnectRead (connect : option Z) (read : Z).

Definition cookie_jar : Type := list (string * string).
Definition header_map : Type := list (string * json).
Definition file_map : Type := list (string * string).

Record Request : Type := mk_Request {
  rq_session : nat;
  rq_method : req_type;
  rq_url : string;
  rq_cookies : option cookie_jar;
  rq_data : option json;
  rq_headers : header_map;
  rq_timeout : timeout_t;
  rq_verify : cert_t;
  rq_files : option file_map
}.

Record Response : Type := mk_Response {
  ok : bool;
  reason : string;
  content : string;
  response_cookies : cookie_jar
}.

Definition text (r : Response) : string := content r.

(** The world outside the client: the reply to a request, or the
    [requests] exception raised, given the requests sent before it. *)
Definition network : Type :=
  list Request -> Request -> Response + (requests_error * string).

(** [itertools.cycle(nodes)]: the saved items and the place of the next. *)
Record cycle : Type := mk_cycle {
  cycle_items : list string;
  cycle_pos : nat
}.

(** ** The client

    The attributes [__init__] creates, with the types [connect] gives
    them.  [session] holds the identity of the live [requests.Session]
    object; [sessions_opened] counts the objects created so far and [sent]
    lists the requests handed to the transport, oldest first: these two are
    not attributes, they record what the client did. *)
Record CvpClient : Type := mk_CvpClient {
  apiversion : option Z;
  authdata : json;
  cert : cert_t;
  connect_timeout : option Z;
  cookies : option cookie_jar;
  error_msg : string;
  node_cnt : nat;
  node_pool : cycle;
  nodes : list string;
  port : option Z;
  protocol : string;
  session : option nat;
  url_prefix : string;
  url_prefix_short : string;
  is_cvaas : bool;
  tenant : option string;
  cvaas_token : option string;
  api_token : option string;
  version : option string;
  _last_used_node : option string;
  headers : header_map;
  request_timeout : Z;
  sessions_opened : nat;
  sent : list Request
}.

(** Attribute assignment, one function per attribute that is assigned
    after [connect]. *)
Definition with_apiversion v (c : CvpClient) : CvpClient :=
  {| apiversion := v; authdata := authdata c; cert := cert c; connect_timeout
  := connect_timeout c; cookies := cookies c; error_msg := error_msg c;
  node_cnt := node_cnt c; node_pool := node_pool c; nodes := nodes c; port :=
  port c; protocol := protocol c; session := session c; url_prefix :=
  url_prefix c; url_prefix_short := url_prefix_short c; is_cvaas := is_cvaas
  c; tenant := tenant c; cvaas_token := cvaas_token c; api_token := api_token
  c; version := version c; _last_used_node := _last_used_node c; headers :=
  headers c; request_timeout := request_timeout c; sessions_opened :=
  sessions_opened c; sent := sent c |}.

Definition with_cookies v (c : CvpClient) : CvpClient :=
  {| apiversion := apiversion c; authdata := authdata c; cert := cert c;
  connect_timeout := connect_timeout c; cookies := v; error_msg := error_msg
  c; node_cnt := node_cnt c; node_pool := node_pool c; nodes := nodes c; port
  := port c; protocol := protocol c; session := session c; url_prefix :=
  url_prefix c; url_prefix_short := url_prefix_short c; is_cvaas := is_cvaas
  c; tenant := tenant c; cvaas_token := cvaas_token c; api_token := api_token
  c; version := version c; _last_used_node := _last_used_node c; headers :=
  headers c; request_timeout := request_timeout c; sessions_opened :=
  sessions_opened c; sent := sent c |}.

Definition with_error_msg v (c : CvpClient) : CvpClient :=
  {| apiversion := apiversion c; authdata := authdata c; cert := cert c;
  connect_timeout := connect_timeout c; cookies := cookies c; error_msg := v;
  node_cnt := node_cnt c; node_pool := node_pool c; nodes := nodes c; port :=
  port c; protocol := protocol c; session := session c; url_prefix :=
  url_prefix c; url_prefix_short := url_prefix_short c; is_cvaas := is_cvaas
  c; tenant := tenant c; cvaas_token := cvaas_token c; api_token := api_token
  c; version := version c; _last_used_node := _last_used_node c; headers :=
  headers c; request_timeout := request_timeout c; sessions_opened :=
  sessions_opened c; sent := sent c |}.

Definition with_node_pool v (c : CvpClient) : CvpClient :=
  {| apiversion := apiversion c; authdata := authdata c; cert := cert c;
  connect_timeout := connect_timeout c; cookies := cookies c; error_msg :=
  error_msg c; node_cnt := node_cnt c; node_pool := v; nodes := nodes c; port
  := port c; protocol := protocol c; session := session c; url_prefix :=
  url_prefix c; url_prefix_short := url_prefix_short c; is_cvaas := is_cvaas
  c; tenant := tenant c; cvaas_token := cvaas_token c; api_token := api_token
  c; version := version c; _last_used_node := _last_used_node c; headers :=
  headers c; request_timeout := request_timeout c; sessions_opened :=
  sessions_opened c; sent := sent c |}.

Definition with_session v (c : CvpClient) : CvpClient :=
  {| apiversion := apiversion c; authdata := authdata c; cert := cert c;
  connect_timeout := connect_timeout c; cookies := cookies c; error_msg :=
  error_msg c; node_cnt := node_cnt c; node_pool := node_pool c; nodes :=
  nodes c; port := port c; protocol := protocol c; session := v; url_prefix :=
  url_prefix c; url_prefix_short := url_prefix_short c; is_cvaas := is_cvaas
  c; tenant := tenant c; cvaas_token := cvaas_token c; api_token := api_token
  c; version := version c; _last_used_node := _last_used_node c; headers :=
  headers c; request_timeout := request_timeout c; sessions_opened :=
  sessions_opened c; sent := sent c |}.

Definition with_url_prefix v (c : CvpClient) : CvpClient :=
  {| apiversion := apiversion c; authdata := authdata c; cert := cert c;
  connect_timeout := connect_timeout c; cookies := cookies c; error_msg :=
  error_msg c; node_cnt := node_cnt c; node_pool := node_pool c; nodes :=
  nodes c; port := port c; protocol := protocol c; session := session c;
  url_prefix := v; url_prefix_short := url_prefix_short c; is_cvaas :=
  is_cvaas c; tenant := tenant c; cvaas_token := cvaas_token c; api_token :=
  api_token c; version := version c; _last_used_node := _last_used_node c;
  headers := headers c; request_timeout := request_timeout c; sessions_opened
  := sessions_opened c; sent := sent c |}.

Definition with_url_prefix_short v (c : CvpClient) : CvpClient :=
  {| apiversion := apiversion c; authdata := authdata c; cert := cert c;
  connect_timeout := connect_timeout c; cookies := cookies c; error_msg :=
  error_msg c; node_cnt := node_cnt c; node_pool := node_pool c; nodes :=
  nodes c; port := port c; protocol := protocol c; session := session c;
  url_prefix := url_prefix c; url_prefix_short := v; is_cvaas := is_cvaas c;
  tenant := tenant c; cvaas_token := cvaas_token c; api_token := api_token c;
  version := version c; _last_used_node := _last_used_node c; headers :=
  headers c; request_timeout := request_timeout c; sessions_opened :=
  sessions_opened c; sent := sent c |}.

Definition with_version v (c : CvpClient) : CvpClient :=
  {| apiversion := apiversion c; authdata := authdata c; cert := cert c;
  connect_timeout := connect_timeout c; cookies := cookies c; error_msg :=
  error_msg c; node_cnt := node_cnt c; node_pool := node_pool c; nodes :=
  nodes c; port := port c; protocol := protocol c; session := session c;
  url_prefix := url_prefix c; url_prefix_short := url_prefix_short c; is_cvaas
  := is_cvaas c; tenant := tenant c; cvaas_token := cvaas_token c; api_token
  := api_token c; version := v; _last_used_node := _last_used_node c; headers
  := headers c; request_timeout := request_timeout c; sessions_opened :=
  sessions_opened c; sent := sent c |}.

Definition with_last_used_node v (c : CvpClient) : CvpClient :=
  {| apiversion := apiversion c; authdata := authdata c; cert := cert c;
  connect_timeout := connect_timeout c; cookies := cookies c; error_msg :=
  error_msg c; node_cnt := node_cnt c; node_pool := node_pool c; nodes :=
  nodes c; port := port c; protocol := protocol c; session := session c;
  url_prefix := url_prefix c; url_prefix_short := url_prefix_short c; is_cvaas
  := is_cvaas c; tenant := tenant c; cvaas_token := cvaas_token c; api_token
  := api_token c; version := version c; _last_used_node := v; headers :=
  headers c; request_timeout := request_timeout c; sessions_opened :=
  sessions_opened c; sent := sent c |}.

Definition with_headers v (c : CvpClient) : CvpClient :=
  {| apiversion := apiversion c; authdata := authdata c; cert := cert c;
  connect_timeout := connect_timeout c; cookies := cookies c; error_msg :=
  error_msg c; node_cnt := node_cnt c; node_pool := node_pool c; nodes :=
  nodes c; port := port c; protocol := protocol c; session := session c;
  url_prefix := url_prefix c; url_prefix_short := url_prefix_short c; is_cvaas
  := is_cvaas c; tenant := tenant c; cvaas_token := cvaas_token c; api_token
  := api_token c; version := version c; _last_used_node := _last_used_node c;
  headers := v; request_timeout := request_timeout c; sessions_opened :=
  sessions_opened c; sent := sent c |}.

Definition with_sessions_opened v (c : CvpClient) : CvpClient :=
  {| apiversion := apiversion c; authdata := authdata c; cert := cert c;
  connect_timeout := connect_timeout c; cookies := cookies c; error_msg :=
  error_msg c; node_cnt := node_cnt c; node_pool := node_pool c; nodes :=
  nodes c; port := port c; protocol := protocol c; session := session c;
  url_prefix := url_prefix c; url_prefix_short := url_prefix_short c; is_cvaas
  := is_cvaas c; tenant := tenant c; cvaas_token := cvaas_token c; api_token
  := api_token c; version := version c; _last_used_node := _last_used_node c;
  headers := headers c; request_timeout := request_timeout c; sessions_opened
  := v; sent := sent c |}.

Definition with_sent v (c : CvpClient) : CvpClient :=
  {| apiversion := apiversion c; authdata := authdata c; cert := cert c;
  connect_timeout := connect_timeout c; cookies := cookies c; error_msg :=
  error_msg c; node_cnt := node_cnt c; node_pool := node_pool c; nodes :=
  nodes c; port := port c; protocol := protocol c; session := session c;
  url_prefix := url_prefix c; url_prefix_short := url_prefix_short c; is_cvaas
  := is_cvaas c; tenant := tenant c; cvaas_token := cvaas_token c; api_token
  := api_token c; version := version c; _last_used_node := _last_used_node c;
  headers := headers c; request_timeout := request_timeout c; sessions_opened
  := sessions_opened c; sent := v |}.

(** ** Methods as state transformers *)

Definition M (A : Type) : Type := CvpClient -> outcome A * CvpClient.

Definition ret {A} (a : A) : M A := fun c => (Return a, c).
Definition raise {A} (e : exn) : M A := fun c => (Raise e, c).
Definition bind {A B} (m : M A) (k : A -> M B) : M B :=
  fun c => match m c with
           | (Return a, c') => k a c'
           | (Raise e, c') => (Raise e, c')
           end.
Definition read {A} (f : CvpClient -> A) : M A := fun c => (Return (f c), c).
Definition assign (f : CvpClient -> CvpClient) : M unit := fun c => (Return tt, f c).
(** An expression that may raise, run inside a method. *)
Definition lift {A} (o : outcome A) : M A := fun c => (o, c).
(** [try: m  except ...: handler], the handler given the caught exception;
    it re-raises what its clauses do not name. *)
Definition try_except {A} (m : M A) (handler : exn -> M A) : M A :=
  fun c => match m c with
           | (Return a, c') => (Return a, c')
           | (Raise e, c') => handler e c'
           end.

Declare Scope py_scope.
Delimit Scope py_scope with py.
Notation "x <- m ;; k" := (bind m (fun x => k))
  (at level 61, m at next level, right associativity) : py_scope.
Notation "m ;;; k" := (bind m (fun _ => k))
  (at level 61, right associativity) : py_scope.
Open Scope py_scope.

(** ** Values as Python tests them *)

(** [bool(v)] of a decoded value. *)
Definition truthy (v : json) : bool :=
  match v with
  | JNull => false
  | JBool b => b
  | JInt z => negb (Z.eqb z 0)
  | JFloat _ nonzero => nonzero
  | JStr s => negb (String.eqb s EmptyString)
  | JArr items => match items with [] => false | _ => true end
  | JObj members => match members with [] => false | _ => true end
  end.

(** [v == 'key'] for a decoded value and a string. *)
Definition eq_str (key : string) (v : json) : bool :=
  match v with
  | JStr s => String.eqb s key
  | _ => false
  end.

(** ['key' in v]: a key of a dict, an item of a list, a part of a string;
    a [TypeError] on anything else. *)
Definition py_in (key : string) (v : json) : outcome bool :=
  match v with
  | JObj members => Return (PyDict.mem key members)
  | JArr items => Return (existsb (eq_str key) items)
  | JStr s => Return (PyStr.contains key s)
  | _ => Raise TypeError
  end.

(** [v['key']]. *)
Definition py_getitem (v : json) (key : string) : outcome json :=
  match v with
  | JObj members =>
      match PyDict.get key members with
      | Some x => Return x
      | None => Raise (KeyError key)
      end
  | _ => Raise TypeError
  end.

(** [v[idx]] for an integer index that is not negative. *)
Definition py_index (v : json) (idx : nat) : outcome json :=
  match v with
  | JArr items =>
      match nth_error items idx with
      | Some x => Return x
      | None => Raise IndexError
      end
  | JStr s =>
      match String.get idx s with
      | Some ch => Return (JStr (String ch EmptyString))
      | None => Raise IndexError
      end
  | JObj _ => Raise (KeyError (PyStr.of_Z (Z.of_nat idx)))
  | _ => Raise TypeError
  end.

(** [len(v)]. *)
Definition py_len (v : json) : outcome nat :=
  match v with
  | JArr items => Return (List.length items)
  | JStr s => Return (String.length s)
  | JObj members => Return (List.length members)
  | _ => Raise TypeError
  end.

Definition is_container (v : json) : bool :=
  match v with
  | JObj _ | JArr _ => true
  | _ => false
  end.

(** [_finditem(obj, key)]: the value under [key] in a nested list/dict,
    [None] when there is none. *)
Fixpoint _finditem (obj : json) (key : string) : json :=
  match obj with
  | JObj members =>
      match PyDict.get key members with
      | Some item => item
      | None =>
          (fix over_values (l : list (string * json)) : json :=
             match l with
             | [] => JNull
             | (_, value) :: l' =>
                 match value with
                 | JObj _ | JArr _ =>
                     match _finditem value key with
                     | JNull => over_values l'
                     | item => item
                     end
                 | _ => over_values l'
                 end
             end) members
      end
  | JArr items =>
      (fix over_items (l : list json) : json :=
         match l with
         | [] => JNull
         | i :: l' =>
             match i with
             | JObj _ | JArr _ =>
                 match _finditem i key with
                 | JNull => over_items l'
                 | item => item
                 end
             | _ => over_items l'
             end
         end) items
  | _ => JNull
  end.

Section Decoder.
Context `{Runtime}.

(** The [while True] loop of [json_decoder]: [fuel] bounds the number of
    rounds; a round that succeeds moves [position] past the value and one
    further, so one more round than the text is long always ends on the
    [ValueError] branch (see [json_decoder_loop_fuel]). *)
Fixpoint json_decoder_loop (fuel : nat) (data : string) (position : nat)
         (decoded_data : list json) : list json :=
  match fuel with
  | O => decoded_data
  | S fuel' =>
      match raw_decode data position with
      | inl (obj, position') =>
          json_decoder_loop fuel' data (position' + 1) (decoded_data ++ [obj])%list
      | inr _ => decoded_data
      end
  end.

(** [json_decoder(data)]. *)
Definition json_decoder (data : string) : json :=
  let decoded_data := json_decoder_loop (S (String.length data)) data 0 [] in
  match decoded_data with
  | [obj] => obj
  | _ => JArr decoded_data
  end.
End Decoder.

(** Expressions that may raise, in sequence. *)
Definition and_then {A B} (o : outcome A) (k : A -> outcome B) : outcome B :=
  match o with
  | Return a => k a
  | Raise e => Raise e
  end.
Notation "x <~ o ;; k" := (and_then o (fun x => k))
  (at level 61, o at next level, right associativity) : py_scope.

Section Classifier.
Context `{Runtime}.

(** The loop [for idx in range(1, len(error_list))] of
    [_is_good_response], over the indices still to visit. *)
Fixpoint join_errors (indices : list nat) (error_list err_msg : json) : outcome json :=
  match indices with
  | [] => Return err_msg
  | idx :: indices' =>
      item <~ py_index error_list idx ;;
      join_errors indices' error_list
        (JStr (py_format err_msg ++ String "010" EmptyString ++ py_format item))
  end.

(** The message of the [CvpApiError] raised for an error code. *)
Definition error_message (joutput : json) : outcome json :=
  has_message <~ py_in "errorMessage" joutput ;;
  if (has_message : bool) then py_getitem joutput "errorMessage"
  else
    has_errors <~ py_in "errors" joutput ;;
    error_list <~ (if (has_errors : bool) then py_getitem joutput "errors"
                   else code <~ py_getitem joutput "errorCode" ;; Return (JArr [code])) ;;
    err_msg <~ py_index error_list 0 ;;
    n <~ py_len error_list ;;
    join_errors (seq 1 (n - 1)) error_list err_msg.

(** [_is_good_response(response, prefix)]: returns when the response is
    good, raises the error it shows otherwise. *)
Definition _is_good_response (response : Response) (prefix : string) : outcome unit :=
  if negb (ok response) then
    if PyStr.contains "Unauthorized" (reason response) then
      Raise (CvpApiError (prefix ++ ": Request Error: " ++ reason response))
    else if PyStr.contains "User is unauthorized" (text response) then
      Raise (CvpApiError (prefix ++ ": Request Error: User is unauthorized"))
    else
      Raise (CvpRequestError (prefix ++ ": Request Error: " ++ reason response
                                     ++ " - " ++ text response))
  else if PyStr.contains "LOG OUT MESSAGE" (text response) then
    Raise (CvpSessionLogOutError (prefix ++ ": Request Error: session logged out"))
  else
    let joutput := json_decoder (text response) in
    let err_code_val := _finditem joutput "errorCode" in
    if truthy err_code_val then
      err_msg <~ error_message joutput ;;
      Raise (CvpApiError (prefix ++ ": Request Error: " ++ py_format err_msg))
    else Return tt.

(** [_check_response_status(response, prefix)]. *)
Definition _check_response_status (response : Response) (prefix : string) : outcome unit :=
  if negb (ok response) then
    Raise (CvpRequestError (prefix ++ ": Request Error: " ++ reason response
                                   ++ " - " ++ text response))
  else Return tt.
End Classifier.

(** The two marks of a logged-out user in the message of a
    [CvpApiError]: ['Unauthorized'] (2018.x) and ['User is unauthorized']
    (2019.x). *)
Definition unauthorized (msg : string) : bool :=
  PyStr.contains "Unauthorized" msg || PyStr.contains "User is unauthorized" msg.

(** ** Version resolution *)

(** [pkg_resources.parse_version] is library code.  The model reads the
    release segment of a version, numbers separated by dots, and orders two
    versions as Python orders their release tuples once trailing zeros are
    dropped; any other string has no reading here. *)
Module PkgResources.

Fixpoint parse_segments (l : list string) : option (list Z) :=
  match l with
  | [] => Some []
  | w :: l' =>
      if PyStr.all_digits w && negb (String.eqb w EmptyString) then
        match parse_segments l' with
        | Some zs => Some (PyStr.digits_val 0 w :: zs)
        | None => None
        end
      else None
  end.

Fixpoint strip_zeros (l : list Z) : list Z :=
  match l with
  | [] => []
  | z :: l' =>
      match strip_zeros l' with
      | [] => if Z.eqb z 0 then [] else [z]
      | l'' => z :: l''
      end
  end.

Definition parse_version (s : string) : option (list Z) :=
  option_map strip_zeros (parse_segments (PyStr.split "." s)).

(** [a >= b] on two release tuples. *)
Fixpoint ge (a b : list Z) : bool :=
  match a, b with
  | _, [] => true
  | [], _ :: _ => false
  | x :: a', y :: b' => Z.ltb y x || (Z.eqb x y && ge a' b')
  end.

End PkgResources.

Definition NUM_RETRY_REQUESTS : nat := 3.
(** The api versions are the floats 1.0 to 8.0; the model keeps the
    integer. *)
Definition LATEST_API_VERSION : Z := 8.

(** [version >= threshold] after [parse_version] on both. *)
Definition version_ge (full_version threshold : string) : outcome bool :=
  match PkgResources.parse_version full_version,
        PkgResources.parse_version threshold with
  | Some a, Some b => Return (PkgResources.ge a b)
  | None, _ => Raise (InvalidVersion full_version)
  | _, None => Raise (InvalidVersion threshold)
  end.

(** [set_version(version)]. *)
Definition set_version (version : string) : M unit :=
  assign (with_version (Some version)) ;;;
  c <- read (fun c => c) ;;
  if is_cvaas c then assign (with_apiversion (Some LATEST_API_VERSION))
  else
    let version_components := PyStr.split "." version in
    let version_components :=
      if Nat.ltb (List.length version_components) 3
      then (version_components ++ ["0"])%list else version_components in
    let full_version := PyStr.join "." version_components in
    v8 <- lift (version_ge full_version "2022.1.0") ;;
    if (v8 : bool) then assign (with_apiversion (Some 8%Z)) else
    v7 <- lift (version_ge full_version "2021.3.0") ;;
    if (v7 : bool) then assign (with_apiversion (Some 7%Z)) else
    v6 <- lift (version_ge full_version "2021.2.0") ;;
    if (v6 : bool) then assign (with_apiversion (Some 6%Z)) else
    v5 <- lift (version_ge full_version "2020.2.4") ;;
    if (v5 : bool) then assign (with_apiversion (Some 5%Z)) else
    v4 <- lift (version_ge full_version "2020.1.1") ;;
    if (v4 : bool) then assign (with_apiversion (Some 4%Z)) else
    v3 <- lift (version_ge full_version "2019.0.0") ;;
    if (v3 : bool) then assign (with_apiversion (Some 3%Z)) else
    v2 <- lift (version_ge full_version "2018.2.0") ;;
    if (v2 : bool) then assign (with_apiversion (Some 2%Z)) else
    assign (with_apiversion (Some 1%Z)).

(** ** Sessions *)

(** [next(pool)] on a [cycle]: the item at the cursor, and the cursor moved
    on, back to the start after the last item. *)
Definition cycle_next (pool : cycle) : option (string * cycle) :=
  match nth_error (cycle_items pool) (cycle_pos pool) with
  | Some host =>
      let pos := S (cycle_pos pool) in
      Some (host, mk_cycle (cycle_items pool)
                           (if Nat.eqb pos (List.length (cycle_items pool)) then 0 else pos))
  | None => None
  end.

(** [self.port or 443]. *)
Definition port_or_443 (port : option Z) : Z :=
  match port with
  | Some p => if Z.eqb p 0 then 443%Z else p
  | None => 443%Z
  end.

Definition CVAAS_LOGIN_MESSAGE : string :=
  "CVaaS only supports API token authentication."
  ++ " Please create an API token and provide it"
  ++ " via the api_token parameter in combination"
  ++ " with the is_cvaas parameter".

Section Session.
Context `{Runtime} (net : network).

(** A call of the transport: the world answers, the request is on
    record. *)
Definition transport (rq : Request) : M Response :=
  fun c =>
    (match net (sent c) rq with
     | inl response => Return response
     | inr (kind, msg) => Raise (RequestsError kind msg)
     end,
     with_sent (sent c ++ [rq])%list c).

(** [self.session], an object with methods: without one the attribute
    access fails. *)
Definition the_session : M nat :=
  fun c => match session c with
           | Some sid => (Return sid, c)
           | None => (Raise AttributeError, c)
           end.

(** [response.json()]. *)
Definition response_json (response : Response) : outcome json :=
  match PyJsonDecode.loads (text response) with
  | inl v => Return v
  | inr e => Raise (JSONDecodeError e)
  end.

(** [_login_on_prem()]. *)
Definition _login_on_prem : M unit :=
  c <- read (fun c => c) ;;
  let url := url_prefix c ++ "/login/authenticate.do" in
  sid <- the_session ;;
  response <- transport {| rq_session := sid; rq_method := POST; rq_url := url;
                           rq_cookies := None; rq_data := Some (authdata c);
                           rq_headers := headers c;
                           rq_timeout := ConnectOnly (connect_timeout c);
                           rq_verify := cert c; rq_files := None |} ;;
  lift (_is_good_response response ("Authenticate: " ++ url)) ;;;
  assign (with_cookies (Some (response_cookies response))) ;;;
  session_id <- lift (body <~ response_json response ;; py_getitem body "sessionId") ;;
  assign (fun c => with_headers (PyDict.set "APP_SESSION_ID" session_id (headers c)) c).

(** [_set_headers_api_token()]. *)
Definition _set_headers_api_token (token : string) : M unit :=
  assign (fun c => with_headers
                     (PyDict.set "Authorization" (JStr ("Bearer " ++ token)) (headers c)) c).

(** [_login()]. *)
Definition _login : M unit :=
  assign (fun c => with_headers (PyDict.pop "APP_SESSION_ID" (headers c)) c) ;;;
  c <- read (fun c => c) ;;
  match api_token c with
  | Some token => _set_headers_api_token token
  | None =>
      if is_cvaas c then raise (CvpLoginError CVAAS_LOGIN_MESSAGE)
      else _login_on_prem
  end.

(** The classes named by the [except] clause of [_reset_session]. *)
Definition login_error (e : exn) : bool :=
  match e with
  | RequestsError _ _ | CvpApiError _ | CvpRequestError _
  | CvpSessionLogOutError _ => true
  | _ => false
  end.

(** [_reset_session()]: a new [requests.Session], then [_login]; the
    error of a failed login is returned, not raised. *)
Definition _reset_session : M (option exn) :=
  assign (fun c => with_session (Some (sessions_opened c))
                     (with_sessions_opened (S (sessions_opened c)) c)) ;;;
  try_except (_login ;;; ret None)
    (fun error =>
       if login_error error
       then assign (with_session None) ;;; ret (Some error)
       else raise error).

(** The [for] loop of [_create_session], [rounds] iterations to go. *)
Fixpoint create_session_loop (rounds : nat) : M unit :=
  match rounds with
  | O => ret tt
  | S rounds' =>
      c <- read (fun c => c) ;;
      match cycle_next (node_pool c) with
      | None => raise StopIteration
      | Some (host, pool') =>
          assign (with_node_pool pool') ;;;
          let short := "https://" ++ host ++ ":" ++ PyStr.of_Z (port_or_443 (port c)) in
          assign (with_url_prefix (short ++ "/web")) ;;;
          assign (with_url_prefix_short short) ;;;
          error <- _reset_session ;;
          match error with
          | None => ret tt
          | Some e =>
              assign (fun c => with_error_msg
                                 (error_msg c ++ host ++ ": " ++ exn_str e
                                            ++ String "010" EmptyString) c) ;;;
              create_session_loop rounds'
          end
      end
  end.

(** [_create_session(all_nodes)]. *)
Definition _create_session (all_nodes : bool) : M unit :=
  c <- read (fun c => c) ;;
  let num_nodes := node_cnt c in
  let num_nodes := if negb all_nodes && Nat.ltb 1 num_nodes
                   then num_nodes - 1 else num_nodes in
  assign (with_error_msg (String "010" EmptyString)) ;;;
  create_session_loop num_nodes.
End Session.

(** A string or [None] as a value. *)
Definition str_or_none (s : option string) : json :=
  match s with
  | Some s => JStr s
  | None => JNull
  end.

(** The loop of [connect] over [nodes]: with [CURRENT_NODE_IP] set,
    [127.0.0.1] and [localhost] are replaced by it. *)
Definition mask_localhost (current_node_ip : option string) (nodes : list string)
  : list string :=
  match current_node_ip with
  | Some ip =>
      if String.eqb ip EmptyString then nodes
      else map (fun node => if String.eqb node "127.0.0.1" || String.eqb node "localhost"
                            then ip else node) nodes
  | None => nodes
  end.

(** The assignments of [connect] before it logs in; [api_token'] and
    [cvaas_token'] are the arguments [api_token] and [cvaas_token], each
    taking the place of both attributes when given, [api_token] last. *)
Definition configure (nodes : list string) (username password : option string)
           (connect_timeout : option Z) (request_timeout : Z) (protocol : string)
           (port : option Z) (cert : cert_t) (is_cvaas : bool)
           (tenant api_token' cvaas_token' : option string) (c : CvpClient)
  : CvpClient :=
  {| apiversion := apiversion c;
     authdata := JObj [("userId", str_or_none username);
                       ("password", str_or_none password)];
     cert := cert;
     connect_timeout := connect_timeout;
     cookies := cookies c;
     error_msg := error_msg c;
     node_cnt := List.length nodes;
     node_pool := mk_cycle nodes 0;
     nodes := nodes;
     port := port;
     protocol := protocol;
     session := session c;
     url_prefix := url_prefix c;
     url_prefix_short := url_prefix_short c;
     is_cvaas := is_cvaas;
     tenant := tenant;
     cvaas_token := match api_token' with
                    | Some _ => api_token'
                    | None => match cvaas_token' with
                              | Some _ => cvaas_token'
                              | None => cvaas_token c
                              end
                    end;
     api_token := match api_token' with
                  | Some _ => api_token'
                  | None => match cvaas_token' with
                            | Some _ => cvaas_token'
                            | None => api_token c
                            end
                  end;
     version := version c;
     _last_used_node := _last_used_node c;
     headers := headers c;
     request_timeout := request_timeout;
     sessions_opened := sessions_opened c;
     sent := sent c |}.

Section Connect.
Context `{Runtime} (net : network).

(** [connect(nodes, username, password, ...)]; [current_node_ip] is
    [os.environ.get('CURRENT_NODE_IP')]. *)
Definition connect (current_node_ip : option string)
           (nodes : list string) (username password : option string)
           (connect_timeout : option Z) (request_timeout : Z) (protocol : string)
           (port : option Z) (cert : cert_t) (is_cvaas : bool)
           (tenant api_token' cvaas_token' : option string) : M unit :=
  let nodes := mask_localhost current_node_ip nodes in
  assign (configure nodes username password connect_timeout request_timeout
                    protocol port cert is_cvaas tenant api_token' cvaas_token') ;;;
  _create_session net true ;;;
  c <- read (fun c => c) ;;
  match session c with
  | None => raise (CvpLoginError (error_msg c))
  | Some _ => ret tt
  end.
End Connect.

(** The client as [__init__] leaves it. *)
Definition new_client : CvpClient :=
  {| apiversion := None; authdata := JNull; cert := CertFlag false;
     connect_timeout := None; cookies := None; error_msg := EmptyString;
     node_cnt := 0; node_pool := mk_cycle [] 0; nodes := []; port := None;
     protocol := EmptyString; session := None; url_prefix := EmptyString;
     url_prefix_short := EmptyString; is_cvaas := false; tenant := None;
     cvaas_token := None; api_token := None; version := None;
     _last_used_node := None;
     headers := [("Accept", JStr "application/json");
                 ("Content-Type", JStr "application/json")];
     request_timeout := 30%Z; sessions_opened := 0; sent := [] |}.

(** ** The dispatcher *)

(** The node of [url_prefix], as [re.match] reads it with the pattern
    [http], an optional [s], [://], a greedy group of any characters but a
    line feed, and a colon: the group is what stands between the scheme and
    the last colon of the first line. *)
Module Re.

Fixpoint first_line (s : string) : string :=
  match s with
  | EmptyString => EmptyString
  | String c r => if Ascii.eqb c "010" then EmptyString else String c (first_line r)
  end.

Fixpoint before_last_colon (s : string) : option string :=
  match s with
  | EmptyString => None
  | String c r =>
      match before_last_colon r with
      | Some p => Some (String c p)
      | None => if Ascii.eqb c ":" then Some EmptyString else None
      end
  end.

Definition match_node (url_prefix : string) : option string :=
  if prefix "https://" url_prefix
  then before_last_colon (first_line (PyStr.drop 8 url_prefix))
  else if prefix "http://" url_prefix
       then before_last_colon (first_line (PyStr.drop 7 url_prefix))
       else None.

End Re.

Section Dispatcher.
Context `{Runtime} (net : network).

(** The request [_send_request] hands to the transport for [req_type];
    an upload forwards three of the headers only. *)
Definition build_request (c : CvpClient) (sid : nat) (req_type : req_type)
           (full_url : string) (timeout : Z) (data : json)
           (files : option file_map) : outcome Request :=
  let timeout := ConnectRead (connect_timeout c) timeout in
  match req_type, files with
  | GET, _ =>
      Return {| rq_session := sid; rq_method := GET; rq_url := full_url;
                rq_cookies := cookies c; rq_data := None;
                rq_headers := headers c; rq_timeout := timeout;
                rq_verify := cert c; rq_files := None |}
  | POST, None =>
      Return {| rq_session := sid; rq_method := POST; rq_url := full_url;
                rq_cookies := cookies c; rq_data := Some data;
                rq_headers := headers c; rq_timeout := timeout;
                rq_verify := cert c; rq_files := None |}
  | POST, Some _ =>
      match PyDict.get "Accept" (headers c) with
      | None => Raise (KeyError "Accept")
      | Some accept =>
          let fhs := [("Accept", accept)] in
          let fhs := match PyDict.get "APP_SESSION_ID" (headers c) with
                     | Some v => PyDict.set "APP_SESSION_ID" v fhs
                     | None => fhs
                     end in
          let fhs := match PyDict.get "Authorization" (headers c) with
                     | Some v => PyDict.set "Authorization" v fhs
                     | None => fhs
                     end in
          Return {| rq_session := sid; rq_method := POST; rq_url := full_url;
                    rq_cookies := cookies c; rq_data := None;
                    rq_headers := fhs; rq_timeout := timeout;
                    rq_verify := cert c; rq_files := files |}
      end
  | DELETE, _ =>
      Return {| rq_session := sid; rq_method := DELETE; rq_url := full_url;
                rq_cookies := cookies c; rq_data := Some data;
                rq_headers := headers c; rq_timeout := timeout;
                rq_verify := cert c; rq_files := None |}
  end.

(** The prefix of the error messages: ['%s: %s ' % (req_type, full_url)]. *)
Definition request_prefix (req_type : req_type) (full_url : string) : string :=
  match req_type with GET => "GET" | POST => "POST" | DELETE => "DELETE" end
  ++ ": " ++ full_url ++ " ".

(** One call of [self.session.get], [.post] or [.delete]. *)
Definition send (req_type : req_type) (full_url : string) (timeout : Z)
           (data : json) (files : option file_map) : M Response :=
  c <- read (fun c => c) ;;
  sid <- the_session ;;
  rq <- lift (build_request c sid req_type full_url timeout data files) ;;
  transport net rq.

(** The loop [for req_try in range(NUM_RETRY_REQUESTS)] of
    [_send_request], [tries] iterations to go; falling off the loop
    returns [None]. *)
Fixpoint send_request_loop (tries req_try : nat) (req_type : req_type)
         (full_url : string) (timeout : Z) (data : json)
         (files : option file_map) : M (option Response) :=
  match tries with
  | O => ret None
  | S tries' =>
      let retry := send_request_loop tries' (S req_try) req_type full_url
                                     timeout data files in
      fun c =>
        match send req_type full_url timeout data files c with
        | (Raise (RequestsError kind msg), c1) =>
            match kind with
            | ConnectionError | ConnectTimeout | HTTPError | TooManyRedirects =>
                (Raise (RequestsError kind msg), c1)
            | ReadTimeout | Timeout =>
                if Nat.eqb (req_try + 1) NUM_RETRY_REQUESTS
                then (Raise (RequestsError kind msg), c1)
                else retry c1
            end
        | (Raise error, c1) => (Raise error, c1)
        | (Return response, c1) =>
            match _is_good_response response (request_prefix req_type full_url) with
            | Return _ => (Return (Some response), c1)
            | Raise (CvpSessionLogOutError msg) =>
                let error := CvpSessionLogOutError msg in
                if Nat.eqb (req_try + 1) NUM_RETRY_REQUESTS then (Raise error, c1)
                else
                  match _reset_session net c1 with
                  | (Raise e, c2) => (Raise e, c2)
                  | (Return _, c2) =>
                      match session c2 with
                      | None => (Raise error, c2)
                      | Some _ => retry c2
                      end
                  end
            | Raise (CvpApiError msg) =>
                let error := CvpApiError msg in
                if unauthorized msg then
                  if Nat.eqb (req_try + 1) NUM_RETRY_REQUESTS then (Raise error, c1)
                  else
                    match _reset_session net c1 with
                    | (Raise e, c2) => (Raise e, c2)
                    | (Return _, c2) =>
                        match session c2 with
                        | None => (Raise error, c2)
                        | Some _ => retry c2
                        end
                    end
                else (Raise error, c1)
            | Raise error => (Raise error, c1)
            end
        end
  end.

(** [_send_request(req_type, full_url, timeout, data, files)]. *)
Definition _send_request (req_type : req_type) (full_url : string) (timeout : Z)
           (data : json) (files : option file_map) : M (option Response) :=
  send_request_loop NUM_RETRY_REQUESTS 0 req_type full_url timeout data files.
End Dispatcher.

Section MakeRequest.
Context `{Runtime} (net : network).

(** The full URL for the node in use. *)
Definition full_url_of (c : CvpClient) (url : string) : string :=
  if PyStr.contains "/api/" url || PyStr.contains "/cvpservice/" url
  then url_prefix_short c ++ url
  else if is_cvaas c
       then url_prefix_short c ++ "/cvpservice" ++ url
       else url_prefix c ++ url.

(** What both [except] clauses of the node loop do once the error is one
    to try another node for. *)
Definition fail_over (error : exn) (node_num : nat) (next_node : M (option Response * string))
  : M (option Response * string) :=
  c <- read (fun c => c) ;;
  if Nat.eqb (node_num + 1) (node_cnt c) then raise error
  else
    _create_session net false ;;;
    c' <- read (fun c => c) ;;
    match session c' with
    | None => raise error
    | Some _ => next_node
    end.

(** The loop [for node_num in range(self.node_cnt)] of [_make_request],
    [rounds] iterations to go: the response and the URL it came from. *)
Fixpoint node_loop (rounds node_num : nat) (req_type : req_type) (url : string)
         (timeout : Z) (data : json) (files : option file_map)
  : M (option Response * string) :=
  match rounds with
  | O => ret (None, EmptyString)
  | S rounds' =>
      c <- read (fun c => c) ;;
      let full_url := full_url_of c url in
      let next_node := node_loop rounds' (S node_num) req_type url timeout data files in
      try_except
        (response <- _send_request net req_type full_url timeout data files ;;
         ret (response, full_url))
        (fun error =>
           match error with
           | CvpApiError msg =>
               if negb (PyStr.contains "Unauthorized" msg)
                  && negb (PyStr.contains "User is unauthorized" msg)
               then raise error
               else fail_over error node_num next_node
           | RequestsError _ _ | CvpSessionLogOutError _ =>
               fail_over error node_num next_node
           | _ => raise error
           end)
  end.

(** The decoding at the end of [_make_request], from [response.content]
    on. *)
Definition decode_response (response : Response) (full_url : string) : outcome json :=
  if String.eqb (content response) EmptyString || String.eqb (content response) "null"
  then Return (JObj [("data", JArr [])])
  else
    match PyJsonDecode.loads (text response) with
    | inl resp_data =>
        wrap <~ (match resp_data with
                 | JNull => Return false
                 | _ =>
                     has_result <~ py_in "result" resp_data ;;
                     Return ((has_result : bool) && PyStr.contains "/resources/" full_url)
                 end) ;;
        if (wrap : bool) then Return (JObj [("data", JArr [resp_data])])
        else Return resp_data
    | inr error =>
        if PyStr.contains "Extra data" (PyJsonDecode.error_str error) then
          let decoded_data := json_decoder (text response) in
          Return (JObj [("data", decoded_data)])
        else Raise (JSONDecodeError error)
    end.

(** [_make_request(req_type, url, timeout, data, files)]; the result
    [JNull] is Python's [None]. *)
Definition _make_request (req_type : req_type) (url : string) (timeout : Z)
           (data : json) (files : option file_map) : M json :=
  c <- read (fun c => c) ;;
  match session c with
  | None => raise (ValueError "No valid session to CVP node")
  | Some _ =>
      node <- lift (match Re.match_node (url_prefix c) with
                    | Some node => Return node
                    | None => Raise AttributeError
                    end) ;;
      assign (with_last_used_node (Some node)) ;;;
      sent_to <- node_loop (node_cnt c) 0 req_type url timeout data files ;;
      match sent_to with
      | (None, _) => ret JNull
      | (Some response, full_url) =>
          if negb (ok response) then ret JNull
          else lift (decode_response response full_url)
      end
  end.

(** [get(url, timeout)]. *)
Definition get (url : string) (timeout : Z) : M json :=
  _make_request GET url timeout JNull None.

(** [post(url, data, files, timeout)]. *)
Definition post (url : string) (data : json) (files : option file_map)
           (timeout : Z) : M json :=
  _make_request POST url timeout data files.

(** [delete(url, data, timeout)]. *)
Definition delete (url : string) (data : json) (timeout : Z) : M json :=
  _make_request DELETE url timeout data None.

(** [logout()]. *)
Definition logout : M unit :=
  response <- post "/login/logout.do" JNull None 30%Z ;;
  status <- lift (py_getitem response "data") ;;
  if eq_str "success" status then assign (with_session None) else ret tt.
End MakeRequest.

(** ** A runtime to compute with

    The scanner of [PyJson] as [raw_decode]; [str] of a string is the
    string, of an integer its numeral, of [None], [True] and [False] their
    names.  A float prints as it was read and a string inside a list or
    dict is put between apostrophes as it is: good enough for the values
    used below, none of which has a float or a quote in it. *)
Module PyRuntime.

Fixpoint repr (v : json) : string :=
  match v with
  | JNull => "None"
  | JBool true => "True"
  | JBool false => "False"
  | JInt z => PyStr.of_Z z
  | JFloat numeral _ => numeral
  | JStr s => "'" ++ s ++ "'"
  | JArr items =>
      "[" ++ PyStr.join ", " ((fix reprs (l : list json) : list string :=
                                 match l with
                                 | [] => []
                                 | x :: l' => repr x :: reprs l'
                                 end) items) ++ "]"
  | JObj members =>
      "{" ++ PyStr.join ", " ((fix reprs (l : list (string * json)) : list string :=
                                 match l with
                                 | [] => []
                                 | (k, x) :: l' => ("'" ++ k ++ "': " ++ repr x) :: reprs l'
                                 end) members) ++ "}"
  end.

Definition format (v : json) : string :=
  match v with
  | JStr s => s
  | _ => repr v
  end.

Definition str_of_exn (e : exn) : string :=
  match e with
  | ValueError msg | CvpApiError msg | CvpLoginError msg | CvpRequestError msg
  | CvpSessionLogOutError msg | RequestsError _ msg => msg
  | JSONDecodeError error => PyJsonDecode.error_str error
  | InvalidVersion version => "Invalid version: '" ++ version ++ "'"
  | KeyError key => "'" ++ key ++ "'"
  | IndexError | TypeError | AttributeError | StopIteration => EmptyString
  end.

#[export] Instance runtime : Runtime :=
  {| raw_decode := PyJsonDecode.py_raw_decode;
     py_format := format;
     exn_str := str_of_exn |}.

End PyRuntime.

(** Worlds and clients to compute with. *)
Module Fixture.

(** A reply with status 200 and the given body. *)
Definition ok_response (body : string) : Response :=
  {| ok := true; reason := "OK"; content := body; response_cookies := [] |}.

(** A reply with a failure status. *)
Definition bad_response (reason body : string) : Response :=
  {| ok := false; reason := reason; content := body; response_cookies := [] |}.

(** A world that gives every request the same reply. *)
Definition always (r : Response + (requests_error * string)) : network :=
  fun _ _ => r.

(** A client logged in on [host] by token, [pool] its nodes. *)
Definition client (host : string) (pool : list string) : CvpClient :=
  {| apiversion := None; authdata := JObj [("userId", JNull); ("password", JNull)];
     cert := CertFlag false; connect_timeout := Some 10%Z; cookies := None;
     error_msg := String "010" EmptyString;
     node_cnt := List.length pool; node_pool := mk_cycle pool 1; nodes := pool;
     port := None; protocol := "https"; session := Some 0;
     url_prefix := "https://" ++ host ++ ":443/web";
     url_prefix_short := "https://" ++ host ++ ":443";
     is_cvaas := false; tenant := None; cvaas_token := Some "tok";
     api_token := Some "tok"; version := None; _last_used_node := None;
     headers := [("Accept", JStr "application/json");
                 ("Content-Type", JStr "application/json");
                 ("Authorization", JStr "Bearer tok")];
     request_timeout := 30%Z; sessions_opened := 1; sent := [] |}.

(** A client set up for CVaaS without a token, on [host]. *)
Definition cvaas_client (host : string) (pool : list string) : CvpClient :=
  {| apiversion := None; authdata := JObj [("userId", JNull); ("password", JNull)];
     cert := CertFlag false; connect_timeout := Some 10%Z; cookies := None;
     error_msg := String "010" EmptyString;
     node_cnt := List.length pool; node_pool := mk_cycle pool 1; nodes := pool;
     port := None; protocol := "https"; session := None;
     url_prefix := "https://" ++ host ++ ":443/web";
     url_prefix_short := "https://" ++ host ++ ":443";
     is_cvaas := true; tenant := Some "org"; cvaas_token := None;
     api_token := None; version := None; _last_used_node := None;
     headers := [("Accept", JStr "application/json");
                 ("Content-Type", JStr "application/json")];
     request_timeout := 30%Z; sessions_opened := 0; sent := [] |}.

(** A client set up with a user name and a password, on [host]. *)
Definition password_client (host : string) (pool : list string) : CvpClient :=
  {| apiversion := None;
     authdata := JObj [("userId", JStr "admin"); ("password", JStr "secret")];
     cert := CertFlag false; connect_timeout := Some 10%Z; cookies := None;
     error_msg := String "010" EmptyString;
     node_cnt := List.length pool; node_pool := mk_cycle pool 1; nodes := pool;
     port := None; protocol := "https"; session := None;
     url_prefix := "https://" ++ host ++ ":443/web";
     url_prefix_short := "https://" ++ host ++ ":443";
     is_cvaas := false; tenant := None; cvaas_token := None;
     api_token := None; version := None; _last_used_node := None;
     headers := [("Accept", JStr "application/json");
                 ("Content-Type", JStr "application/json")];
     request_timeout := 30%Z; sessions_opened := 0; sent := [] |}.

(** The [GET] request [client host pool] builds for [url]. *)
Definition get_request (host : string) (pool : list string) (url : string) : Request :=
  {| rq_session := 0; rq_method := GET;
     rq_url := "https://" ++ host ++ ":443/web" ++ url;
     rq_cookies := None; rq_data := None;
     rq_headers := headers (client host pool);
     rq_timeout := ConnectRead (Some 10%Z) 30%Z;
     rq_verify := CertFlag false; rq_files := None |}.

(** Two objects in one body, [sep] between them. *)
Definition two_objects (sep : string) : string :=
  PyJson.text "{'a':1}" ++ sep ++ PyJson.text "{'b':2}".

Definition object_a : json := JObj [("a", JInt 1)].
Definition object_b : json := JObj [("b", JInt 2)].

End Fixture.


(** ** The specification's wording, to compare the code with *)

Module Spec.

(** ApiVersionMapping: the pairs of a minimum product version and an api
    version, newest first. *)
Definition ApiVersionMapping : list (string * Z) :=
  [("2022.1.0", 8); ("2021.3.0", 7); ("2021.2.0", 6); ("2020.2.4", 5);
   ("2020.1.1", 4); ("2019.0.0", 3); ("2018.2.0", 2)]%Z.

(** The oldest supported api version. *)
Definition oldest : Z := 1.

(** Pad to a form of three components. *)
Definition pad (version : string) : string :=
  let components := PyStr.split "." version in
  PyStr.join "." (if Nat.ltb (List.length components) 3
                  then (components ++ ["0"])%list else components).

(** Compare against the thresholds from newest to oldest and select the
    first one the version is greater than or equal to; the oldest api
    version if none matches. *)
Fixpoint select (mapping : list (string * Z)) (version : list Z) : Z :=
  match mapping with
  | [] => oldest
  | (threshold, api) :: mapping' =>
      match PkgResources.parse_version threshold with
      | Some t => if PkgResources.ge version t then api else select mapping' version
      | None => select mapping' version
      end
  end.

End Spec.

(** The errors [_make_request] goes to another node for: a requests
    error, a logged-out session, an unauthorized user. *)
Definition retryable (e : exn) : bool :=
  match e with
  | CvpApiError msg => unauthorized msg
  | RequestsError _ _ | CvpSessionLogOutError _ => true
  | _ => false
  end.

(** The client once [_make_request] has noted the node in use. *)
Definition noted (node : string) (c : CvpClient) : CvpClient :=
  with_last_used_node (Some node) c.

(** The client once the request [rq] went out. *)
Definition after_sending (rq : Request) (c : CvpClient) : CvpClient :=
  with_sent (sent c ++ [rq])%list c.

(** The errors of the classifier that [_send_request] raises at once:
    all but a logged-out session and an unauthorized user. *)
Definition final (e : exn) : bool :=
  match e with
  | CvpSessionLogOutError _ => false
  | CvpApiError msg => negb (unauthorized msg)
  | _ => true
  end.

Section Answered.
Context `{Runtime} (net : network).

(** [answered c req_type url timeout data files sid node rq response]:
    the client [c] has the session [sid] on [node] and at least one node,
    the request it builds for [url] is [rq], and the world answers [rq]
    with [response]. *)
Definition answered (c : CvpClient) (req_type : req_type) (url : string)
           (timeout : Z) (data : json) (files : option file_map)
           (sid : nat) (node : string) (rq : Request) (response : Response) : Prop :=
  session c = Some sid
  /\ Re.match_node (url_prefix c) = Some node
  /\ node_cnt c <> 0
  /\ build_request c sid req_type (full_url_of c url) timeout data files = Return rq
  /\ net (sent c) rq = inl response.
End Answered.

Section Persisting.
Context `{Runtime} (net : network).
Variables (req_type : req_type) (url : string) (timeout : Z) (data : json)
          (files : option file_map).

End Persisting.

(** An exception other than a [ValueError]. *)
Definition other_error (e : exn) : bool :=
  match e with
  | ValueError _ => false
  | _ => true
  end.

(** An expression, a method that raise no [ValueError]. *)
Definition expr_ok {A} (o : outcome A) : Prop :=
  forall e, o = Raise e -> other_error e = true.

Definition method_ok {A} (m : M A) : Prop :=
  forall c e c', m c = (Raise e, c') -> other_error e = true.

(** The two timeouts [_send_request] tries the same node again for. *)
Definition is_timeout (kind : requests_error) : bool :=
  match kind with
  | ReadTimeout | Timeout => true
  | _ => false
  end.

(** The world answers the request [rq] with a timeout, whatever was sent
    before. *)
Definition times_out (net : network) (rq : Request) : Prop :=
  forall sent_before, exists kind msg,
    net sent_before rq = inr (kind, msg) /\ is_timeout kind = true.

(** The node in use and the rotation: the attributes [node_pool],
    [url_prefix], [url_prefix_short], [nodes] and [node_cnt] of [c'] are
    those of [c]. *)
Definition same_node (c c' : CvpClient) : Prop :=
  node_pool c' = node_pool c
  /\ url_prefix c' = url_prefix c
  /\ url_prefix_short c' = url_prefix_short c
  /\ nodes c' = nodes c
  /\ node_cnt c' = node_cnt c.

(** The configuration [connect] sets: the nodes and their number, the
    port, the credentials and the CVaaS flag of [c'] are those of [c]. *)
Definition same_config (c c' : CvpClient) : Prop :=
  nodes c' = nodes c
  /\ node_cnt c' = node_cnt c
  /\ port c' = port c
  /\ api_token c' = api_token c
  /\ is_cvaas c' = is_cvaas c.

(** The session object and the count of the objects created: those of
    [c'] are those of [c]. *)
Definition same_session (c c' : CvpClient) : Prop :=
  session c' = session c /\ sessions_opened c' = sessions_opened c.

(** The message accumulated by [_create_session]: that of [c'] is that
    of [c]. *)
Definition same_log (c c' : CvpClient) : Prop := error_msg c' = error_msg c.

Section Aggregate.
Context `{Runtime} (net : network).

(** The lines [_create_session] adds to [error_msg], one ['%s: %s\n'] for
    each node and the error its login returned. *)
Fixpoint failure_lines (hosts : list string) (reasons : list exn) : string :=
  match hosts, reasons with
  | host :: hosts', reason :: reasons' =>
      host ++ ": " ++ exn_str reason ++ String "010" EmptyString
           ++ failure_lines hosts' reasons'
  | _, _ => EmptyString
  end.

End Aggregate.

(** The client once [_create_session] has taken [host] from the pool and
    set the two URL prefixes for it. *)
Definition select_node (host : string) (pool' : cycle) (c : CvpClient) : CvpClient :=
  let short := "https://" ++ host ++ ":" ++ PyStr.of_Z (port_or_443 (port c)) in
  with_url_prefix_short short (with_url_prefix (short ++ "/web") (with_node_pool pool' c)).

(** The client once the line of a failed login is added to [error_msg]. *)
Definition log_failure `{Runtime} (host : string) (e : exn) (c : CvpClient) : CvpClient :=
  with_error_msg (error_msg c ++ host ++ ": " ++ exn_str e ++ String "010" EmptyString) c.

(** A method that keeps a relation between the client before and after,
    whether it returns or raises. *)
Definition keeps {A} (R : CvpClient -> CvpClient -> Prop) (m : M A) : Prop :=
  forall c r c', m c = (r, c') -> R c c'.

(** [occurs key v obj]: somewhere in the nested lists and dicts of [obj] a
    dict has [v] under [key]. *)
Inductive occurs (key : string) (v : json) : json -> Prop :=
| occurs_here members :
    PyDict.get key members = Some v -> occurs key v (JObj members)
| occurs_member members k x :
    In (k, x) members -> occurs key v x -> occurs key v (JObj members)
| occurs_item items x :
    In x items -> occurs key v x -> occurs key v (JArr items).

(** [chunks data position values]: decoding [data] at [position], then one
    past the end of each value in turn, gives [values] and then fails. *)
Inductive chunks `{Runtime} (data : string) : nat -> list json -> Prop :=
| chunks_end position err :
    raw_decode data position = inr err -> chunks data position []
| chunks_value position obj position' values :
    raw_decode data position = inl (obj, position') ->
    chunks data (position' + 1) values ->
    chunks data position (obj :: values).

(** [untouched proj c c']: the part [proj] of the client is in [c'] what
    it was in [c]. *)
Definition untouched {A : Type} (proj : CvpClient -> A) (c c' : CvpClient) : Prop :=
  proj c' = proj c.

(** What [connect] and [set_version] set up and a request has no business
    with: the nodes and their number, the port and the protocol, the
    credentials, the certificate, the timeouts, the CVaaS settings and the
    versions. *)
Definition configuration (c : CvpClient) :=
  (nodes c, node_cnt c, port c, protocol c, authdata c, cert c,
   connect_timeout c, request_timeout c, is_cvaas c, tenant c,
   cvaas_token c, api_token c, version c, apiversion c).

(** [last_used_node], the property. *)
Definition last_used_node (c : CvpClient) : option string := _last_used_node c.

(** A world in which the node [down] refuses every connection and any
    other node answers [reply]. *)
Definition one_node_down (down : string) (reply : Response) : network :=
  fun _ rq =>
    if String.prefix ("https://" ++ down ++ ":") (rq_url rq)
    then inr (ConnectionError, "connection refused")
    else inl reply.

(** [ch in s] for a character. *)
Fixpoint has_char (ch : ascii) (s : string) : bool :=
  match s with
  | EmptyString => false
  | String c s' => Ascii.eqb c ch || has_char ch s'
  end.

(** The address [_create_session] sets for [host]. *)
Definition node_url (host : string) (port : option Z) : string :=
  "https://" ++ host ++ ":" ++ PyStr.of_Z (port_or_443 port).

(** The token [connect] leaves in [api_token]: the argument [api_token],
    else the argument [cvaas_token], else the one the client had. *)
Definition token_in_use (api_token' cvaas_token' : option string) (c : CvpClient)
  : option string :=
  match api_token' with
  | Some _ => api_token'
  | None => match cvaas_token' with
            | Some _ => cvaas_token'
            | None => api_token c
            end
  end.

(** The client once [_reset_session] has logged in with the token [tok]. *)
Definition token_session (tok : string) (c : CvpClient) : CvpClient :=
  with_headers
    (PyDict.set "Authorization" (JStr ("Bearer " ++ tok))
                (PyDict.pop "APP_SESSION_ID" (headers c)))
    (with_session (Some (sessions_opened c))
                  (with_sessions_opened (S (sessions_opened c)) c)).

(** The [j] nodes a [cycle] over [items] gives from the cursor [k] on. *)
Definition rotation (items : list string) (k j : nat) : list string :=
  map (fun i => nth ((k + i) mod List.length items) items EmptyString) (seq 0 j).

(** The number of nodes [_create_session(all_nodes)] goes through at
    most. *)
Definition rounds_of (all_nodes : bool) (node_cnt : nat) : nat :=
  if negb all_nodes && Nat.ltb 1 node_cnt then node_cnt - 1 else node_cnt.

(** The request [_login_on_prem] sends for the client [c] about to open a
    session: the credentials, to [/login/authenticate.do] of the node in
    use, without cookies and without the session id of an earlier login. *)
Definition login_request (c : CvpClient) : Request :=
  {| rq_session := sessions_opened c; rq_method := POST;
     rq_url := url_prefix c ++ "/login/authenticate.do";
     rq_cookies := None; rq_data := Some (authdata c);
     rq_headers := PyDict.pop "APP_SESSION_ID" (headers c);
     rq_timeout := ConnectOnly (connect_timeout c);
     rq_verify := cert c; rq_files := None |}.

(** The client once [_reset_session] has logged in with the credentials
    and got [response] with the session id [session_id]. *)
Definition password_session (response : Response) (session_id : json) (c : CvpClient)
  : CvpClient :=
  with_headers
    (PyDict.set "APP_SESSION_ID" session_id (PyDict.pop "APP_SESSION_ID" (headers c)))
    (with_cookies (Some (response_cookies response))
       (with_sent (sent c ++ [login_request c])%list
          (with_headers (PyDict.pop "APP_SESSION_ID" (headers c))
             (with_session (Some (sessions_opened c))
                (with_sessions_opened (S (sessions_opened c)) c))))).

(** The messages of the scanner's errors. *)
Definition scanner_messages : list string :=
  ["Expecting value"; "Expecting property name enclosed in double quotes";
   "Expecting ',' delimiter"; "Expecting ':' delimiter";
   "Unterminated string starting at"; "Invalid control character at";
   "Invalid \escape"; "Invalid \uXXXX escape";
   "maximum recursion depth exceeded"].

(** A scan that ended well, or with one of those messages. *)
Definition known {A : Type} (r : PyJson.scan A) : Prop :=
  match r with
  | PyJson.ScanError msg _ => In msg scanner_messages
  | PyJson.Scanned _ _ => True
  end.

(** [sent_more k c c']: from [c] to [c'] the client sent at most [k]
    requests, and took none back. *)
Definition sent_more (k : nat) (c c' : CvpClient) : Prop :=
  exists more, sent c' = (sent c ++ more)%list /\ List.length more <= k.

(** [rejected_in_turn net c hosts reasons c']: from the client [c] on, the
    loop of [_create_session] takes the nodes [hosts] from the pool one
    after the other, sets the addresses for each, logs in and has the error
    of [reasons] returned for it, which it adds to [error_msg]; [c'] is the
    client after the last of them.  These are the runs of [_reset_session]
    on the clients the loop really has, not on any client. *)
Inductive rejected_in_turn `{Runtime} (net : network)
  : CvpClient -> list string -> list exn -> CvpClient -> Prop :=
| rejected_none c : rejected_in_turn net c [] [] c
| rejected_next c host pool' e c1 hosts reasons c' :
    cycle_next (node_pool c) = Some (host, pool') ->
    _reset_session net (select_node host pool' c) = (Return (Some e), c1) ->
    rejected_in_turn net (log_failure host e c1) hosts reasons c' ->
    rejected_in_turn net c (host :: hosts) (e :: reasons) c'.

(** [accepted net c host c']: the next node of the pool of [c] is [host],
    and the login on it, with the addresses set for it, returns no error and
    leaves the client [c']. *)
Definition accepted `{Runtime} (net : network) (c : CvpClient) (host : string)
           (c' : CvpClient) : Prop :=
  exists pool',
    cycle_next (node_pool c) = Some (host, pool')
    /\ _reset_session net (select_node host pool' c) = (Return None, c').

(** A world that gives [first] as long as nothing was sent, [afterwards]
    from then on. *)
Definition first_then (first afterwards : Response + (requests_error * string))
  : network :=
  fun sent_before _ =>
    match sent_before with
    | [] => first
    | _ => afterwards
    end.

(** The decoder reports no failure of its own as [Extra data]: that
    message is the one [json.loads] has for what follows a value. *)
Definition decoder_reports `{Runtime} : Prop :=
  forall s idx err,
    raw_decode s idx = inr err ->
    PyStr.contains "Extra data" (PyJsonDecode.error_str err) = false.

(** ** Strings: containment *)

Lemma prefix_app (n s t : string) : prefix n s = true -> prefix n (s ++ t) = true.
Proof.
  revert s; induction n as [|a n IH]; intros s Hp.
  - destruct s; [destruct t|]; reflexivity.
  - destruct s as [|b s]; simpl in *; [discriminate|].
    destruct (ascii_dec a b); [auto | discriminate].
Qed.

Lemma contains_app_l (n s t : string) :
  PyStr.contains n s = true -> PyStr.contains n (s ++ t) = true.
Proof.
  induction s as [|b s IH]; intros Hc.
  - destruct n; [destruct t; reflexivity | discriminate].
  - unfold PyStr.contains in Hc; fold PyStr.contains in Hc.
    change (String b s ++ t) with (String b (s ++ t)).
    unfold PyStr.contains; fold PyStr.contains.
    destruct (prefix n (String b s)) eqn:Hp.
    + change (String b (s ++ t)) with (String b s ++ t).
      rewrite (prefix_app _ _ t Hp). reflexivity.
    + destruct (prefix n (String b (s ++ t))); auto.
Qed.


(** ** Version resolution: the code against the mapping *)

(** The [if]/[elif] chain of [set_version] is the selection over
    [ApiVersionMapping]. *)
Lemma set_version_select (c : CvpClient) (version : string) (release : list Z) :
  is_cvaas c = false ->
  PkgResources.parse_version (Spec.pad version) = Some release ->
  set_version version c
  = (Return tt,
     with_apiversion (Some (Spec.select Spec.ApiVersionMapping release))
                     (with_version (Some version) c)).
Proof.
  intros Hc Hp.
  unfold set_version, bind, assign, read, lift.
  cbn [is_cvaas with_version]. rewrite Hc.
  change (PyStr.join "." _) with (Spec.pad version).
  unfold version_ge. rewrite Hp.
  cbv [Spec.select Spec.ApiVersionMapping].
  repeat match goal with
         | |- context [PkgResources.parse_version ?s] =>
             let r := eval vm_compute in (PkgResources.parse_version s) in
             change (PkgResources.parse_version s) with r
         end.
  cbv beta iota.
  repeat match goal with
         | |- context [PkgResources.ge release ?t] =>
             destruct (PkgResources.ge release t); [reflexivity|]
         end.
  reflexivity.
Qed.

Lemma prefix_dot (ch : ascii) (w : string) :
  prefix "." (String ch w) = Ascii.eqb ch ".".
Proof.
  change (prefix "." (String ch w))
    with (if ascii_dec "." ch then prefix EmptyString w else false).
  destruct (ascii_dec "." ch) as [E|E].
  - subst ch. destruct w; reflexivity.
  - symmetry. apply Ascii.eqb_neq. congruence.
Qed.

Lemma contains_dot_cons (ch : ascii) (w : string) :
  PyStr.contains "." (String ch w) = Ascii.eqb ch "." || PyStr.contains "." w.
Proof.
  unfold PyStr.contains at 1; fold PyStr.contains.
  rewrite prefix_dot. destruct (Ascii.eqb ch "."); reflexivity.
Qed.

Lemma split_no_dot_one (a : string) :
  PyStr.contains "." a = false -> PyStr.split "." a = [a].
Proof.
  induction a as [|ch a IHa]; intros Ha; [reflexivity|].
  rewrite contains_dot_cons in Ha. apply orb_false_iff in Ha as [He Ha].
  cbn [PyStr.split]. rewrite He, (IHa Ha). reflexivity.
Qed.

Lemma split_no_dot_app (a b : string) :
  PyStr.contains "." a = false ->
  PyStr.split "." (a ++ "." ++ b) = a :: PyStr.split "." b.
Proof.
  induction a as [|ch a IHa]; intros Ha; [reflexivity|].
  rewrite contains_dot_cons in Ha. apply orb_false_iff in Ha as [He Ha].
  change ((String ch a ++ "." ++ b)) with (String ch (a ++ "." ++ b)).
  cbn [PyStr.split]. rewrite He, (IHa Ha). reflexivity.
Qed.

Lemma split_join (l : list string) :
  l <> [] ->
  Forall (fun w => PyStr.contains "." w = false) l ->
  PyStr.split "." (PyStr.join "." l) = l.
Proof.
  intros Hne Hall. induction Hall as [|w l Hw Hall IH]; [congruence|].
  clear Hne. destruct l as [|w' l'].
  - simpl. now apply split_no_dot_one.
  - change (PyStr.join "." (w :: w' :: l')) with (w ++ "." ++ PyStr.join "." (w' :: l')).
    rewrite (split_no_dot_app _ _ Hw). rewrite IH; [reflexivity | discriminate].
Qed.

Lemma split_no_dot (s : string) :
  Forall (fun w => PyStr.contains "." w = false) (PyStr.split "." s)
  /\ PyStr.split "." s <> [].
Proof.
  induction s as [|ch s [IH Hne]].
  - split; [repeat constructor | discriminate].
  - cbn [PyStr.split]. destruct (Ascii.eqb ch ".") eqn:He.
    + split; [constructor; [reflexivity | assumption] | discriminate].
    + destruct (PyStr.split "." s) as [|w ws]; [congruence|].
      inversion IH as [|? ? Hw Hws]; subst.
      split; [|discriminate]. constructor; [|assumption].
      rewrite contains_dot_cons, He, Hw. reflexivity.
Qed.

(** Padding leaves a version of two or more components with three or
    more. *)
Lemma pad_components (version : string) :
  2 <= List.length (PyStr.split "." version) ->
  3 <= List.length (PyStr.split "." (Spec.pad version)).
Proof.
  intros Hlen. unfold Spec.pad.
  destruct (split_no_dot version) as [Hall Hne].
  rewrite split_join.
  - destruct (Nat.ltb_spec (List.length (PyStr.split "." version)) 3);
      [rewrite length_app; simpl; lia | lia].
  - destruct (Nat.ltb _ 3); [|assumption].
    destruct (PyStr.split "." version); discriminate.
  - destruct (Nat.ltb _ 3); [|assumption].
    apply Forall_app; split; [assumption | repeat constructor].
Qed.

Lemma set_version_at (c : CvpClient) (version : string) (release : list Z) (api : Z) :
  is_cvaas c = false ->
  PkgResources.parse_version (Spec.pad version) = Some release ->
  Spec.select Spec.ApiVersionMapping release = api ->
  set_version version c
  = (Return tt, with_apiversion (Some api) (with_version (Some version) c)).
Proof. intros Hc Hp <-. now apply set_version_select. Qed.

(** C6.  For a version string of at least two components, outside CVaaS,
    [set_version] pads the string to three components and sets the api
    version the mapping selects: the first threshold, newest to oldest, the
    version is greater than or equal to, 1.0 when there is none.  The
    boundaries: 2018.1.9 gives 1.0, 2018.2.0 gives 2.0, 2019.0.0 gives 3.0,
    2020.1.1 gives 4.0, 2020.2.4 gives 5.0, 2021.2.0 gives 6.0, 2021.3.0
    gives 7.0 and 2022.1.0 gives 8.0.  With CVaaS the newest api version,
    8.0, is set whatever the version string. *)
Theorem set_version_mapping :
  (forall (c : CvpClient) (version : string) (release : list Z),
      is_cvaas c = false ->
      2 <= List.length (PyStr.split "." version) ->
      PkgResources.parse_version (Spec.pad version) = Some release ->
      3 <= List.length (PyStr.split "." (Spec.pad version))
      /\ set_version version c
         = (Return tt,
            with_apiversion (Some (Spec.select Spec.ApiVersionMapping release))
                            (with_version (Some version) c)))
  /\ (forall c : CvpClient,
         is_cvaas c = false ->
         let api version := apiversion (snd (set_version version c)) in
         api "2018.1.9" = Some 1%Z /\ api "2018.2.0" = Some 2%Z
         /\ api "2019.0.0" = Some 3%Z /\ api "2020.1.1" = Some 4%Z
         /\ api "2020.2.4" = Some 5%Z /\ api "2021.2.0" = Some 6%Z
         /\ api "2021.3.0" = Some 7%Z /\ api "2022.1.0" = Some 8%Z)
  /\ (forall (c : CvpClient) (version : string),
         is_cvaas c = true ->
         set_version version c
         = (Return tt,
            with_apiversion (Some LATEST_API_VERSION) (with_version (Some version) c)))
  /\ LATEST_API_VERSION = 8%Z.
Proof.
  split; [|split; [|split]].
  - intros c version release Hc Hlen Hp. split.
    + now apply pad_components.
    + now apply set_version_select.
  - intros c Hc api. unfold api.
    repeat split;
      match goal with
      | |- apiversion (snd (set_version ?v c)) = Some ?n =>
          rewrite (set_version_at c v
                     (match PkgResources.parse_version (Spec.pad v) with
                      | Some r => r | None => [] end) n Hc);
          [reflexivity | vm_compute; reflexivity | vm_compute; reflexivity]
      end.
  - intros c version Hc.
    unfold set_version, bind, assign, read.
    cbn [is_cvaas with_version]. rewrite Hc. reflexivity.
  - reflexivity.
Qed.

(** The version 2020.1 of two components is read as 2020.1.0 and gets the
    api version 3.0. *)
Lemma set_version_mapping_witness :
  3 <= List.length (PyStr.split "." (Spec.pad "2020.1"))
  /\ set_version "2020.1" new_client
     = (Return tt,
        with_apiversion (Some 3%Z) (with_version (Some "2020.1") new_client)).
Proof.
  exact (proj1 set_version_mapping new_client "2020.1" [2020; 1]%Z
               eq_refl (le_n 2) eq_refl).
Defined.

(** ** The dispatcher, one step at a time *)

Section DispatcherFacts.
Context `{Runtime} (net : network).
Variables (req_type : req_type) (timeout : Z) (data : json)
          (files : option file_map).

Lemma send_eq (c : CvpClient) (sid : nat) (full_url : string) (rq : Request) :
  session c = Some sid ->
  build_request c sid req_type full_url timeout data files = Return rq ->
  send net req_type full_url timeout data files c
  = (match net (sent c) rq with
     | inl response => Return response
     | inr (kind, msg) => Raise (RequestsError kind msg)
     end, after_sending rq c).
Proof.
  intros Hs Hb. unfold send, bind, read, the_session, lift, transport.
  rewrite Hs, Hb. reflexivity.
Qed.

(** A good response ends [_send_request] at once. *)
Lemma send_request_loop_good (tries req_try : nat) (c c1 : CvpClient)
      (full_url : string) (response : Response) :
  send net req_type full_url timeout data files c = (Return response, c1) ->
  _is_good_response response (request_prefix req_type full_url) = Return tt ->
  send_request_loop net (S tries) req_try req_type full_url timeout data files c
  = (Return (Some response), c1).
Proof.
  intros Hsend Hgood. cbn [send_request_loop]. rewrite Hsend, Hgood. reflexivity.
Qed.

Lemma send_request_loop_final (tries req_try : nat) (c c1 : CvpClient)
      (full_url : string) (response : Response) (e : exn) :
  send net req_type full_url timeout data files c = (Return response, c1) ->
  _is_good_response response (request_prefix req_type full_url) = Raise e ->
  final e = true ->
  send_request_loop net (S tries) req_try req_type full_url timeout data files c
  = (Raise e, c1).
Proof.
  intros Hsend Hbad Hfinal. cbn [send_request_loop]. rewrite Hsend, Hbad.
  destruct e; try reflexivity; try discriminate.
  cbn [final] in Hfinal. apply negb_true_iff in Hfinal. rewrite Hfinal. reflexivity.
Qed.

(** The first round of the node loop when [_send_request] returns. *)
Lemma node_loop_returns (rounds node_num : nat) (url : string) (c c1 : CvpClient)
      (response : option Response) :
  _send_request net req_type (full_url_of c url) timeout data files c
  = (Return response, c1) ->
  node_loop net (S rounds) node_num req_type url timeout data files c
  = (Return (response, full_url_of c url), c1).
Proof.
  intros Hsend. cbn [node_loop]. unfold bind, read, try_except, ret.
  rewrite Hsend. reflexivity.
Qed.

(** The first round of the node loop when [_send_request] raises an error
    that no other node is tried for. *)
Lemma node_loop_raises (rounds node_num : nat) (url : string) (c c1 : CvpClient)
      (e : exn) :
  _send_request net req_type (full_url_of c url) timeout data files c = (Raise e, c1) ->
  retryable e = false ->
  node_loop net (S rounds) node_num req_type url timeout data files c = (Raise e, c1).
Proof.
  intros Hsend Hret. cbn [node_loop]. unfold bind, read, try_except, ret.
  rewrite Hsend. destruct e; try reflexivity; try discriminate.
  cbn [retryable] in Hret. unfold unauthorized in Hret.
  apply orb_false_iff in Hret as [-> ->]. reflexivity.
Qed.

(** [_make_request] with a session, the node loop still to run. *)
Lemma make_request_eq (url : string) (c : CvpClient) (sid : nat) (node : string) :
  session c = Some sid ->
  Re.match_node (url_prefix c) = Some node ->
  _make_request net req_type url timeout data files c
  = match node_loop net (node_cnt c) 0 req_type url timeout data files (noted node c) with
    | (Return (None, _), c') => (Return JNull, c')
    | (Return (Some response, full_url), c') =>
        (if negb (ok response) then Return JNull
         else decode_response response full_url, c')
    | (Raise e, c') => (Raise e, c')
    end.
Proof.
  intros Hs Hn. unfold _make_request, bind, read, lift, assign, ret.
  rewrite Hs, Hn. fold (noted node c).
  destruct (node_loop _ _ _ _ _ _ _ _ _) as [[[[r|] u]|e] c']; try reflexivity.
  destruct (negb (ok r)); reflexivity.
Qed.
End DispatcherFacts.

Section AnsweredFacts.
Context `{Runtime} (net : network).
Variables (req_type : req_type) (url : string) (timeout : Z) (data : json)
          (files : option file_map).

Lemma answered_send (c : CvpClient) (sid : nat) (node : string) (rq : Request)
      (response : Response) :
  answered net c req_type url timeout data files sid node rq response ->
  send net req_type (full_url_of c url) timeout data files (noted node c)
  = (Return response, after_sending rq (noted node c)).
Proof.
  intros (Hs & _ & _ & Hb & Hnet).
  rewrite (send_eq net req_type timeout data files (noted node c) sid _ rq Hs Hb).
  cbn [noted sent with_last_used_node]. rewrite Hnet. reflexivity.
Qed.

(** A request answered with a good response: [_make_request] decodes
    it. *)
Lemma make_request_good (c : CvpClient) (sid : nat) (node : string) (rq : Request)
      (response : Response) :
  answered net c req_type url timeout data files sid node rq response ->
  _is_good_response response (request_prefix req_type (full_url_of c url)) = Return tt ->
  _make_request net req_type url timeout data files c
  = (if negb (ok response) then Return JNull
     else decode_response response (full_url_of c url),
     after_sending rq (noted node c)).
Proof.
  intros Ha Hgood. pose proof (answered_send _ _ _ _ _ Ha) as Hsend.
  destruct Ha as (Hs & Hn & Hcnt & _ & _).
  rewrite (make_request_eq net req_type timeout data files url c sid node Hs Hn).
  destruct (node_cnt c) as [|rounds]; [congruence|].
  rewrite (node_loop_returns net req_type timeout data files rounds 0 url
             (noted node c) (after_sending rq (noted node c)) (Some response)).
  - reflexivity.
  - apply send_request_loop_good; assumption.
Qed.

(** A request answered with a response that shows an error no retry is
    made for: [_make_request] raises it. *)
Lemma make_request_final (c : CvpClient) (sid : nat) (node : string) (rq : Request)
      (response : Response) (e : exn) :
  answered net c req_type url timeout data files sid node rq response ->
  _is_good_response response (request_prefix req_type (full_url_of c url)) = Raise e ->
  final e = true ->
  retryable e = false ->
  _make_request net req_type url timeout data files c
  = (Raise e, after_sending rq (noted node c)).
Proof.
  intros Ha Hbad Hfinal Hret. pose proof (answered_send _ _ _ _ _ Ha) as Hsend.
  destruct Ha as (Hs & Hn & Hcnt & _ & _).
  rewrite (make_request_eq net req_type timeout data files url c sid node Hs Hn).
  destruct (node_cnt c) as [|rounds]; [congruence|].
  rewrite (node_loop_raises net req_type timeout data files rounds 0 url
             (noted node c) (after_sending rq (noted node c)) e).
  - reflexivity.
  - apply send_request_loop_final with (response := response); assumption.
  - assumption.
Qed.
End AnsweredFacts.

(** ** The streaming decoder *)

(** The two bodies that stand for no rows pass the classifier. *)
Lemma no_rows_is_good (response : Response) (prefix : string) :
  ok response = true ->
  content response = EmptyString \/ content response = "null" ->
  @_is_good_response PyRuntime.runtime response prefix = Return tt.
Proof.
  intros Hok Hbody. unfold _is_good_response, text. rewrite Hok.
  destruct Hbody as [-> | ->]; vm_compute; reflexivity.
Qed.

(** C7.  An OK response with an empty body or with the body [null] makes
    [_make_request] return [{'data': []}], whatever the method, the path
    and the rest of the client's state; nothing but the record of the
    request and of the node in use changes. *)
Theorem make_request_no_rows (net : network) (c : CvpClient) (req_type : req_type)
        (url : string) (timeout : Z) (data : json) (files : option file_map)
        (sid : nat) (node : string) (rq : Request) (response : Response) :
  answered net c req_type url timeout data files sid node rq response ->
  ok response = true ->
  content response = EmptyString \/ content response = "null" ->
  @_make_request PyRuntime.runtime net req_type url timeout data files c
  = (Return (JObj [("data", JArr [])]), after_sending rq (noted node c)).
Proof.
  intros Ha Hok Hbody.
  rewrite (make_request_good net req_type url timeout data files c sid node rq response Ha).
  - rewrite Hok. cbn [negb]. unfold decode_response.
    destruct Hbody as [-> | ->]; reflexivity.
  - now apply no_rows_is_good.
Qed.

Lemma make_request_no_rows_witness :
  @_make_request PyRuntime.runtime
     (Fixture.always (inl (Fixture.ok_response "null")))
     GET "/inventory" 30%Z JNull None (Fixture.client "n1" ["n1"])
  = (Return (JObj [("data", JArr [])]),
     after_sending (Fixture.get_request "n1" ["n1"] "/inventory")
                   (noted "n1" (Fixture.client "n1" ["n1"]))).
Proof.
  apply (make_request_no_rows _ _ GET _ _ _ _ 0 "n1" _ (Fixture.ok_response "null")).
  - repeat split; try reflexivity. discriminate.
  - reflexivity.
  - right; reflexivity.
Defined.







(** The fallback of the decoder: the body did not parse as one value. *)
Lemma decode_response_fallback `{Runtime} (response : Response) (full_url : string)
      (error : json_error) :
  content response <> EmptyString ->
  content response <> "null" ->
  PyJsonDecode.loads (text response) = inr error ->
  decode_response response full_url
  = if PyStr.contains "Extra data" (PyJsonDecode.error_str error)
    then Return (JObj [("data", json_decoder (text response))])
    else Raise (JSONDecodeError error).
Proof.
  intros Hne Hnn Hl. unfold decode_response.
  destruct (String.eqb_spec (content response) EmptyString); [congruence|].
  destruct (String.eqb_spec (content response) "null"); [congruence|].
  cbn [orb]. rewrite Hl. reflexivity.
Qed.

(** The claim of C8 fails as it stands: a body of one object and a stray
    character after it takes the fallback, one value is collected, and the
    caller gets [{'data': {'a': 1}}], not the object itself. *)
Lemma make_request_single_collected :
  let body := PyJson.text "{'a':1}x" in
  let result :=
    fst (@_make_request PyRuntime.runtime
           (Fixture.always (inl (Fixture.ok_response body)))
           GET "/inventory" 30%Z JNull None (Fixture.client "n1" ["n1"])) in
  (exists error, @PyJsonDecode.loads PyRuntime.runtime body = inr error
                 /\ PyStr.contains "Extra data" (PyJsonDecode.error_str error) = true)
  /\ @json_decoder_loop PyRuntime.runtime (S (String.length body)) body 0 []
     = [Fixture.object_a]
  /\ result = Return (JObj [("data", Fixture.object_a)])
  /\ result <> Return Fixture.object_a.
Proof.
  cbv zeta. split; [|split; [|split]].
  - eexists. split; vm_compute; reflexivity.
  - vm_compute; reflexivity.
  - vm_compute; reflexivity.
  - vm_compute; discriminate.
Qed.

(** C8, amended.  On the fallback path, entered when [response.json()]
    fails with [Extra data], [_make_request] returns what it collected under
    the key [data]: the value itself, [{'data': value}], when exactly one
    was collected, and the list of them, [{'data': [values]}], otherwise.
    Any other failure of [response.json()] is raised to the caller as it
    is. *)
Theorem make_request_fallback `{Runtime} (net : network) (c : CvpClient)
        (req_type : req_type) (url : string) (timeout : Z) (data : json)
        (files : option file_map) (sid : nat) (node : string) (rq : Request)
        (response : Response) (error : json_error) :
  answered net c req_type url timeout data files sid node rq response ->
  ok response = true ->
  _is_good_response response (request_prefix req_type (full_url_of c url)) = Return tt ->
  content response <> EmptyString ->
  content response <> "null" ->
  PyJsonDecode.loads (text response) = inr error ->
  let collected :=
    json_decoder_loop (S (String.length (text response))) (text response) 0 [] in
  let result := fst (_make_request net req_type url timeout data files c) in
  (PyStr.contains "Extra data" (PyJsonDecode.error_str error) = true ->
   (forall value, collected = [value] -> result = Return (JObj [("data", value)]))
   /\ (List.length collected <> 1 -> result = Return (JObj [("data", JArr collected)])))
  /\ (PyStr.contains "Extra data" (PyJsonDecode.error_str error) = false ->
      result = Raise (JSONDecodeError error)).
Proof.
  intros Ha Hok Hgood Hne Hnn Hl collected result.
  assert (Hres : result
                 = if PyStr.contains "Extra data" (PyJsonDecode.error_str error)
                   then Return (JObj [("data", json_decoder (text response))])
                   else Raise (JSONDecodeError error)).
  { unfold result.
    rewrite (make_request_good net req_type url timeout data files c sid node rq
               response Ha Hgood).
    rewrite Hok. cbn [negb fst].
    now apply decode_response_fallback. }
  split.
  - intros Hextra. rewrite Hextra in Hres. split.
    + intros value Hone. rewrite Hres. unfold json_decoder.
      fold collected. rewrite Hone. reflexivity.
    + intros Hmany. rewrite Hres. unfold json_decoder. fold collected.
      destruct collected as [|v [|w l]]; try reflexivity.
      simpl in Hmany. congruence.
  - intros Hother. rewrite Hother in Hres. exact Hres.
Qed.

(** Two values on two lines: the fallback returns both in a list. *)
Lemma make_request_fallback_witness :
  fst (@_make_request PyRuntime.runtime
         (Fixture.always (inl (Fixture.ok_response
                                 (Fixture.two_objects (String "010" EmptyString)))))
         GET "/inventory" 30%Z JNull None (Fixture.client "n1" ["n1"]))
  = Return (JObj [("data", JArr [Fixture.object_a; Fixture.object_b])]).
Proof.
  refine (proj2 (proj1 (@make_request_fallback PyRuntime.runtime
            (Fixture.always (inl (Fixture.ok_response
                                    (Fixture.two_objects (String "010" EmptyString)))))
            (Fixture.client "n1" ["n1"]) GET "/inventory" 30%Z JNull None
            0 "n1" (Fixture.get_request "n1" ["n1"] "/inventory")
            (Fixture.ok_response (Fixture.two_objects (String "010" EmptyString)))
            (mk_json_error "Extra data"
                           (Fixture.two_objects (String "010" EmptyString)) 8)
            _ eq_refl eq_refl _ _ eq_refl) eq_refl) _).
  - repeat split; try reflexivity. discriminate.
  - discriminate.
  - discriminate.
  - vm_compute. discriminate.
Defined.

(** ** No [ValueError] but the one for a missing session *)

Section MethodOk.
Context {A B : Type}.

Lemma ret_ok (a : A) : method_ok (ret a).
Proof. intros c e c' E; inversion E. Qed.

Lemma read_ok (f : CvpClient -> A) : method_ok (read f).
Proof. intros c e c' E; inversion E. Qed.

Lemma assign_ok (f : CvpClient -> CvpClient) : method_ok (assign f).
Proof. intros c e c' E; inversion E. Qed.

Lemma raise_ok (e : exn) : other_error e = true -> method_ok (@raise A e).
Proof. intros He c e' c' E; inversion E; subst; assumption. Qed.

Lemma lift_ok (o : outcome A) : expr_ok o -> method_ok (lift o).
Proof. intros Ho c e c' E; inversion E; subst. now apply Ho. Qed.

Lemma bind_ok (m : M A) (k : A -> M B) :
  method_ok m -> (forall a, method_ok (k a)) -> method_ok (bind m k).
Proof.
  intros Hm Hk c e c' E. unfold bind in E.
  destruct (m c) as [[a|e0] c0] eqn:Em.
  - exact (Hk a c0 e c' E).
  - inversion E; subst. exact (Hm c e c' Em).
Qed.

Lemma try_except_ok (m : M A) (handler : exn -> M A) :
  method_ok m ->
  (forall e, other_error e = true -> method_ok (handler e)) ->
  method_ok (try_except m handler).
Proof.
  intros Hm Hh c e c' E. unfold try_except in E.
  destruct (m c) as [[a|e0] c0] eqn:Em; [inversion E|].
  exact (Hh e0 (Hm c e0 c0 Em) c0 e c' E).
Qed.

Lemma and_then_ok (o : outcome A) (k : A -> outcome B) :
  expr_ok o -> (forall a, expr_ok (k a)) -> expr_ok (and_then o k).
Proof.
  intros Ho Hk e E. destruct o as [a|e0]; cbn in E.
  - exact (Hk a e E).
  - inversion E; subst. now apply Ho.
Qed.

Lemma return_ok (a : A) : expr_ok (Return a).
Proof. intros e E; inversion E. Qed.

Lemma raise_expr_ok (e : exn) : other_error e = true -> expr_ok (@Raise A e).
Proof. intros He e' E; inversion E; subst; assumption. Qed.
End MethodOk.

Ltac py_ok :=
  repeat first
    [ apply bind_ok; [|intros ?]
    | apply and_then_ok; [|intros ?]
    | apply ret_ok | apply read_ok | apply assign_ok | apply return_ok
    | apply raise_ok; reflexivity
    | apply raise_expr_ok; reflexivity
    | apply lift_ok
    | match goal with
      | |- method_ok (match ?x with _ => _ end) => destruct x
      | |- expr_ok (match ?x with _ => _ end) => destruct x
      | |- method_ok (if ?x then _ else _) => destruct x
      | |- expr_ok (if ?x then _ else _) => destruct x
      end ].

Section NoValueError.
Context `{Runtime} (net : network).

Lemma py_in_ok key v : expr_ok (py_in key v).
Proof. unfold py_in. py_ok. Qed.

Lemma py_getitem_ok v key : expr_ok (py_getitem v key).
Proof. unfold py_getitem. py_ok. Qed.

Lemma py_index_ok v idx : expr_ok (py_index v idx).
Proof. unfold py_index. py_ok. Qed.

Lemma py_len_ok v : expr_ok (py_len v).
Proof. unfold py_len. py_ok. Qed.

Lemma join_errors_ok indices error_list err_msg :
  expr_ok (join_errors indices error_list err_msg).
Proof.
  revert err_msg. induction indices as [|idx l IH]; intros err_msg; cbn [join_errors].
  - apply return_ok.
  - apply and_then_ok; [apply py_index_ok | intros; apply IH].
Qed.

Lemma error_message_ok joutput : expr_ok (error_message joutput).
Proof.
  unfold error_message.
  repeat first [ apply and_then_ok; [|intros ?]
               | apply py_in_ok | apply py_getitem_ok | apply py_index_ok
               | apply py_len_ok | apply join_errors_ok | apply return_ok
               | match goal with
                 | |- expr_ok (if ?x then _ else _) => destruct x
                 end ].
Qed.

Lemma is_good_response_ok response prefix :
  expr_ok (_is_good_response response prefix).
Proof.
  unfold _is_good_response. cbv zeta.
  repeat first [ apply error_message_ok
               | apply and_then_ok; [|intros ?]
               | apply return_ok
               | apply raise_expr_ok; reflexivity
               | match goal with
                 | |- expr_ok (if ?x then _ else _) => destruct x
                 end ].
Qed.

Lemma transport_ok rq : method_ok (transport net rq).
Proof.
  intros c e c' E. unfold transport in E.
  destruct (net (sent c) rq) as [r|[k m]]; inversion E; reflexivity.
Qed.

Lemma the_session_ok : method_ok the_session.
Proof.
  intros c e c' E. unfold the_session in E.
  destruct (session c); inversion E; reflexivity.
Qed.

Lemma response_json_ok response : expr_ok (response_json response).
Proof. unfold response_json. py_ok. Qed.

Lemma login_ok : method_ok (_login net).
Proof.
  unfold _login, _login_on_prem, _set_headers_api_token.
  repeat first [ apply bind_ok; [|intros ?]
               | apply and_then_ok; [|intros ?]
               | apply transport_ok | apply the_session_ok
               | apply is_good_response_ok | apply response_json_ok
               | apply py_getitem_ok
               | apply ret_ok | apply read_ok | apply assign_ok
               | apply raise_ok; reflexivity
               | apply lift_ok
               | match goal with
                 | |- method_ok (match ?x with _ => _ end) => destruct x
                 | |- method_ok (if ?x then _ else _) => destruct x
                 end ].
Qed.

Lemma reset_session_ok : method_ok (_reset_session net).
Proof.
  unfold _reset_session.
  apply bind_ok; [apply assign_ok | intros _].
  apply try_except_ok.
  - apply bind_ok; [apply login_ok | intros; apply ret_ok].
  - intros e He. destruct (login_error e).
    + apply bind_ok; [apply assign_ok | intros; apply ret_ok].
    + now apply raise_ok.
Qed.

Lemma create_session_loop_ok rounds : method_ok (create_session_loop net rounds).
Proof.
  induction rounds as [|rounds IH]; cbn [create_session_loop]; [apply ret_ok|].
  apply bind_ok; [apply read_ok | intros c].
  destruct (cycle_next (node_pool c)) as [[host pool']|]; [|now apply raise_ok].
  repeat (apply bind_ok; [apply assign_ok | intros _]).
  apply bind_ok; [apply reset_session_ok | intros [e|]]; [|apply ret_ok].
  apply bind_ok; [apply assign_ok | intros _]. exact IH.
Qed.

Lemma create_session_ok all_nodes : method_ok (_create_session net all_nodes).
Proof.
  unfold _create_session.
  apply bind_ok; [apply read_ok | intros c].
  apply bind_ok; [apply assign_ok | intros _]. apply create_session_loop_ok.
Qed.
End NoValueError.

Section NoValueErrorDispatch.
Context `{Runtime} (net : network).
Variables (req_type : req_type) (timeout : Z) (data : json)
          (files : option file_map).

Lemma build_request_ok c sid full_url :
  expr_ok (build_request c sid req_type full_url timeout data files).
Proof. unfold build_request. py_ok. Qed.

Lemma send_ok full_url : method_ok (send net req_type full_url timeout data files).
Proof.
  unfold send.
  apply bind_ok; [apply read_ok | intros c].
  apply bind_ok; [apply the_session_ok | intros sid].
  apply bind_ok; [apply lift_ok, build_request_ok | intros rq].
  apply transport_ok.
Qed.

Lemma reset_then_ok (error : exn) (retry : M (option Response)) :
  other_error error = true ->
  method_ok retry ->
  method_ok (fun c1 =>
               match _reset_session net c1 with
               | (Raise e, c2) => (Raise e, c2)
               | (Return _, c2) =>
                   match session c2 with
                   | None => (Raise error, c2)
                   | Some _ => retry c2
                   end
               end).
Proof.
  intros Herr Hretry c1 e c' E.
  destruct (_reset_session net c1) as [[r|e3] c3] eqn:Er.
  - destruct (session c3); [exact (Hretry c3 e c' E)|].
    inversion E; subst; assumption.
  - inversion E; subst. exact (reset_session_ok net c1 e c' Er).
Qed.

Lemma send_request_loop_ok tries req_try full_url :
  method_ok (send_request_loop net tries req_try req_type full_url timeout data files).
Proof.
  revert req_try. induction tries as [|tries IH]; intros req_try.
  - apply ret_ok.
  - intros c e c' E. cbn [send_request_loop] in E.
    destruct (send net req_type full_url timeout data files c) as [[response|e0] c1] eqn:Es.
    + pose proof (is_good_response_ok response (request_prefix req_type full_url)) as Hg.
      destruct (_is_good_response response (request_prefix req_type full_url))
        as [[]|e1] eqn:Eg; [inversion E|].
      specialize (Hg e1 eq_refl).
      destruct e1; try (inversion E; subst; assumption).
      * destruct (unauthorized msg); [|inversion E; subst; reflexivity].
        destruct (Nat.eqb (req_try + 1) NUM_RETRY_REQUESTS);
          [inversion E; subst; reflexivity|].
        exact (reset_then_ok (CvpApiError msg) _ Hg (IH (S req_try)) c1 e c' E).
      * destruct (Nat.eqb (req_try + 1) NUM_RETRY_REQUESTS);
          [inversion E; subst; reflexivity|].
        exact (reset_then_ok (CvpSessionLogOutError msg) _ Hg (IH (S req_try)) c1 e c' E).
    + pose proof (send_ok full_url c e0 c1 Es) as He0.
      destruct e0; try (inversion E; subst; assumption).
      destruct kind; try (inversion E; subst; reflexivity);
        (destruct (Nat.eqb (req_try + 1) NUM_RETRY_REQUESTS);
         [inversion E; subst; reflexivity | exact (IH (S req_try) c1 e c' E)]).
Qed.

Lemma node_loop_ok rounds node_num url :
  method_ok (node_loop net rounds node_num req_type url timeout data files).
Proof.
  revert node_num. induction rounds as [|rounds IH]; intros node_num.
  - apply ret_ok.
  - cbn [node_loop].
    apply bind_ok; [apply read_ok | intros c].
    assert (Hfail : forall error, other_error error = true ->
              method_ok (fail_over net error node_num
                           (node_loop net rounds (S node_num) req_type url timeout
                                      data files))).
    { intros error Herr. unfold fail_over.
      apply bind_ok; [apply read_ok | intros c0].
      destruct (Nat.eqb (node_num + 1) (node_cnt c0)); [now apply raise_ok|].
      apply bind_ok; [apply create_session_ok | intros _].
      apply bind_ok; [apply read_ok | intros c1].
      destruct (session c1); [apply IH | now apply raise_ok]. }
    apply try_except_ok.
    + apply bind_ok; [apply send_request_loop_ok | intros; apply ret_ok].
    + intros e He. destruct e; try (now apply raise_ok); try (now apply Hfail).
      destruct (negb (PyStr.contains "Unauthorized" msg)
                && negb (PyStr.contains "User is unauthorized" msg));
        [now apply raise_ok | now apply Hfail].
Qed.

Lemma decode_response_ok response full_url :
  expr_ok (decode_response response full_url).
Proof.
  unfold decode_response.
  repeat first [ apply py_in_ok
               | apply and_then_ok; [|intros ?]
               | apply return_ok
               | apply raise_expr_ok; reflexivity
               | match goal with
                 | |- expr_ok (match ?x with _ => _ end) => destruct x
                 | |- expr_ok (if ?x then _ else _) => destruct x
                 end ].
Qed.

(** With a session, [_make_request] raises no [ValueError]. *)
Lemma make_request_other_error url c e c' :
  session c <> None ->
  _make_request net req_type url timeout data files c = (Raise e, c') ->
  other_error e = true.
Proof.
  intros Hs E. unfold _make_request in E.
  unfold bind at 1 in E. unfold read at 1 in E. cbv beta iota in E.
  destruct (session c) as [sid|]; [clear Hs | congruence].
  refine ((_ : method_ok _) c e c' E).
  apply bind_ok; [apply lift_ok; destruct (Re.match_node _);
                  [apply return_ok | now apply raise_expr_ok] | intros node].
  apply bind_ok; [apply assign_ok | intros _].
  apply bind_ok; [apply node_loop_ok | intros [[response|] full_url]];
    [|apply ret_ok].
  destruct (negb (ok response)); [apply ret_ok | apply lift_ok, decode_response_ok].
Qed.
End NoValueErrorDispatch.

(** C10.  Without a session [_make_request], and so [get], [post] and
    [delete], raises [ValueError('No valid session to CVP node')] and leaves
    the client as it was: no URL is computed, no request is sent, no
    attribute changes.  It raises this [ValueError] only then. *)
Theorem make_request_without_session `{Runtime} (net : network) (c : CvpClient)
        (req_type : req_type) (url : string) (timeout : Z) (data : json)
        (files : option file_map) :
  let no_session := ValueError "No valid session to CVP node" in
  (session c = None ->
   _make_request net req_type url timeout data files c = (Raise no_session, c)
   /\ get net url timeout c = (Raise no_session, c)
   /\ post net url data files timeout c = (Raise no_session, c)
   /\ delete net url data timeout c = (Raise no_session, c))
  /\ (fst (_make_request net req_type url timeout data files c) = Raise no_session ->
      session c = None).
Proof.
  cbv zeta. split.
  - intros Hs. unfold get, post, delete, _make_request, bind, read, raise.
    rewrite Hs. repeat split; reflexivity.
  - intros E. destruct (session c) as [sid|] eqn:Hs; [|reflexivity].
    destruct (_make_request net req_type url timeout data files c) as [r c'] eqn:Em.
    cbn [fst] in E. subst r.
    assert (Hsome : session c <> None) by congruence.
    pose proof (make_request_other_error net req_type timeout data files url c _ c'
                  Hsome Em) as Hother.
    discriminate.
Qed.

(** ** What a method leaves in place *)

Section Keeps.
Variable R : CvpClient -> CvpClient -> Prop.
Hypothesis R_refl : forall c, R c c.
Hypothesis R_trans : forall c1 c2 c3, R c1 c2 -> R c2 c3 -> R c1 c3.
Context {A B : Type}.

Lemma keeps_ret (a : A) : keeps R (ret a).
Proof. intros c r c' E; inversion E; subst; apply R_refl. Qed.

Lemma keeps_raise (e : exn) : keeps R (@raise A e).
Proof. intros c r c' E; inversion E; subst; apply R_refl. Qed.

Lemma keeps_read (f : CvpClient -> A) : keeps R (read f).
Proof. intros c r c' E; inversion E; subst; apply R_refl. Qed.

Lemma keeps_lift (o : outcome A) : keeps R (lift o).
Proof. intros c r c' E; inversion E; subst; apply R_refl. Qed.

Lemma keeps_assign (f : CvpClient -> CvpClient) :
  (forall c, R c (f c)) -> keeps R (assign f).
Proof. intros Hf c r c' E; inversion E; subst; apply Hf. Qed.

Lemma keeps_bind (m : M A) (k : A -> M B) :
  keeps R m -> (forall a, keeps R (k a)) -> keeps R (bind m k).
Proof.
  intros Hm Hk c r c' E. unfold bind in E.
  destruct (m c) as [[a|e] c0] eqn:Em.
  - exact (R_trans _ _ _ (Hm c _ c0 Em) (Hk a c0 r c' E)).
  - inversion E; subst. exact (Hm c _ c' Em).
Qed.

Lemma keeps_try_except (m : M A) (handler : exn -> M A) :
  keeps R m -> (forall e, keeps R (handler e)) -> keeps R (try_except m handler).
Proof.
  intros Hm Hh c r c' E. unfold try_except in E.
  destruct (m c) as [[a|e] c0] eqn:Em.
  - inversion E; subst. exact (Hm c _ c' Em).
  - exact (R_trans _ _ _ (Hm c _ c0 Em) (Hh e c0 r c' E)).
Qed.
End Keeps.

Lemma same_node_refl c : same_node c c.
Proof. repeat split. Qed.

Lemma same_node_trans c1 c2 c3 : same_node c1 c2 -> same_node c2 c3 -> same_node c1 c3.
Proof.
  intros (a1 & a2 & a3 & a4 & a5) (b1 & b2 & b3 & b4 & b5).
  repeat split; congruence.
Qed.

Lemma same_config_refl c : same_config c c.
Proof. repeat split. Qed.

Lemma same_config_trans c1 c2 c3 :
  same_config c1 c2 -> same_config c2 c3 -> same_config c1 c3.
Proof.
  intros (a1 & a2 & a3 & a4 & a5) (b1 & b2 & b3 & b4 & b5).
  repeat split; congruence.
Qed.

(** Steps of a proof that a method keeps [R], for a reflexive and
    transitive [R] whose two laws are [refl] and [trans]. *)
Ltac keeps_steps refl trans :=
  repeat first
    [ apply (keeps_bind _ trans); [|intros ?]
    | apply (keeps_ret _ refl) | apply (keeps_raise _ refl)
    | apply (keeps_read _ refl) | apply (keeps_lift _ refl)
    | apply keeps_assign; intros ?; repeat split
    | match goal with
      | |- keeps _ (match ?x with _ => _ end) => destruct x
      | |- keeps _ (if ?x then _ else _) => destruct x
      end ].

Section SessionKeeps.
Context `{Runtime} (net : network).

Lemma transport_keeps R rq :
  (forall c l, R c (with_sent l c)) -> keeps R (transport net rq).
Proof. intros HR c r c' E. unfold transport in E. inversion E; subst. apply HR. Qed.

Lemma the_session_keeps R : (forall c, R c c) -> keeps R the_session.
Proof.
  intros HR c r c' E. unfold the_session in E.
  destruct (session c); inversion E; subst; apply HR.
Qed.

Lemma login_same_node : keeps same_node (_login net).
Proof.
  unfold _login, _login_on_prem, _set_headers_api_token.
  repeat first
    [ apply transport_keeps; intros; repeat split
    | apply the_session_keeps; apply same_node_refl
    | progress keeps_steps same_node_refl same_node_trans ].
Qed.

Lemma login_same_config : keeps same_config (_login net).
Proof.
  unfold _login, _login_on_prem, _set_headers_api_token.
  repeat first
    [ apply transport_keeps; intros; repeat split
    | apply the_session_keeps; apply same_config_refl
    | progress keeps_steps same_config_refl same_config_trans ].
Qed.

Lemma reset_session_same_node : keeps same_node (_reset_session net).
Proof.
  unfold _reset_session.
  apply (keeps_bind _ same_node_trans); [apply keeps_assign; intros; repeat split|].
  intros _. apply (keeps_try_except _ same_node_trans).
  - apply (keeps_bind _ same_node_trans); [apply login_same_node|].
    intros; apply (keeps_ret _ same_node_refl).
  - intros e. keeps_steps same_node_refl same_node_trans.
Qed.

Lemma reset_session_same_config : keeps same_config (_reset_session net).
Proof.
  unfold _reset_session.
  apply (keeps_bind _ same_config_trans); [apply keeps_assign; intros; repeat split|].
  intros _. apply (keeps_try_except _ same_config_trans).
  - apply (keeps_bind _ same_config_trans); [apply login_same_config|].
    intros; apply (keeps_ret _ same_config_refl).
  - intros e. keeps_steps same_config_refl same_config_trans.
Qed.

Lemma create_session_loop_same_config rounds :
  keeps same_config (create_session_loop net rounds).
Proof.
  induction rounds as [|rounds IH]; cbn [create_session_loop].
  - apply (keeps_ret _ same_config_refl).
  - apply (keeps_bind _ same_config_trans); [apply (keeps_read _ same_config_refl)|].
    intros c. destruct (cycle_next (node_pool c)) as [[host pool']|];
      [|apply (keeps_raise _ same_config_refl)].
    repeat (apply (keeps_bind _ same_config_trans);
            [apply keeps_assign; intros; repeat split | intros _]).
    apply (keeps_bind _ same_config_trans); [apply reset_session_same_config|].
    intros [e|]; [|apply (keeps_ret _ same_config_refl)].
    apply (keeps_bind _ same_config_trans);
      [apply keeps_assign; intros; repeat split | intros _; exact IH].
Qed.

Lemma create_session_same_config all_nodes :
  keeps same_config (_create_session net all_nodes).
Proof.
  unfold _create_session.
  apply (keeps_bind _ same_config_trans); [apply (keeps_read _ same_config_refl)|].
  intros c. apply (keeps_bind _ same_config_trans);
    [apply keeps_assign; intros; repeat split | intros _].
  apply create_session_loop_same_config.
Qed.
End SessionKeeps.

(** ** The retry ceiling *)

Section Timeouts.
Context `{Runtime} (net : network).
Variables (req_type : req_type) (full_url : string) (timeout : Z) (data : json)
          (files : option file_map).

(** A round of [_send_request] that ends in a timeout. *)
Lemma send_request_loop_timeout (tries req_try : nat) (c c1 : CvpClient)
      (kind : requests_error) (msg : string) :
  send net req_type full_url timeout data files c
  = (Raise (RequestsError kind msg), c1) ->
  is_timeout kind = true ->
  send_request_loop net (S tries) req_try req_type full_url timeout data files c
  = if Nat.eqb (req_try + 1) NUM_RETRY_REQUESTS
    then (Raise (RequestsError kind msg), c1)
    else send_request_loop net tries (S req_try) req_type full_url timeout data files c1.
Proof.
  intros Hsend Hkind. cbn [send_request_loop]. rewrite Hsend.
  destruct kind; try discriminate; reflexivity.
Qed.

Lemma after_sending_thrice (rq : Request) (c : CvpClient) :
  after_sending rq (after_sending rq (after_sending rq c))
  = with_sent (sent c ++ [rq; rq; rq])%list c.
Proof.
  unfold after_sending, with_sent. cbn. rewrite <- !app_assoc. reflexivity.
Qed.
End Timeouts.

(** C2.  A node that answers every attempt with a read timeout or a
    timeout gets exactly [NUM_RETRY_REQUESTS] = 3 attempts from
    [_send_request], all three the same request; the timeout of the third
    is then raised, and nothing else of the client changes: no session is
    reset, no other node is selected. *)
Theorem send_request_timeout `{Runtime} (net : network) (c : CvpClient)
        (req_type : req_type) (full_url : string) (timeout : Z) (data : json)
        (files : option file_map) (sid : nat) (rq : Request) :
  session c = Some sid ->
  build_request c sid req_type full_url timeout data files = Return rq ->
  times_out net rq ->
  exists kind msg,
    is_timeout kind = true
    /\ net (sent c ++ [rq; rq])%list rq = inr (kind, msg)
    /\ _send_request net req_type full_url timeout data files c
       = (Raise (RequestsError kind msg), with_sent (sent c ++ [rq; rq; rq])%list c)
    /\ NUM_RETRY_REQUESTS = 3.
Proof.
  intros Hs Hb Hout.
  destruct (Hout (sent c)) as (k1 & m1 & E1 & T1).
  destruct (Hout (sent c ++ [rq])%list) as (k2 & m2 & E2 & T2).
  destruct (Hout ((sent c ++ [rq]) ++ [rq])%list) as (k3 & m3 & E3 & T3).
  exists k3, m3. split; [assumption|]. split.
  { rewrite <- E3. f_equal. rewrite <- app_assoc. reflexivity. }
  split; [|reflexivity].
  pose proof (send_eq net req_type timeout data files c sid full_url rq Hs Hb) as S1.
  pose proof (send_eq net req_type timeout data files (after_sending rq c) sid
                full_url rq Hs Hb) as S2.
  pose proof (send_eq net req_type timeout data files
                (after_sending rq (after_sending rq c)) sid full_url rq Hs Hb) as S3.
  cbn [after_sending sent with_sent] in S2, S3.
  rewrite E1 in S1. rewrite E2 in S2. rewrite E3 in S3.
  unfold _send_request.
  change (send_request_loop net NUM_RETRY_REQUESTS)
    with (send_request_loop net 3).
  rewrite (send_request_loop_timeout net req_type full_url timeout data files
             _ _ _ _ _ _ S1 T1).
  cbn [Nat.add Nat.eqb NUM_RETRY_REQUESTS].
  rewrite (send_request_loop_timeout net req_type full_url timeout data files
             _ _ _ _ _ _ S2 T2).
  cbn [Nat.add Nat.eqb NUM_RETRY_REQUESTS].
  rewrite (send_request_loop_timeout net req_type full_url timeout data files
             _ _ _ _ _ _ S3 T3).
  cbn [Nat.add Nat.eqb NUM_RETRY_REQUESTS].
  rewrite after_sending_thrice. reflexivity.
Qed.

Lemma send_request_timeout_witness :
  let c := Fixture.client "n1" ["n1"; "n2"] in
  let rq := Fixture.get_request "n1" ["n1"; "n2"] "/inventory" in
  let net := Fixture.always (inr (ReadTimeout, "read timed out")) in
  exists kind msg,
    is_timeout kind = true
    /\ net (sent c ++ [rq; rq])%list rq = inr (kind, msg)
    /\ @_send_request PyRuntime.runtime net GET "https://n1:443/web/inventory"
          30%Z JNull None c
       = (Raise (RequestsError kind msg), with_sent (sent c ++ [rq; rq; rq])%list c)
    /\ NUM_RETRY_REQUESTS = 3.
Proof.
  cbv zeta.
  apply (@send_request_timeout PyRuntime.runtime _ _ GET _ _ _ _ 0).
  - reflexivity.
  - reflexivity.
  - intros sent_before. exists ReadTimeout, "read timed out". split; reflexivity.
Defined.

(** ** Unauthorized responses *)

Section Unauthorized.
Context `{Runtime}.

End Unauthorized.

(** ** Errors that are not retried *)

Section Rejection.
Context `{Runtime}.

(** A failure status without either mark is a [CvpRequestError]. *)
Lemma malformed_response (response : Response) (prefix : string) :
  ok response = false ->
  PyStr.contains "Unauthorized" (reason response) = false ->
  PyStr.contains "User is unauthorized" (text response) = false ->
  _is_good_response response prefix
  = Raise (CvpRequestError (prefix ++ ": Request Error: " ++ reason response
                                   ++ " - " ++ text response)).
Proof.
  intros Hok Hr Ht. unfold _is_good_response. rewrite Hok, Hr, Ht. reflexivity.
Qed.

(** An error code that is true, anywhere in an OK body without the
    log-out text, is a [CvpApiError], or whatever reading the message
    raises. *)
Lemma error_code_response (response : Response) (prefix : string) :
  ok response = true ->
  PyStr.contains "LOG OUT MESSAGE" (text response) = false ->
  truthy (_finditem (json_decoder (text response)) "errorCode") = true ->
  _is_good_response response prefix
  = and_then (error_message (json_decoder (text response)))
             (fun err_msg =>
                Raise (CvpApiError (prefix ++ ": Request Error: " ++ py_format err_msg))).
Proof.
  intros Hok Hl Ht. unfold _is_good_response. rewrite Hok, Hl. cbn [negb].
  cbv zeta. rewrite Ht. reflexivity.
Qed.
End Rejection.

(** C4.  A response classified as a [CvpApiError] whose message has no
    unauthorized mark, or as a [CvpRequestError], makes [_make_request]
    raise that error at once: the request was sent once, to the node in
    use, and the session, the rotation and the count of sessions are as
    they were.  A failure status without the marks is classified so. *)
Theorem make_request_rejection `{Runtime} (net : network) (c : CvpClient)
        (req_type : req_type) (url : string) (timeout : Z) (data : json)
        (files : option file_map) (sid : nat) (node : string) (rq : Request)
        (response : Response) (e : exn) :
  answered net c req_type url timeout data files sid node rq response ->
  _is_good_response response (request_prefix req_type (full_url_of c url)) = Raise e ->
  (exists msg, e = CvpApiError msg /\ unauthorized msg = false)
  \/ (exists msg, e = CvpRequestError msg) ->
  let c' := snd (_make_request net req_type url timeout data files c) in
  _make_request net req_type url timeout data files c
  = (Raise e, after_sending rq (noted node c))
  /\ sent c' = (sent c ++ [rq])%list
  /\ session c' = session c
  /\ sessions_opened c' = sessions_opened c
  /\ same_node c c'
  /\ (ok response = false ->
      PyStr.contains "Unauthorized" (reason response) = false ->
      PyStr.contains "User is unauthorized" (text response) = false ->
      exists msg, e = CvpRequestError msg).
Proof.
  intros Ha Hbad Hkind c'.
  assert (Heq : _make_request net req_type url timeout data files c
                = (Raise e, after_sending rq (noted node c))).
  { apply make_request_final with (sid := sid) (response := response);
      try assumption.
    - destruct Hkind as [(msg & -> & Hun) | (msg & ->)]; cbn; [rewrite Hun|];
        reflexivity.
    - destruct Hkind as [(msg & -> & Hun) | (msg & ->)]; cbn; [exact Hun|];
        reflexivity. }
  unfold c'. rewrite Heq. cbn [snd].
  repeat split.
  intros Hok Hr Ht. rewrite (malformed_response response _ Hok Hr Ht) in Hbad.
  inversion Hbad; subst. eexists; reflexivity.
Qed.

(** An error code in the body: raised at once, one request sent. *)
Lemma make_request_rejection_witness :
  let c := Fixture.client "n1" ["n1"; "n2"] in
  let rq := Fixture.get_request "n1" ["n1"; "n2"] "/inventory" in
  let response :=
    Fixture.ok_response (PyJson.text "{'errorCode':'132801','errorMessage':'bad'}") in
  let net := Fixture.always (inl response) in
  @_make_request PyRuntime.runtime net GET "/inventory" 30%Z JNull None c
  = (Raise (CvpApiError "GET: https://n1:443/web/inventory : Request Error: bad"),
     after_sending rq (noted "n1" c)).
Proof.
  cbv zeta.
  refine (proj1 (@make_request_rejection PyRuntime.runtime _ _ GET _ _ _ _ 0 "n1" _
                   (Fixture.ok_response
                      (PyJson.text "{'errorCode':'132801','errorMessage':'bad'}"))
                   _ _ eq_refl _)).
  - repeat split; try reflexivity. discriminate.
  - left. eexists. split; reflexivity.
Defined.

(** ** Resetting the session *)

Lemma same_session_refl c : same_session c c.
Proof. split; reflexivity. Qed.

Lemma same_session_trans c1 c2 c3 :
  same_session c1 c2 -> same_session c2 c3 -> same_session c1 c3.
Proof. intros [a1 a2] [b1 b2]. split; congruence. Qed.

Section ResetSession.
Context `{Runtime} (net : network).

Lemma login_same_session : keeps same_session (_login net).
Proof.
  unfold _login, _login_on_prem, _set_headers_api_token.
  repeat first
    [ apply transport_keeps; intros; repeat split
    | apply the_session_keeps; apply same_session_refl
    | progress keeps_steps same_session_refl same_session_trans ].
Qed.

(** [_reset_session] by the way it ends: the node in use and the rotation
    are untouched and one session object was created; [None] is returned
    with that object as the session, an error of the classes the [except]
    clause names is returned with no session, and an exception of any
    other class is raised with the new object left as the session. *)
Lemma reset_session_cases (c : CvpClient) (r : outcome (option exn)) (c' : CvpClient) :
  _reset_session net c = (r, c') ->
  same_node c c'
  /\ sessions_opened c' = S (sessions_opened c)
  /\ match r with
     | Return None => session c' = Some (sessions_opened c)
     | Return (Some e) => session c' = None /\ login_error e = true
     | Raise e => session c' = Some (sessions_opened c) /\ login_error e = false
     end.
Proof.
  intros E. split; [exact (reset_session_same_node net c r c' E)|].
  unfold _reset_session, bind, assign, try_except, ret, raise in E.
  match type of E with
  | context [_login net ?c1] =>
      destruct (_login net c1) as [[[]|e] c2] eqn:El;
      destruct (login_same_session c1 _ c2 El) as [Hs Ho]
  end; cbn in Hs, Ho.
  - inversion E; subst. auto.
  - destruct (login_error e) eqn:Hle; inversion E; subst; cbn; auto.
Qed.
End ResetSession.

(** [_reset_session] never advances the rotation: [node_pool],
    [url_prefix], [url_prefix_short], [nodes] and [node_cnt] are left as
    they were, however it ends.  It creates one session object; returning
    [None] it leaves that object as the session, returning an error it
    leaves no session. *)
Theorem reset_session_in_place `{Runtime} (net : network) (c : CvpClient) :
  let r := fst (_reset_session net c) in
  let c' := snd (_reset_session net c) in
  same_node c c'
  /\ sessions_opened c' = S (sessions_opened c)
  /\ (r = Return None -> session c' = Some (sessions_opened c))
  /\ (forall e, r = Return (Some e) -> session c' = None /\ login_error e = true).
Proof.
  cbv zeta. destruct (_reset_session net c) as [r c'] eqn:E. cbn [fst snd].
  destruct (reset_session_cases net c r c' E) as (Hnode & Hopened & Hr).
  split; [assumption|]. split; [assumption|]. split.
  - intros ->. exact Hr.
  - intros e ->. exact Hr.
Qed.

(** C9.  The claim holds for the errors the [except] clause of
    [_reset_session] names, and the rotation is never advanced; but a login
    can fail in two ways the clause does not name, and then the failure is
    raised, not returned, and the new session object is left in place
    instead of [None].  With CVaaS and no token [_login] raises
    [CvpLoginError]; with a user name and a password, a login reply that is
    OK but has no [sessionId] raises [KeyError]. *)
Theorem reset_session_escapes :
  (forall net : network,
      let run := @_reset_session PyRuntime.runtime net
                    (Fixture.cvaas_client "n1" ["n1"; "n2"]) in
      fst run = Raise (CvpLoginError CVAAS_LOGIN_MESSAGE)
      /\ session (snd run) = Some 0
      /\ same_node (Fixture.cvaas_client "n1" ["n1"; "n2"]) (snd run))
  /\ (let run := @_reset_session PyRuntime.runtime
                    (Fixture.always (inl (Fixture.ok_response "{}")))
                    (Fixture.password_client "n1" ["n1"; "n2"]) in
      fst run = Raise (KeyError "sessionId")
      /\ session (snd run) = Some 0
      /\ same_node (Fixture.password_client "n1" ["n1"; "n2"]) (snd run)).
Proof.
  split.
  - intros net. cbv zeta. repeat split.
  - cbv zeta. repeat split.
Qed.

(** ** Errors that persist across the nodes *)

Section PersistFacts.
Context `{Runtime} (net : network).
Variables (req_type : req_type) (url : string) (timeout : Z) (data : json)
          (files : option file_map).

Lemma send_same_config full_url :
  keeps same_config (send net req_type full_url timeout data files).
Proof.
  unfold send.
  repeat first
    [ apply transport_keeps; intros; repeat split
    | apply the_session_keeps; apply same_config_refl
    | progress keeps_steps same_config_refl same_config_trans ].
Qed.

Lemma send_request_loop_same_config tries req_try full_url :
  keeps same_config
        (send_request_loop net tries req_try req_type full_url timeout data files).
Proof.
  revert req_try. induction tries as [|tries IH]; intros req_try.
  - apply (keeps_ret _ same_config_refl).
  - intros c r c' E. cbn [send_request_loop] in E.
    destruct (send net req_type full_url timeout data files c) as [[response|e0] c1] eqn:Es;
      pose proof (send_same_config full_url c _ c1 Es) as H1.
    + assert (Hreset : forall error,
                 match _reset_session net c1 with
                 | (Raise e, c2) => (Raise e, c2)
                 | (Return _, c2) =>
                     match session c2 with
                     | None => (Raise error, c2)
                     | Some _ =>
                         send_request_loop net tries (S req_try) req_type full_url
                                           timeout data files c2
                     end
                 end = (r, c') -> same_config c c').
      { intros error E'.
        destruct (_reset_session net c1) as [[r2|e2] c2] eqn:Er;
          pose proof (reset_session_same_config net c1 _ c2 Er) as H2.
        - destruct (session c2).
          + exact (same_config_trans _ _ _ (same_config_trans _ _ _ H1 H2)
                                     (IH (S req_try) c2 r c' E')).
          + inversion E'; subst. exact (same_config_trans _ _ _ H1 H2).
        - inversion E'; subst. exact (same_config_trans _ _ _ H1 H2). }
      destruct (_is_good_response response (request_prefix req_type full_url))
        as [[]|e1]; [inversion E; subst; assumption|].
      destruct e1; try (inversion E; subst; assumption).
      * destruct (unauthorized msg); [|inversion E; subst; assumption].
        destruct (Nat.eqb (req_try + 1) NUM_RETRY_REQUESTS);
          [inversion E; subst; assumption | exact (Hreset _ E)].
      * destruct (Nat.eqb (req_try + 1) NUM_RETRY_REQUESTS);
          [inversion E; subst; assumption | exact (Hreset _ E)].
    + destruct e0; try (inversion E; subst; assumption).
      destruct kind; try (inversion E; subst; assumption);
        (destruct (Nat.eqb (req_try + 1) NUM_RETRY_REQUESTS);
         [inversion E; subst; assumption
         | exact (same_config_trans _ _ _ H1 (IH (S req_try) c1 r c' E))]).
Qed.

(** The handler of the node loop on an error to try another node for. *)
Lemma node_loop_fail_over (rounds node_num : nat) (c c1 : CvpClient) (e : exn) :
  _send_request net req_type (full_url_of c url) timeout data files c = (Raise e, c1) ->
  retryable e = true ->
  node_loop net (S rounds) node_num req_type url timeout data files c
  = fail_over net e node_num
              (node_loop net rounds (S node_num) req_type url timeout data files) c1.
Proof.
  intros Hsend Hret. cbn [node_loop]. unfold bind at 1, read at 1, try_except.
  unfold bind at 1. rewrite Hsend.
  destruct e; try discriminate; try reflexivity.
  cbn [retryable] in Hret. unfold unauthorized in Hret.
  destruct (PyStr.contains "Unauthorized" msg);
    [reflexivity|]. cbn [orb negb andb] in *. rewrite Hret. reflexivity.
Qed.

End PersistFacts.

(** ** When no node lets the client in *)

Lemma append_empty (s : string) : s ++ EmptyString = s.
Proof. induction s as [|ch s IH]; [reflexivity|]. cbn. now rewrite IH. Qed.

Lemma append_assoc (s t u : string) : (s ++ t) ++ u = s ++ t ++ u.
Proof. induction s as [|ch s IH]; [reflexivity|]. cbn. now rewrite IH. Qed.


Lemma same_log_refl c : same_log c c.
Proof. reflexivity. Qed.

Lemma same_log_trans c1 c2 c3 : same_log c1 c2 -> same_log c2 c3 -> same_log c1 c3.
Proof. unfold same_log; congruence. Qed.

Section AggregateFacts.
Context `{Runtime} (net : network).

Lemma login_same_log : keeps same_log (_login net).
Proof.
  unfold _login, _login_on_prem, _set_headers_api_token.
  repeat first
    [ apply transport_keeps; intros; reflexivity
    | apply the_session_keeps; apply same_log_refl
    | apply keeps_assign; intros; reflexivity
    | progress keeps_steps same_log_refl same_log_trans ].
Qed.

Lemma reset_session_same_log : keeps same_log (_reset_session net).
Proof.
  unfold _reset_session.
  apply (keeps_bind _ same_log_trans); [apply keeps_assign; intros; reflexivity|].
  intros _. apply (keeps_try_except _ same_log_trans).
  - apply (keeps_bind _ same_log_trans); [apply login_same_log|].
    intros; apply (keeps_ret _ same_log_refl).
  - intros e. destruct (login_error e).
    + apply (keeps_bind _ same_log_trans); [apply keeps_assign; intros; reflexivity|].
      intros; apply (keeps_ret _ same_log_refl).
    + apply (keeps_raise _ same_log_refl).
Qed.

(** One round of the loop of [_create_session]. *)
Lemma create_session_loop_step (rounds : nat) (c : CvpClient) (host : string)
      (pool' : cycle) :
  cycle_next (node_pool c) = Some (host, pool') ->
  create_session_loop net (S rounds) c
  = match _reset_session net (select_node host pool' c) with
    | (Return None, c1) => (Return tt, c1)
    | (Return (Some e), c1) => create_session_loop net rounds (log_failure host e c1)
    | (Raise e, c1) => (Raise e, c1)
    end.
Proof.
  intros Hnext. cbn [create_session_loop]. unfold bind, read, assign.
  rewrite Hnext. fold (select_node host pool' c).
  destruct (_reset_session net (select_node host pool' c)) as [[[e|]|e] c1];
    reflexivity.
Qed.


End AggregateFacts.

Section ConnectFacts.
Context `{Runtime} (net : network).

(** [_create_session(all_nodes=True)] is the loop over all the nodes,
    [error_msg] started afresh. *)
Lemma create_session_all (c : CvpClient) :
  _create_session net true c
  = create_session_loop net (node_cnt c)
                        (with_error_msg (String "010" EmptyString) c).
Proof. reflexivity. Qed.

Lemma connect_eq (current_node_ip : option string) (nodes : list string)
      (username password : option string) (connect_timeout : option Z)
      (request_timeout : Z) (protocol : string) (port : option Z) (cert : cert_t)
      (is_cvaas : bool) (tenant api_token' cvaas_token' : option string)
      (c : CvpClient) :
  connect net current_node_ip nodes username password connect_timeout
          request_timeout protocol port cert is_cvaas tenant api_token'
          cvaas_token' c
  = match _create_session net true
            (configure (mask_localhost current_node_ip nodes) username password
                       connect_timeout request_timeout protocol port cert is_cvaas
                       tenant api_token' cvaas_token' c) with
    | (Return _, c2) =>
        match session c2 with
        | None => (Raise (CvpLoginError (error_msg c2)), c2)
        | Some _ => (Return tt, c2)
        end
    | (Raise e, c2) => (Raise e, c2)
    end.
Proof.
  unfold connect, bind, assign, read, raise, ret.
  destruct (_create_session net true _) as [[[]|e] c2]; [|reflexivity].
  destruct (session c2); reflexivity.
Qed.

End ConnectFacts.




(** ** The loop of [json_decoder] ends before its fuel does *)

(** With a decoder that advances, more rounds than the fuel
    [json_decoder] gives its loop change nothing: the loop has left through
    its [ValueError] branch. *)
Lemma json_decoder_loop_fuel `{Runtime} :
  decoder_advances ->
  forall (data : string) (fuel fuel' position : nat) (decoded_data : list json),
    String.length data + 1 <= position + fuel ->
    fuel <= fuel' ->
    json_decoder_loop fuel' data position decoded_data
    = json_decoder_loop fuel data position decoded_data.
Proof.
  intros Hadv data fuel.
  induction fuel as [|fuel IH]; intros fuel' position decoded_data Hlen Hle.
  - destruct fuel' as [|fuel']; [reflexivity|]. cbn [json_decoder_loop].
    destruct (raw_decode data position) as [[obj e]|err] eqn:Ed; [|reflexivity].
    apply Hadv in Ed. lia.
  - destruct fuel' as [|fuel']; [lia|]. cbn [json_decoder_loop].
    destruct (raw_decode data position) as [[obj e]|err] eqn:Ed; [|reflexivity].
    apply Hadv in Ed. apply IH; lia.
Qed.

Lemma json_decoder_enough `{Runtime} (data : string) (extra : nat) :
  decoder_advances ->
  json_decoder_loop (S (String.length data) + extra) data 0 []
  = json_decoder_loop (S (String.length data)) data 0 [].
Proof. intros Hadv. apply json_decoder_loop_fuel; [assumption | lia | lia]. Qed.

(** The scanner advances. *)
Module PyJsonFacts.
Import PyJson.

Lemma skip_ws_length (s : string) : String.length (skip_ws s) <= String.length s.
Proof.
  induction s as [|c s IH]; [reflexivity|]. cbn [skip_ws].
  destruct (is_ws c); cbn [String.length]; lia.
Qed.

Lemma drop_length (n : nat) (s : string) :
  String.length (PyStr.drop n s) = String.length s - n.
Proof.
  revert s; induction n as [|n IH]; intros s.
  - destruct s; cbn; lia.
  - destruct s as [|c s]; [reflexivity|]. cbn [PyStr.drop String.length]. apply IH.
Qed.

Lemma next_is_length (c : ascii) (s : string) :
  next_is c s = true -> String.length (PyStr.drop 1 s) < String.length s.
Proof. destruct s as [|c' s]; [discriminate|]. intros _. cbn. lia. Qed.

Lemma prefix_length (p s : string) :
  prefix p s = true -> String.length p <= String.length s.
Proof.
  revert s; induction p as [|a p IH]; intros s Hp; [cbn; lia|].
  destruct s as [|b s]; [discriminate|].
  change (prefix (String a p) (String b s))
    with (if ascii_dec a b then prefix p s else false) in Hp.
  destruct (ascii_dec a b); [|discriminate]. cbn [String.length].
  specialize (IH s Hp). lia.
Qed.

Lemma drop_prefix_length (p s : string) :
  prefix p s = true -> 0 < String.length p ->
  String.length (PyStr.drop (String.length p) s) < String.length s.
Proof.
  intros Hp Hpos. apply prefix_length in Hp. rewrite drop_length. lia.
Qed.

Lemma span_digits_length (s d r : string) :
  span_digits s = (d, r) -> String.length r <= String.length s.
Proof.
  revert d r; induction s as [|c s IH]; intros d r E; cbn [span_digits] in E.
  - inversion E; subst; reflexivity.
  - destruct (PyStr.is_digit c).
    + destruct (span_digits s) as [d' r'] eqn:Es. inversion E; subst.
      specialize (IH _ _ eq_refl). cbn [String.length]. lia.
    + inversion E; subst. reflexivity.
Qed.

Lemma integer_digits_length (neg0 : bool) (r0 : string) neg digits r :
  match r0 with
  | String c r1 =>
      if Ascii.eqb c "0" then Some (neg0, String c EmptyString, r1)
      else if PyStr.is_digit c
           then let (d, r') := span_digits r1 in Some (neg0, String c d, r')
           else None
  | EmptyString => None
  end = Some (neg, digits, r) ->
  String.length r < String.length r0.
Proof.
  destruct r0 as [|c r1]; intros E0; [discriminate|].
  destruct (Ascii.eqb c "0"); [inversion E0; subst; cbn; lia|].
  destruct (PyStr.is_digit c); [|discriminate].
  destruct (span_digits r1) as [d r'] eqn:Es. inversion E0; subst.
  apply span_digits_length in Es. cbn [String.length]. lia.
Qed.

Lemma match_integer_length (s : string) neg digits r :
  match_integer s = Some (neg, digits, r) -> String.length r < String.length s.
Proof.
  unfold match_integer. intros E.
  destruct s as [|c s]; [discriminate|].
  destruct (Ascii.eqb c "-").
  - pose proof (integer_digits_length true s neg digits r E).
    cbn [String.length]. lia.
  - exact (integer_digits_length false (String c s) neg digits r E).
Qed.

Lemma match_frac_length (s frac r : string) :
  match_frac s = (frac, r) -> String.length r <= String.length s.
Proof.
  unfold match_frac. destruct s as [|c s]; intros E; [inversion E; subst; reflexivity|].
  destruct (Ascii.eqb c "."); [|inversion E; subst; reflexivity].
  destruct (span_digits s) as [d r'] eqn:Es. apply span_digits_length in Es.
  destruct d; inversion E; subst; cbn [String.length]; lia.
Qed.

Lemma match_exp_length (s exp r : string) :
  match_exp s = (exp, r) -> String.length r <= String.length s.
Proof.
  unfold match_exp. destruct s as [|c s]; intros E; [inversion E; subst; reflexivity|].
  destruct (Ascii.eqb c "e" || Ascii.eqb c "E"); [|inversion E; subst; reflexivity].
  destruct s as [|c1 s1].
  - cbn in E. inversion E; subst. reflexivity.
  - destruct (Ascii.eqb c1 "-" || Ascii.eqb c1 "+").
    + destruct (span_digits s1) as [d r'] eqn:Es. apply span_digits_length in Es.
      destruct d; inversion E; subst; cbn [String.length]; lia.
    + destruct (span_digits (String c1 s1)) as [d r'] eqn:Es.
      apply span_digits_length in Es.
      destruct d; inversion E; subst; cbn [String.length] in *; lia.
Qed.

Lemma match_number_length (s : string) (v : json) (r : string) :
  match_number s = Some (v, r) -> String.length r < String.length s.
Proof.
  unfold match_number. intros E.
  destruct (match_integer s) as [[[neg digits] r0]|] eqn:Ei; [|discriminate].
  apply match_integer_length in Ei.
  destruct (match_frac r0) as [frac r1] eqn:Ef. apply match_frac_length in Ef.
  destruct (match_exp r1) as [exp r2] eqn:Ee. apply match_exp_length in Ee.
  destruct frac, exp; inversion E; subst; lia.
Qed.

Lemma scanstring_length (begin s str r : string) :
  scanstring begin s = Scanned str r -> String.length r < String.length s.
Proof.
  remember (String.length s) as n eqn:Hn. revert s str r Hn.
  induction n as [n IH] using lt_wf_ind. intros s str r Hn E.
  destruct s as [|c s]; [discriminate|]. cbn [scanstring] in E.
  cbn [String.length] in Hn.
  destruct (Ascii.eqb c dquote); [inversion E; subst; cbn; lia|].
  destruct (Ascii.eqb c "\").
  - destruct s as [|esc s1]; [discriminate|].
    destruct (Ascii.eqb esc "u").
    + destruct s1 as [|h1 [|h2 [|h3 [|h4 s2]]]]; try discriminate.
      destruct (is_empty s2); [discriminate|].
      destruct (hex_val h1), (hex_val h2), (hex_val h3), (hex_val h4);
        try discriminate.
      destruct (scanstring begin s2) as [str' r'|] eqn:Es; [|discriminate].
      inversion E; subst.
      specialize (IH (String.length s2)). cbn [String.length] in *.
      assert (String.length r < String.length s2) by (eapply IH; [lia | reflexivity | eassumption]).
      lia.
    + destruct (backslash esc); [|discriminate].
      destruct (scanstring begin s1) as [str' r'|] eqn:Es; [|discriminate].
      inversion E; subst. cbn [String.length] in *.
      assert (String.length r < String.length s1)
        by (eapply (IH (String.length s1)); [lia | reflexivity | eassumption]).
      lia.
  - destruct (Nat.ltb (nat_of_ascii c) 32); [discriminate|].
    destruct (scanstring begin s) as [str' r'|] eqn:Es; [|discriminate].
    inversion E; subst.
    assert (String.length r < String.length s)
      by (eapply (IH (String.length s)); [lia | reflexivity | eassumption]).
    cbn [String.length]. lia.
Qed.

(** The text left by a scan that succeeded. *)
Ltac scanned E :=
  match type of E with
  | Scanned _ ?x = Scanned _ ?r =>
      let Hr := fresh "Hr" in
      assert (Hr : r = x) by congruence; rewrite Hr; clear Hr E
  end.

Lemma scan_advances (fuel : nat) :
  (forall s v r, scan_once fuel s = Scanned v r -> String.length r < String.length s)
  /\ (forall begin s pairs v r,
         object_members fuel begin s pairs = Scanned v r ->
         String.length r < String.length s)
  /\ (forall s values v r,
         array_elements fuel s values = Scanned v r ->
         String.length r < String.length s).
Proof.
  induction fuel as [|fuel (IHscan & IHobj & IHarr)];
    [repeat split; intros; discriminate|].
  split; [|split].
  - intros s v r E. cbn [scan_once] in E.
    destruct s as [|c rest]; [discriminate|].
    destruct (Ascii.eqb c dquote).
    { destruct (scanstring (String c rest) rest) as [str r1|] eqn:Es; [|discriminate].
      scanned E. apply scanstring_length in Es. cbn [String.length]. lia. }
    destruct (Ascii.eqb c "{").
    { cbv zeta in E. pose proof (skip_ws_length rest) as Hws.
      destruct (next_is "}" (skip_ws rest)) eqn:Hn1.
      - scanned E. apply next_is_length in Hn1. cbn [String.length]. lia.
      - destruct (next_is dquote (skip_ws rest)) eqn:Hn2; [|discriminate].
        apply IHobj in E. pose proof (drop_length 1 (skip_ws rest)).
        cbn [String.length]. lia. }
    destruct (Ascii.eqb c "[").
    { cbv zeta in E. pose proof (skip_ws_length rest) as Hws.
      destruct (next_is "]" (skip_ws rest)) eqn:Hn1.
      - scanned E. apply next_is_length in Hn1. cbn [String.length]. lia.
      - apply IHarr in E. cbn [String.length]. lia. }
    destruct (prefix "null" (String c rest)) eqn:P1.
    { scanned E. exact (drop_prefix_length "null" _ P1 ltac:(cbn; lia)). }
    destruct (prefix "true" (String c rest)) eqn:P2.
    { scanned E. exact (drop_prefix_length "true" _ P2 ltac:(cbn; lia)). }
    destruct (prefix "false" (String c rest)) eqn:P3.
    { scanned E. exact (drop_prefix_length "false" _ P3 ltac:(cbn; lia)). }
    destruct (match_number (String c rest)) as [[v' r']|] eqn:En.
    { scanned E. exact (match_number_length _ _ _ En). }
    destruct (prefix "NaN" (String c rest)) eqn:P4.
    { scanned E. exact (drop_prefix_length "NaN" _ P4 ltac:(cbn; lia)). }
    destruct (prefix "Infinity" (String c rest)) eqn:P5.
    { scanned E. exact (drop_prefix_length "Infinity" _ P5 ltac:(cbn; lia)). }
    destruct (prefix "-Infinity" (String c rest)) eqn:P6; [|discriminate].
    scanned E. exact (drop_prefix_length "-Infinity" _ P6 ltac:(cbn; lia)).
  - intros begin s pairs v r E. cbn [object_members] in E.
    destruct (scanstring begin s) as [key r1|] eqn:Es; [|discriminate].
    apply scanstring_length in Es. cbv zeta in E.
    set (r2 := if next_is ":" r1 then r1 else skip_ws r1) in E.
    assert (Hr2 : String.length r2 <= String.length r1).
    { unfold r2. destruct (next_is ":" r1); [lia | apply skip_ws_length]. }
    clearbody r2.
    destruct (next_is ":" r2) eqn:Hcolon; [|discriminate].
    apply next_is_length in Hcolon.
    destruct (scan_once fuel (skip_ws (PyStr.drop 1 r2))) as [value r3|] eqn:Ev;
      [|discriminate].
    apply IHscan in Ev. pose proof (skip_ws_length (PyStr.drop 1 r2)) as Hws1.
    pose proof (skip_ws_length r3) as Hws3.
    destruct (next_is "}" (skip_ws r3)) eqn:Hclose.
    + scanned E. apply next_is_length in Hclose. lia.
    + destruct (next_is "," (skip_ws r3)) eqn:Hcomma; [|discriminate].
      apply next_is_length in Hcomma.
      pose proof (skip_ws_length (PyStr.drop 1 (skip_ws r3))) as Hws5.
      destruct (next_is dquote (skip_ws (PyStr.drop 1 (skip_ws r3)))) eqn:Hq;
        [|discriminate].
      apply next_is_length in Hq. apply IHobj in E. lia.
  - intros s values v r E. cbn [array_elements] in E.
    destruct (scan_once fuel s) as [value r1|] eqn:Ev; [|discriminate].
    apply IHscan in Ev. cbv zeta in E. pose proof (skip_ws_length r1) as Hws.
    destruct (next_is "]" (skip_ws r1)) eqn:Hclose.
    + scanned E. apply next_is_length in Hclose. lia.
    + destruct (next_is "," (skip_ws r1)) eqn:Hcomma; [|discriminate].
      apply next_is_length in Hcomma.
      pose proof (skip_ws_length (PyStr.drop 1 (skip_ws r1))) as Hws2.
      apply IHarr in E. lia.
Qed.

Lemma scanstring_fuel (begin s : string) : ~ exhausted (scanstring begin s).
Proof.
  remember (String.length s) as n eqn:Hn. revert s Hn.
  induction n as [n IH] using lt_wf_ind. intros s Hn.
  destruct s as [|c s]; cbn [scanstring exhausted]; [discriminate|].
  cbn [String.length] in Hn.
  destruct (Ascii.eqb c dquote); [cbn; tauto|].
  destruct (Ascii.eqb c "\").
  - destruct s as [|esc s1]; [cbn; discriminate|].
    destruct (Ascii.eqb esc "u").
    + destruct s1 as [|h1 [|h2 [|h3 [|h4 s2]]]]; try (cbn; discriminate).
      destruct (is_empty s2); [cbn; discriminate|].
      destruct (hex_val h1), (hex_val h2), (hex_val h3), (hex_val h4);
        try (cbn; discriminate).
      pose proof (IH (String.length s2) ltac:(cbn [String.length] in *; lia) s2 eq_refl)
        as Hrec.
      destruct (scanstring begin s2); [cbn; tauto | exact Hrec].
    + destruct (backslash esc); [|cbn; discriminate].
      pose proof (IH (String.length s1) ltac:(cbn [String.length] in *; lia) s1 eq_refl)
        as Hrec.
      destruct (scanstring begin s1); [cbn; tauto | exact Hrec].
  - destruct (Nat.ltb (nat_of_ascii c) 32); [cbn; discriminate|].
    pose proof (IH (String.length s) ltac:(lia) s eq_refl) as Hrec.
    destruct (scanstring begin s); [cbn; tauto | exact Hrec].
Qed.

(** More fuel than twice the length of the text: the scanner never stops
    for lack of it. *)
Lemma scan_fuel (fuel : nat) :
  (forall s, 2 * String.length s < fuel -> ~ exhausted (scan_once fuel s))
  /\ (forall begin s pairs,
         2 * String.length s < fuel -> ~ exhausted (object_members fuel begin s pairs))
  /\ (forall s values,
         2 * String.length s + 1 < fuel -> ~ exhausted (array_elements fuel s values)).
Proof.
  induction fuel as [|fuel (IHscan & IHobj & IHarr)];
    [repeat split; intros; lia|].
  split; [|split].
  - intros s Hlen. cbn [scan_once].
    destruct s as [|c rest]; [cbn; discriminate|]. cbn [String.length] in Hlen.
    destruct (Ascii.eqb c dquote).
    { pose proof (scanstring_fuel (String c rest) rest) as Hs.
      destruct (scanstring (String c rest) rest); [cbn; tauto | exact Hs]. }
    destruct (Ascii.eqb c "{").
    { cbv zeta. pose proof (skip_ws_length rest) as Hws.
      destruct (next_is "}" (skip_ws rest)); [cbn; tauto|].
      destruct (next_is dquote (skip_ws rest)); [|cbn; discriminate].
      apply IHobj. rewrite drop_length. lia. }
    destruct (Ascii.eqb c "[").
    { cbv zeta. pose proof (skip_ws_length rest) as Hws.
      destruct (next_is "]" (skip_ws rest)); [cbn; tauto|].
      apply IHarr. lia. }
    repeat match goal with
           | |- ~ exhausted (if ?b then _ else _) => destruct b; [cbn; tauto|]
           | |- ~ exhausted (match match_number ?x with _ => _ end) =>
               destruct (match_number x) as [[? ?]|]; [cbn; tauto|]
           end.
    cbn; discriminate.
  - intros begin s pairs Hlen. cbn [object_members].
    pose proof (scanstring_fuel begin s) as Hs.
    destruct (scanstring begin s) as [key r1|] eqn:Es; [|exact Hs].
    apply scanstring_length in Es. cbv zeta.
    set (r2 := if next_is ":" r1 then r1 else skip_ws r1).
    assert (Hr2 : String.length r2 <= String.length r1).
    { unfold r2. destruct (next_is ":" r1); [lia | apply skip_ws_length]. }
    clearbody r2.
    destruct (next_is ":" r2) eqn:Hcolon; [|cbn; discriminate].
    apply next_is_length in Hcolon.
    pose proof (skip_ws_length (PyStr.drop 1 r2)) as Hws1.
    pose proof (IHscan (skip_ws (PyStr.drop 1 r2)) ltac:(lia)) as Hv.
    destruct (scan_once fuel (skip_ws (PyStr.drop 1 r2))) as [value r3|] eqn:Ev;
      [|exact Hv].
    apply (proj1 (scan_advances fuel)) in Ev.
    pose proof (skip_ws_length r3) as Hws3.
    destruct (next_is "}" (skip_ws r3)); [cbn; tauto|].
    destruct (next_is "," (skip_ws r3)) eqn:Hcomma; [|cbn; discriminate].
    apply next_is_length in Hcomma.
    pose proof (skip_ws_length (PyStr.drop 1 (skip_ws r3))) as Hws5.
    destruct (next_is dquote (skip_ws (PyStr.drop 1 (skip_ws r3)))) eqn:Hq;
      [|cbn; discriminate].
    apply next_is_length in Hq. apply IHobj. lia.
  - intros s values Hlen. cbn [array_elements].
    pose proof (IHscan s ltac:(lia)) as Hv.
    destruct (scan_once fuel s) as [value r1|] eqn:Ev; [|exact Hv].
    apply (proj1 (scan_advances fuel)) in Ev. cbv zeta.
    pose proof (skip_ws_length r1) as Hws.
    destruct (next_is "]" (skip_ws r1)); [cbn; tauto|].
    destruct (next_is "," (skip_ws r1)) eqn:Hcomma; [|cbn; discriminate].
    apply next_is_length in Hcomma.
    pose proof (skip_ws_length (PyStr.drop 1 (skip_ws r1))) as Hws2.
    apply IHarr. lia.
Qed.

End PyJsonFacts.

(** [raw_decode] over the scanner never fails for lack of fuel. *)
Lemma py_raw_decode_fuel (s : string) (idx : nat) :
  ~ PyJson.exhausted (PyJson.scan_once (2 * String.length s + 1) (PyStr.drop idx s)).
Proof.
  apply (proj1 (PyJsonFacts.scan_fuel _)).
  rewrite PyJsonFacts.drop_length. lia.
Qed.

(** The scanner as [raw_decode] advances, so the loop of [json_decoder]
    over it always ends by itself. *)
Lemma py_raw_decode_advances : @decoder_advances PyRuntime.runtime.
Proof.
  intros s idx v e E. cbn [raw_decode PyRuntime.runtime] in E.
  unfold PyJsonDecode.py_raw_decode in E.
  destruct (Nat.ltb_spec (String.length s) idx) as [Hlt|Hle]; [discriminate|].
  destruct (PyJson.scan_once (2 * String.length s + 1) (PyStr.drop idx s))
    as [v' r|] eqn:Es; [|discriminate].
  inversion E; subst.
  apply (proj1 (PyJsonFacts.scan_advances _)) in Es.
  rewrite PyJsonFacts.drop_length in Es. lia.
Qed.

(** ** More on version resolution *)

Module PkgResourcesFacts.
Import PkgResources.

Lemma ge_refl (a : list Z) : ge a a = true.
Proof.
  induction a as [|x a IH]; [reflexivity|]. cbn [ge].
  rewrite Z.eqb_refl, IH. now rewrite orb_true_r.
Qed.

Lemma ge_trans (a b c : list Z) : ge a b = true -> ge b c = true -> ge a c = true.
Proof.
  revert b c. induction a as [|x a IH]; intros b c Hab Hbc.
  - destruct b; [|discriminate]. destruct c; [reflexivity | discriminate].
  - destruct c as [|z c]; [reflexivity|].
    destruct b as [|y b]; [discriminate|]. cbn [ge] in *.
    apply orb_true_iff in Hab. apply orb_true_iff in Hbc. apply orb_true_iff.
    destruct Hab as [Hab | Hab], Hbc as [Hbc | Hbc].
    + left. apply Z.ltb_lt in Hab, Hbc. apply Z.ltb_lt. lia.
    + apply andb_true_iff in Hbc as [Hyz _]. apply Z.eqb_eq in Hyz. subst.
      left; assumption.
    + apply andb_true_iff in Hab as [Hxy _]. apply Z.eqb_eq in Hxy. subst.
      left; assumption.
    + apply andb_true_iff in Hab as [Hxy Hab]. apply andb_true_iff in Hbc as [Hyz Hbc].
      apply Z.eqb_eq in Hxy, Hyz. subst. right. rewrite Z.eqb_refl. cbn.
      exact (IH b c Hab Hbc).
Qed.

Lemma strip_zeros_snoc (l : list Z) : strip_zeros (l ++ [0%Z]) = strip_zeros l.
Proof.
  induction l as [|z l IH]; [reflexivity|].
  change ((z :: l) ++ [0%Z])%list with (z :: (l ++ [0%Z]))%list.
  cbn [strip_zeros]. rewrite IH. reflexivity.
Qed.

Lemma parse_segments_snoc (l : list string) :
  parse_segments (l ++ ["0"])
  = option_map (fun zs => (zs ++ [0%Z])%list) (parse_segments l).
Proof.
  induction l as [|w l IH]; [reflexivity|].
  change ((w :: l) ++ ["0"])%list with (w :: (l ++ ["0"]))%list.
  cbn [parse_segments]. rewrite IH.
  destruct (PyStr.all_digits w && negb (String.eqb w EmptyString)); [|reflexivity].
  destruct (parse_segments l); reflexivity.
Qed.

(** A version and its padded form are read as the same release. *)
Lemma parse_version_pad (version : string) :
  parse_version (Spec.pad version) = parse_version version.
Proof.
  unfold Spec.pad, parse_version.
  destruct (split_no_dot version) as [Hall Hne].
  destruct (Nat.ltb (List.length (PyStr.split "." version)) 3).
  - rewrite split_join.
    + rewrite parse_segments_snoc.
      destruct (parse_segments (PyStr.split "." version)); [|reflexivity].
      cbn [option_map]. now rewrite strip_zeros_snoc.
    + destruct (PyStr.split "." version); discriminate.
    + apply Forall_app; split; [assumption | repeat constructor].
  - rewrite split_join; [reflexivity | assumption | assumption].
Qed.

(** The api version selected is between 1 and 8, and a release that is
    greater than or equal to another selects an api version that is. *)
Lemma select_monotone (a b : list Z) :
  ge a b = true ->
  (1 <= Spec.select Spec.ApiVersionMapping b
   <= Spec.select Spec.ApiVersionMapping a)%Z
  /\ (Spec.select Spec.ApiVersionMapping a <= 8)%Z.
Proof.
  intros Hab.
  assert (Ht : forall t, ge b t = true -> ge a t = true)
    by (intros t; apply ge_trans; assumption).
  cbv [Spec.select Spec.ApiVersionMapping Spec.oldest].
  repeat match goal with
         | |- context [parse_version ?s] =>
             let r := eval vm_compute in (parse_version s) in
             change (parse_version s) with r
         end.
  cbv beta iota.
  repeat match goal with
         | |- context [ge b ?t] =>
             let E := fresh "E" in
             destruct (ge b t) eqn:E; [apply Ht in E; rewrite ?E|]
         end;
    repeat match goal with
           | |- context [ge a ?t] => destruct (ge a t)
           end; lia.
Qed.

End PkgResourcesFacts.

(** A product version that is read as a release gets the api version of
    that release whatever its number of components (the zero that
    [set_version] appends changes nothing), the api version is between 1.0
    and 8.0, and of two product versions the newer never gets the older api
    version. *)
Theorem set_version_monotone (c : CvpClient) (newer older : string)
        (a b : list Z) :
  is_cvaas c = false ->
  PkgResources.parse_version newer = Some a ->
  PkgResources.parse_version older = Some b ->
  PkgResources.ge a b = true ->
  exists x y,
    apiversion (snd (set_version newer c)) = Some x
    /\ apiversion (snd (set_version older c)) = Some y
    /\ x = Spec.select Spec.ApiVersionMapping a
    /\ y = Spec.select Spec.ApiVersionMapping b
    /\ (1 <= y <= x)%Z /\ (x <= 8)%Z.
Proof.
  intros Hc Ha Hb Hab.
  exists (Spec.select Spec.ApiVersionMapping a), (Spec.select Spec.ApiVersionMapping b).
  rewrite (set_version_select c newer a Hc)
    by (now rewrite PkgResourcesFacts.parse_version_pad).
  rewrite (set_version_select c older b Hc)
    by (now rewrite PkgResourcesFacts.parse_version_pad).
  destruct (PkgResourcesFacts.select_monotone a b Hab) as [H1 H2].
  repeat split; try reflexivity; lia.
Qed.

(** 2021.2 of two components against 2020.2.4.0 of four. *)
Lemma set_version_monotone_witness :
  exists x y,
    apiversion (snd (set_version "2021.2" new_client)) = Some x
    /\ apiversion (snd (set_version "2020.2.4.0" new_client)) = Some y
    /\ x = Spec.select Spec.ApiVersionMapping [2021; 2]%Z
    /\ y = Spec.select Spec.ApiVersionMapping [2020; 2; 4]%Z
    /\ (1 <= y <= x)%Z /\ (x <= 8)%Z.
Proof.
  apply (set_version_monotone new_client "2021.2" "2020.2.4.0"); reflexivity.
Defined.

(** ** The search for a key *)

(** Induction on a decoded value, its items and members included. *)
Lemma json_nested_ind (P : json -> Prop) :
  P JNull ->
  (forall b, P (JBool b)) ->
  (forall z, P (JInt z)) ->
  (forall numeral nonzero, P (JFloat numeral nonzero)) ->
  (forall s, P (JStr s)) ->
  (forall items, Forall P items -> P (JArr items)) ->
  (forall members, Forall (fun kv => P (snd kv)) members -> P (JObj members)) ->
  forall v, P v.
Proof.
  intros Hnull Hbool Hint Hfloat Hstr Harr Hobj.
  fix IH 1. intros [|b|z|numeral nonzero|s|items|members].
  - exact Hnull.
  - apply Hbool.
  - apply Hint.
  - apply Hfloat.
  - apply Hstr.
  - apply Harr.
    exact ((fix all (l : list json) : Forall P l :=
              match l with
              | [] => Forall_nil P
              | x :: l' => Forall_cons x (IH x) (all l')
              end) items).
  - apply Hobj.
    exact ((fix all (l : list (string * json)) : Forall (fun kv => P (snd kv)) l :=
              match l with
              | [] => Forall_nil _
              | kv :: l' => Forall_cons kv (IH (snd kv)) (all l')
              end) members).
Qed.

Section FindItem.
Variable key : string.

(** The two loops of [_finditem], by themselves. *)
Let over_values :=
  fix over_values (l : list (string * json)) : json :=
    match l with
    | [] => JNull
    | (_, value) :: l' =>
        match value with
        | JObj _ | JArr _ =>
            match _finditem value key with
            | JNull => over_values l'
            | item => item
            end
        | _ => over_values l'
        end
    end.

Let over_items :=
  fix over_items (l : list json) : json :=
    match l with
    | [] => JNull
    | i :: l' =>
        match i with
        | JObj _ | JArr _ =>
            match _finditem i key with
            | JNull => over_items l'
            | item => item
            end
        | _ => over_items l'
        end
    end.

Lemma finditem_obj (members : list (string * json)) :
  _finditem (JObj members) key
  = match PyDict.get key members with
    | Some item => item
    | None => over_values members
    end.
Proof. reflexivity. Qed.

Lemma finditem_arr (items : list json) :
  _finditem (JArr items) key = over_items items.
Proof. reflexivity. Qed.

Lemma finditem_scalar (v : json) : is_container v = false -> _finditem v key = JNull.
Proof. destruct v; try reflexivity; discriminate. Qed.

(** What a loop returns is what [_finditem] returned for one of the
    values it went through. *)
Lemma over_values_found (l : list (string * json)) :
  over_values l <> JNull ->
  exists k x, In (k, x) l /\ _finditem x key = over_values l.
Proof.
  induction l as [|[k x] l IH]; intros Hne; [cbn in Hne; congruence|].
  cbn [over_values] in *.
  assert (Hrest : over_values l <> JNull ->
                  exists k0 x0, In (k0, x0) ((k, x) :: l)
                                /\ _finditem x0 key = over_values l).
  { intros H. destruct (IH H) as (k0 & x0 & Hin & Hf).
    exists k0, x0. split; [right; assumption | assumption]. }
  destruct x; try (apply Hrest; assumption);
    match goal with
    | |- context [_finditem ?x key] =>
        destruct (_finditem x key) eqn:Ef;
        try (exists k, x; split; [left; reflexivity | exact Ef]);
        apply Hrest; assumption
    end.
Qed.

Lemma over_items_found (l : list json) :
  over_items l <> JNull ->
  exists x, In x l /\ _finditem x key = over_items l.
Proof.
  induction l as [|x l IH]; intros Hne; [cbn in Hne; congruence|].
  cbn [over_items] in *.
  assert (Hrest : over_items l <> JNull ->
                  exists x0, In x0 (x :: l) /\ _finditem x0 key = over_items l).
  { intros H. destruct (IH H) as (x0 & Hin & Hf).
    exists x0. split; [right; assumption | assumption]. }
  destruct x; try (apply Hrest; assumption);
    match goal with
    | |- context [_finditem ?x key] =>
        destruct (_finditem x key) eqn:Ef;
        try (exists x; split; [left; reflexivity | exact Ef]);
        apply Hrest; assumption
    end.
Qed.

(** A loop that returns [None] found nothing in any of the values. *)
Lemma over_values_none (l : list (string * json)) :
  over_values l = JNull ->
  forall k x, In (k, x) l -> _finditem x key = JNull.
Proof.
  induction l as [|[k0 x0] l IH]; intros Hn k x Hin; [contradiction|].
  cbn [over_values] in Hn.
  assert (H0 : _finditem x0 key = JNull /\ over_values l = JNull).
  { destruct x0; try (split; [reflexivity | assumption]);
      match type of Hn with
      | context [_finditem ?y key] =>
          destruct (_finditem y key) eqn:Ef; try discriminate;
          split; [reflexivity | assumption]
      end. }
  destruct H0 as [Hx0 Hl]. destruct Hin as [E | Hin].
  - inversion E; subst. exact Hx0.
  - exact (IH Hl k x Hin).
Qed.

Lemma over_items_none (l : list json) :
  over_items l = JNull -> forall x, In x l -> _finditem x key = JNull.
Proof.
  induction l as [|x0 l IH]; intros Hn x Hin; [contradiction|].
  cbn [over_items] in Hn.
  assert (H0 : _finditem x0 key = JNull /\ over_items l = JNull).
  { destruct x0; try (split; [reflexivity | assumption]);
      match type of Hn with
      | context [_finditem ?y key] =>
          destruct (_finditem y key) eqn:Ef; try discriminate;
          split; [reflexivity | assumption]
      end. }
  destruct H0 as [Hx0 Hl]. destruct Hin as [E | Hin].
  - subst. exact Hx0.
  - exact (IH Hl x Hin).
Qed.

Lemma finditem_occurs (obj : json) :
  _finditem obj key <> JNull -> occurs key (_finditem obj key) obj.
Proof.
  induction obj as [| | | | |items IH|members IH] using json_nested_ind;
    try (cbn; congruence).
  - rewrite finditem_arr. intros Hne.
    destruct (over_items_found items Hne) as (x & Hin & Hf).
    rewrite <- Hf. apply occurs_item with (x := x); [assumption|].
    rewrite Forall_forall in IH. apply IH; [assumption | congruence].
  - rewrite finditem_obj.
    destruct (PyDict.get key members) as [item|] eqn:Hg.
    + intros _. now apply occurs_here.
    + intros Hne. destruct (over_values_found members Hne) as (k & x & Hin & Hf).
      rewrite <- Hf. apply occurs_member with (k := k) (x := x); [assumption|].
      rewrite Forall_forall in IH. apply (IH (k, x)); [assumption | cbn; congruence].
Qed.

Lemma finditem_none (obj : json) :
  _finditem obj key = JNull ->
  forall v, occurs key v obj -> occurs key JNull obj.
Proof.
  induction obj as [| | | | |items IH|members IH] using json_nested_ind;
    intros Hn v Hocc; try (inversion Hocc; fail).
  - rewrite finditem_arr in Hn. inversion Hocc as [| |? x Hin Hx]; subst.
    apply occurs_item with (x := x); [assumption|].
    rewrite Forall_forall in IH.
    exact (IH x Hin (over_items_none items Hn x Hin) v Hx).
  - rewrite finditem_obj in Hn.
    destruct (PyDict.get key members) as [item|] eqn:Hg.
    + subst item. now apply occurs_here.
    + inversion Hocc as [? Hg' | ? k x Hin Hx |]; subst; [congruence|].
      apply occurs_member with (k := k) (x := x); [assumption|].
      rewrite Forall_forall in IH.
      exact (IH (k, x) Hin (over_values_none members Hn k x Hin) v Hx).
Qed.
End FindItem.

(** What [_finditem] returns, when not [None], is the value some dict of
    the structure has under the key; a key of the dict at the top wins over
    any deeper one, and a value that is neither list nor dict holds
    nothing.  When it returns [None] although the key occurs, then the key
    occurs with the value [None]. *)
Theorem finditem_sound (key : string) (obj : json) :
  (_finditem obj key <> JNull -> occurs key (_finditem obj key) obj)
  /\ (forall members item,
         obj = JObj members -> PyDict.get key members = Some item ->
         _finditem obj key = item)
  /\ (is_container obj = false -> _finditem obj key = JNull)
  /\ (_finditem obj key = JNull ->
      forall v, occurs key v obj -> occurs key JNull obj).
Proof.
  split; [apply finditem_occurs|]. split; [|split].
  - intros members item -> Hg. rewrite finditem_obj, Hg. reflexivity.
  - apply finditem_scalar.
  - apply finditem_none.
Qed.

(** ** What [json_decoder] collects *)

Section Chunks.
Context `{Runtime}.
Hypothesis advances : decoder_advances.

Lemma json_decoder_loop_chunks (data : string) (fuel : nat) :
  forall (position : nat) (decoded_data : list json),
    String.length data + 1 <= position + fuel ->
    exists values,
      chunks data position values
      /\ json_decoder_loop fuel data position decoded_data
         = (decoded_data ++ values)%list.
Proof.
  induction fuel as [|fuel IH]; intros position decoded_data Hlen.
  - destruct (raw_decode data position) as [[obj e]|err] eqn:Ed.
    + apply advances in Ed. lia.
    + exists []. split; [econstructor; eassumption|].
      cbn. now rewrite app_nil_r.
  - cbn [json_decoder_loop].
    destruct (raw_decode data position) as [[obj e]|err] eqn:Ed.
    + pose proof (advances _ _ _ _ Ed) as Hadv.
      destruct (IH (e + 1) (decoded_data ++ [obj])%list ltac:(lia))
        as (values & Hch & Hloop).
      exists (obj :: values). split; [econstructor; eassumption|].
      rewrite Hloop, <- app_assoc. reflexivity.
    + exists []. split; [econstructor; eassumption|]. now rewrite app_nil_r.
Qed.

Lemma chunks_unique (data : string) (position : nat) (values values' : list json) :
  chunks data position values -> chunks data position values' -> values = values'.
Proof.
  intros Hc. revert values'.
  induction Hc as [position err Hd | position obj e values Hd _ IH];
    intros values' Hc'; inversion Hc'; subst; try congruence.
  assert (obj0 = obj /\ position' = e) as [-> ->] by (split; congruence).
  f_equal. now apply IH.
Qed.
End Chunks.

(** [json_decoder] always comes to the end of its loop: the values it
    collects are the whole chain of values found by decoding at position 0
    and then one character past the end of each value, up to the first
    position where decoding fails.  One value is returned as it is, any
    other number of values as a list; a body that is one value and nothing
    else is that value. *)
Theorem json_decoder_chunks `{Runtime} (data : string) :
  decoder_advances ->
  (exists values,
      chunks data 0 values
      /\ json_decoder data = match values with
                             | [obj] => obj
                             | _ => JArr values
                             end)
  /\ (forall values, chunks data 0 values ->
                     json_decoder data = match values with
                                         | [obj] => obj
                                         | _ => JArr values
                                         end)
  /\ (forall obj, raw_decode data 0 = inl (obj, String.length data) ->
                  json_decoder data = obj).
Proof.
  intros Hadv.
  destruct (json_decoder_loop_chunks Hadv data (S (String.length data)) 0 []
              ltac:(lia)) as (values & Hch & Hloop).
  cbn [app] in Hloop.
  assert (Hall : forall values', chunks data 0 values' ->
                                 json_decoder data = match values' with
                                                     | [obj] => obj
                                                     | _ => JArr values'
                                                     end).
  { intros values' Hch'. rewrite (chunks_unique data 0 values' values Hch' Hch).
    unfold json_decoder. rewrite Hloop. reflexivity. }
  split; [exists values; split; [assumption | now apply Hall]|].
  split; [exact Hall|].
  intros obj Hd. apply (Hall [obj]).
  econstructor; [eassumption|].
  destruct (raw_decode data (String.length data + 1)) as [[v e]|err] eqn:Ed.
  - apply Hadv in Ed. lia.
  - econstructor; eassumption.
Qed.

(** Three values on three lines. *)
Lemma json_decoder_chunks_witness :
  let data := PyJson.text "{'a':1}" ++ String "010" (PyJson.text "'b'")
                          ++ String "010" "2" in
  @json_decoder PyRuntime.runtime data = JArr [Fixture.object_a; JStr "b"; JInt 2].
Proof.
  cbv zeta.
  refine (proj1 (proj2 (@json_decoder_chunks PyRuntime.runtime _
                          py_raw_decode_advances))
                [Fixture.object_a; JStr "b"; JInt 2] _).
  eapply chunks_value; [vm_compute; reflexivity|].
  eapply chunks_value; [vm_compute; reflexivity|].
  eapply chunks_value; [vm_compute; reflexivity|].
  eapply chunks_end. vm_compute. reflexivity.
Defined.

(** ** A body that starts with whitespace *)

Lemma scan_once_ws (c : ascii) (rest : string) (fuel : nat) :
  PyJson.is_ws c = true ->
  exists msg at_, PyJson.scan_once fuel (String c rest) = PyJson.ScanError msg at_.
Proof.
  intros Hws. destruct fuel as [|fuel]; [eexists; eexists; reflexivity|].
  unfold PyJson.is_ws in Hws.
  repeat (apply orb_true_iff in Hws as [Hws | Hws]);
    apply Ascii.eqb_eq in Hws; subst c;
    eexists; eexists; vm_compute; reflexivity.
Qed.

Lemma json_decoder_ws (c : ascii) (rest : string) :
  PyJson.is_ws c = true ->
  @json_decoder PyRuntime.runtime (String c rest) = JArr [].
Proof.
  intros Hws. unfold json_decoder. cbn [json_decoder_loop].
  cbn [raw_decode PyRuntime.runtime]. unfold PyJsonDecode.py_raw_decode.
  cbn [Nat.ltb Nat.leb PyStr.drop].
  destruct (scan_once_ws c rest (2 * String.length (String c rest) + 1) Hws)
    as (msg & at_ & ->).
  reflexivity.
Qed.

(** [raw_decode] does not skip whitespace, so [json_decoder] collects
    nothing from a body that starts with a blank, a tab or a line break,
    and [_is_good_response] finds no error code in it: an OK response with
    such a body passes the check whatever [errorCode] it carries. *)
Theorem leading_space_is_good (response : Response) (prefix : string)
        (c : ascii) (rest : string) :
  ok response = true ->
  content response = String c rest ->
  PyJson.is_ws c = true ->
  PyStr.contains "LOG OUT MESSAGE" (content response) = false ->
  @json_decoder PyRuntime.runtime (text response) = JArr []
  /\ @_is_good_response PyRuntime.runtime response prefix = Return tt.
Proof.
  intros Hok Hbody Hws Hlog.
  assert (Hd : @json_decoder PyRuntime.runtime (text response) = JArr [])
    by (unfold text; rewrite Hbody; now apply json_decoder_ws).
  split; [assumption|].
  unfold _is_good_response. rewrite Hok. cbn [negb].
  unfold text in *. rewrite Hlog. cbv zeta. rewrite Hd. reflexivity.
Qed.

(** An error code after a blank: the classifier lets it through and
    [_make_request] returns the object. *)
Lemma leading_space_is_good_witness :
  let response :=
    Fixture.ok_response (PyJson.text " {'errorCode':'132801','errorMessage':'bad'}") in
  (@json_decoder PyRuntime.runtime (text response) = JArr []
   /\ @_is_good_response PyRuntime.runtime response "GET: " = Return tt)
  /\ fst (@_make_request PyRuntime.runtime (Fixture.always (inl response))
            GET "/inventory" 30%Z JNull None (Fixture.client "n1" ["n1"]))
     = Return (JObj [("errorCode", JStr "132801"); ("errorMessage", JStr "bad")]).
Proof.
  cbv zeta. split.
  - eapply leading_space_is_good; reflexivity.
  - vm_compute. reflexivity.
Defined.

(** ** The message of a [CvpApiError] *)

Section ErrorMessage.
Context `{Runtime}.
Hypothesis format_str : forall s, py_format (JStr s) = s.

Let nl : string := String "010" EmptyString.

Lemma join_errors_fold (errors : list json) (m k : nat) (err_msg : json) :
  k + m = List.length errors ->
  join_errors (seq k m) (JArr errors) err_msg
  = Return (fold_left (fun acc e => JStr (py_format acc ++ nl ++ py_format e))
                      (skipn k errors) err_msg).
Proof.
  revert k err_msg. induction m as [|m IH]; intros k err_msg Hlen.
  - cbn [seq join_errors]. rewrite skipn_all2 by lia. reflexivity.
  - cbn [seq join_errors py_index].
    destruct (nth_error errors k) as [item|] eqn:Hn;
      [|apply nth_error_None in Hn; lia].
    cbn [and_then]. rewrite IH by lia.
    assert (Hs : skipn k errors = item :: skipn (S k) errors).
    { clear -Hn. revert errors Hn. induction k as [|k IHk]; intros [|x l] Hn;
        try discriminate.
      - cbn in Hn. inversion Hn. reflexivity.
      - cbn in Hn |- *. now apply IHk. }
    rewrite Hs. reflexivity.
Qed.

Lemma format_fold (rest : list json) (acc : json) :
  py_format (fold_left (fun acc e => JStr (py_format acc ++ nl ++ py_format e)) rest acc)
  = fold_left (fun s e => s ++ nl ++ py_format e) rest (py_format acc).
Proof.
  revert acc. induction rest as [|e rest IH]; intros acc; [reflexivity|].
  cbn [fold_left]. rewrite IH, format_str. reflexivity.
Qed.

Lemma join_fold (first : string) (rest : list json) :
  fold_left (fun s e => s ++ nl ++ py_format e) rest first
  = PyStr.join nl (first :: map py_format rest).
Proof.
  revert first. induction rest as [|e rest IH]; intros first; [reflexivity|].
  cbn [fold_left map]. rewrite IH.
  change (PyStr.join nl (first :: py_format e :: map py_format rest))
    with (first ++ nl ++ PyStr.join nl (py_format e :: map py_format rest)).
  destruct (map py_format rest) as [|w ws].
  - cbn [PyStr.join]. reflexivity.
  - change (PyStr.join nl ((first ++ nl ++ py_format e) :: w :: ws))
      with ((first ++ nl ++ py_format e) ++ nl ++ PyStr.join nl (w :: ws)).
    change (PyStr.join nl (py_format e :: w :: ws))
      with (py_format e ++ nl ++ PyStr.join nl (w :: ws)).
    now rewrite !append_assoc.
Qed.

Lemma error_message_errors (members : list (string * json)) (errors : list json) :
  PyDict.get "errorMessage" members = None ->
  PyDict.get "errors" members = Some (JArr errors) ->
  and_then (error_message (JObj members)) (fun err_msg => Return (py_format err_msg))
  = match errors with
    | [] => Raise IndexError
    | _ => Return (PyStr.join nl (map py_format errors))
    end.
Proof.
  intros Hm He. unfold error_message. cbn [py_in and_then].
  assert (Hmem : forall k, PyDict.mem k members
                           = match PyDict.get k members with
                             | Some _ => true | None => false end).
  { clear. intros k. induction members as [|[k' v'] l IH]; [reflexivity|].
    cbn [PyDict.mem PyDict.get]. destruct (String.eqb k k'); [reflexivity|].
    cbn. apply IH. }
  rewrite !Hmem, Hm, He. cbn [py_getitem and_then]. rewrite He. cbn [and_then py_index].
  destruct errors as [|e0 rest]; [reflexivity|].
  cbn [nth_error and_then py_len List.length].
  replace (S (List.length rest) - 1) with (List.length rest) by lia.
  rewrite (join_errors_fold (e0 :: rest) (List.length rest) 1 e0) by (cbn; lia).
  cbn [and_then skipn]. rewrite format_fold, join_fold. reflexivity.
Qed.
End ErrorMessage.

Section ErrorReport.
Context `{Runtime}.

Lemma mem_get (key : string) (members : list (string * json)) :
  PyDict.mem key members
  = match PyDict.get key members with Some _ => true | None => false end.
Proof.
  induction members as [|[k v] l IH]; [reflexivity|].
  cbn [PyDict.mem PyDict.get]. destruct (String.eqb key k); [reflexivity|].
  cbn. apply IH.
Qed.

Lemma is_good_response_error_code (response : Response) (prefix : string) :
  ok response = true ->
  PyStr.contains "LOG OUT MESSAGE" (text response) = false ->
  truthy (_finditem (json_decoder (text response)) "errorCode") = true ->
  _is_good_response response prefix
  = and_then (error_message (json_decoder (text response)))
             (fun err_msg =>
                Raise (CvpApiError (prefix ++ ": Request Error: " ++ py_format err_msg))).
Proof.
  intros Hok Hout Hcode. unfold _is_good_response.
  rewrite Hok, Hout. cbn [negb]. cbv zeta. rewrite Hcode. reflexivity.
Qed.


End ErrorReport.

(** The report of an error code.  An OK response whose body decodes to one
    object in which [_finditem] finds a true [errorCode] is refused by
    [_is_good_response]: with the [errorMessage] of the object when it has
    one; else with the items of its [errors] list, each formatted and the
    lot joined by line feeds, an empty list giving an [IndexError] instead
    of a [CvpApiError]; else with its own [errorCode]. *)
Theorem error_code_report `{Runtime} (response : Response) (prefix : string)
        (members : list (string * json)) :
  (forall s, py_format (JStr s) = s) ->
  ok response = true ->
  PyStr.contains "LOG OUT MESSAGE" (text response) = false ->
  json_decoder (text response) = JObj members ->
  truthy (_finditem (JObj members) "errorCode") = true ->
  let report msg := Raise (CvpApiError (prefix ++ ": Request Error: " ++ msg)) in
  (forall m, PyDict.get "errorMessage" members = Some m ->
             _is_good_response response prefix = report (py_format m))
  /\ (forall errors,
         PyDict.get "errorMessage" members = None ->
         PyDict.get "errors" members = Some (JArr errors) ->
         _is_good_response response prefix
         = match errors with
           | [] => Raise IndexError
           | _ => report (PyStr.join (String "010" EmptyString) (map py_format errors))
           end)
  /\ (forall code,
         PyDict.get "errorMessage" members = None ->
         PyDict.get "errors" members = None ->
         PyDict.get "errorCode" members = Some code ->
         _is_good_response response prefix = report (py_format code)).
Proof.
  intros Hfmt Hok Hout Hdec Hcode report.
  assert (Hgo := is_good_response_error_code response prefix Hok Hout).
  rewrite Hdec in Hgo. specialize (Hgo Hcode).
  split; [|split].
  - intros m Hm. rewrite Hgo. unfold error_message. cbn [py_in and_then].
    rewrite mem_get, Hm. cbn [py_getitem]. rewrite Hm. reflexivity.
  - intros errors Hm He. rewrite Hgo.
    pose proof (error_message_errors Hfmt members errors Hm He) as Hmsg.
    destruct (error_message (JObj members)) as [msg|e]; cbn [and_then] in Hmsg |- *.
    + destruct errors as [|e0 rest]; [discriminate|].
      assert (Hf : py_format msg
                   = PyStr.join (String "010" EmptyString) (map py_format (e0 :: rest)))
        by congruence.
      unfold report. rewrite <- Hf. reflexivity.
    + destruct errors; [|discriminate]. congruence.
  - intros code Hm He Hc. rewrite Hgo. unfold error_message. cbn [py_in and_then].
    rewrite !mem_get, Hm, He. cbn [py_getitem and_then]. rewrite Hc.
    cbn [and_then py_index nth_error py_len List.length Nat.sub seq join_errors].
    reflexivity.
Qed.

(** A body with two errors: the message has one line for each. *)
Lemma error_code_report_witness :
  @_is_good_response PyRuntime.runtime
     (Fixture.ok_response
        (PyJson.text "{'errorCode': '122401', 'errors': ['no such device', 'no such task']}"))
     "GET: u "
  = Raise (CvpApiError ("GET: u : Request Error: no such device"
                          ++ String "010" EmptyString ++ "no such task")).
Proof.
  exact (proj1 (proj2
           (@error_code_report PyRuntime.runtime
              (Fixture.ok_response
                 (PyJson.text
                    "{'errorCode': '122401', 'errors': ['no such device', 'no such task']}"))
              "GET: u "
              [("errorCode", JStr "122401");
               ("errors", JArr [JStr "no such device"; JStr "no such task"])]
              (fun s => eq_refl) eq_refl eq_refl eq_refl eq_refl))
           [JStr "no such device"; JStr "no such task"] eq_refl eq_refl).
Defined.



(** ** Bodies that are no object *)

(** What [_make_request] makes of a good response by the value its body
    loads as.  A number or a boolean raises a [TypeError], as the test for a
    [result] key cannot be made on it; [None], which only a body [null]
    with whitespace around it still gives here, is returned as [None]; an
    object is wrapped as [{'data': [object]}] exactly when it has the key
    [result] and the address has [/resources/] in it, and is returned as it
    is otherwise. *)
Theorem make_request_by_value `{Runtime} (net : network) (c : CvpClient)
        (req_type : req_type) (url : string) (timeout : Z) (data : json)
        (files : option file_map) (sid : nat) (node : string) (rq : Request)
        (response : Response) (v : json) :
  answered net c req_type url timeout data files sid node rq response ->
  _is_good_response response (request_prefix req_type (full_url_of c url)) = Return tt ->
  ok response = true ->
  content response <> EmptyString ->
  content response <> "null" ->
  PyJsonDecode.loads (text response) = inl v ->
  let result := fst (_make_request net req_type url timeout data files c) in
  snd (_make_request net req_type url timeout data files c)
  = after_sending rq (noted node c)
  /\ match v with
     | JInt _ | JFloat _ _ | JBool _ => result = Raise TypeError
     | JNull => result = Return JNull
     | JObj members =>
         result = Return (if PyDict.mem "result" members
                             && PyStr.contains "/resources/" (full_url_of c url)
                          then JObj [("data", JArr [v])] else v)
     | JArr items =>
         result = Return (if existsb (eq_str "result") items
                             && PyStr.contains "/resources/" (full_url_of c url)
                          then JObj [("data", JArr [v])] else v)
     | JStr s =>
         result = Return (if PyStr.contains "result" s
                             && PyStr.contains "/resources/" (full_url_of c url)
                          then JObj [("data", JArr [v])] else v)
     end.
Proof.
  intros Ha Hgood Hok Hne Hnn Hload result. subst result.
  rewrite (make_request_good net req_type url timeout data files c sid node rq
             response Ha Hgood).
  rewrite Hok. cbn [negb fst snd]. split; [reflexivity|].
  unfold decode_response.
  apply String.eqb_neq in Hne, Hnn. rewrite Hne, Hnn. cbn [orb]. rewrite Hload.
  destruct v; cbn [py_in and_then]; try reflexivity;
    match goal with |- context [if ?b then _ else _] => destruct b; reflexivity end.
Qed.

(** A reply that is just [true]. *)
Lemma make_request_by_value_witness :
  @_make_request PyRuntime.runtime
     (Fixture.always (inl (Fixture.ok_response "true")))
     GET "/flag" 30%Z JNull None (Fixture.client "n1" ["n1"])
  = (Raise TypeError,
     after_sending (Fixture.get_request "n1" ["n1"] "/flag")
                   (noted "n1" (Fixture.client "n1" ["n1"]))).
Proof.
  pose proof (@make_request_by_value PyRuntime.runtime
                (Fixture.always (inl (Fixture.ok_response "true")))
                (Fixture.client "n1" ["n1"]) GET "/flag" 30%Z JNull None 0 "n1"
                (Fixture.get_request "n1" ["n1"] "/flag")
                (Fixture.ok_response "true") (JBool true)) as Hv.
  cbv zeta in Hv.
  assert (Ha : answered
                 (Fixture.always (inl (Fixture.ok_response "true")))
                 (Fixture.client "n1" ["n1"]) GET "/flag" 30%Z JNull None 0 "n1"
                 (Fixture.get_request "n1" ["n1"] "/flag") (Fixture.ok_response "true")).
  { repeat split; try reflexivity. discriminate. }
  destruct (Hv Ha eq_refl eq_refl ltac:(vm_compute; discriminate)
                ltac:(vm_compute; discriminate) eq_refl)
    as [Hstate Hresult].
  rewrite (surjective_pairing (_make_request _ _ _ _ _ _ _)).
  rewrite Hstate, Hresult. reflexivity.
Defined.

(** ** What [_send_request] hands back *)

Section SendRequestFacts.
Context `{Runtime} (net : network).
Variables (req_type : req_type) (timeout : Z) (data : json)
          (files : option file_map).

Lemma send_same_node full_url :
  keeps same_node (send net req_type full_url timeout data files).
Proof.
  unfold send.
  repeat first
    [ apply transport_keeps; intros; repeat split
    | apply the_session_keeps; apply same_node_refl
    | progress keeps_steps same_node_refl same_node_trans ].
Qed.

Lemma send_same_session full_url :
  keeps same_session (send net req_type full_url timeout data files).
Proof.
  unfold send.
  repeat first
    [ apply transport_keeps; intros; repeat split
    | apply the_session_keeps; apply same_session_refl
    | progress keeps_steps same_session_refl same_session_trans ].
Qed.

Lemma send_needs_session full_url c response c1 :
  send net req_type full_url timeout data files c = (Return response, c1) ->
  session c <> None.
Proof.
  unfold send, bind, read, the_session. destruct (session c); discriminate.
Qed.

(** The result and the final state of the retry loop: [good r c c'] for
    [tries] rounds to go. *)
Let good (full_url : string) (tries : nat) (c : CvpClient)
    (r : outcome (option Response)) (c' : CvpClient) : Prop :=
  same_node c c'
  /\ sessions_opened c <= sessions_opened c' <= sessions_opened c + pred tries
  /\ match r with
     | Return None => tries = 0
     | Return (Some response) =>
         _is_good_response response (request_prefix req_type full_url) = Return tt
         /\ ok response = true /\ session c' <> None
     | Raise _ => True
     end.

Lemma is_good_response_only_ok (response : Response) (prefix : string) :
  _is_good_response response prefix = Return tt -> ok response = true.
Proof.
  unfold _is_good_response. destruct (ok response); [reflexivity|]. cbn [negb].
  destruct (PyStr.contains "Unauthorized" (reason response)); [discriminate|].
  destruct (PyStr.contains "User is unauthorized" (text response)); discriminate.
Qed.

Lemma send_request_loop_good_only full_url tries req_try c r c' :
  req_try + tries = NUM_RETRY_REQUESTS ->
  send_request_loop net tries req_try req_type full_url timeout data files c = (r, c') ->
  good full_url tries c r c'.
Proof.
  revert req_try c. induction tries as [|tries IH]; intros req_try c Hn E.
  - inversion E; subst. repeat split; try apply same_node_refl; cbn; lia.
  - cbn [send_request_loop] in E.
    destruct (send net req_type full_url timeout data files c) as [[response|e0] c1] eqn:Es.
    + pose proof (send_same_node full_url c _ c1 Es) as N1.
      destruct (send_same_session full_url c _ c1 Es) as [S1 O1].
      pose proof (send_needs_session full_url c response c1 Es) as Hsid.
      assert (Hstop : forall e, good full_url (S tries) c (Raise e) c1).
      { intros e. repeat split; try apply N1; cbn; lia. }
      assert (Hreset : forall error,
                 Nat.eqb (req_try + 1) NUM_RETRY_REQUESTS = false ->
                 match _reset_session net c1 with
                 | (Raise e, c2) => (Raise e, c2)
                 | (Return _, c2) =>
                     match session c2 with
                     | None => (Raise error, c2)
                     | Some _ =>
                         send_request_loop net tries (S req_try) req_type full_url
                                           timeout data files c2
                     end
                 end = (r, c') -> good full_url (S tries) c r c').
      { intros error Hlast E'. apply Nat.eqb_neq in Hlast.
        destruct (_reset_session net c1) as [[r2|e2] c2] eqn:Er;
          destruct (reset_session_cases net c1 _ c2 Er) as (N2 & O2 & _).
        - destruct (session c2).
          + destruct (IH (S req_try) c2 ltac:(lia) E') as (N3 & O3 & R3).
            split; [exact (same_node_trans _ _ _ (same_node_trans _ _ _ N1 N2) N3)|].
            split; [cbn; lia|].
            destruct r as [[response'|]|e]; [exact R3 | lia | exact I].
          + inversion E'; subst.
            split; [exact (same_node_trans _ _ _ N1 N2)|]. split; [cbn; lia | exact I].
        - inversion E'; subst.
          split; [exact (same_node_trans _ _ _ N1 N2)|]. split; [cbn; lia | exact I]. }
      destruct (_is_good_response response (request_prefix req_type full_url))
        as [[]|e1] eqn:Eg.
      * inversion E; subst. split; [exact N1|]. split; [cbn; lia|].
        split; [exact Eg|]. split; [exact (is_good_response_only_ok _ _ Eg)|].
        congruence.
      * destruct e1; try (inversion E; subst; apply Hstop).
        -- destruct (unauthorized msg); [|inversion E; subst; apply Hstop].
           destruct (Nat.eqb (req_try + 1) NUM_RETRY_REQUESTS) eqn:Hlast;
             [inversion E; subst; apply Hstop | exact (Hreset _ eq_refl E)].
        -- destruct (Nat.eqb (req_try + 1) NUM_RETRY_REQUESTS) eqn:Hlast;
             [inversion E; subst; apply Hstop | exact (Hreset _ eq_refl E)].
    + pose proof (send_same_node full_url c _ c1 Es) as N1.
      destruct (send_same_session full_url c _ c1 Es) as [S1 O1].
      assert (Hstop : forall e, good full_url (S tries) c (Raise e) c1).
      { intros e. repeat split; try apply N1; cbn; lia. }
      destruct e0; try (inversion E; subst; apply Hstop).
      destruct kind; try (inversion E; subst; apply Hstop);
        (destruct (Nat.eqb (req_try + 1) NUM_RETRY_REQUESTS) eqn:Hlast;
         [inversion E; subst; apply Hstop|]);
        apply Nat.eqb_neq in Hlast;
        destruct (IH (S req_try) c1 ltac:(lia) E) as (N3 & O3 & R3);
        (split; [exact (same_node_trans _ _ _ N1 N3)|]);
        (split; [cbn; lia|]);
        (destruct r as [[response'|]|e]; [exact R3 | lia | exact I]).
Qed.
End SendRequestFacts.

(** [_send_request] returns a response or raises: it never returns
    [None].  The response it returns passed [_is_good_response], so its
    status is OK, and the client has a session then.  On the way the session
    is reset at most twice, and the node in use stays the one it was:
    moving to another node is left to the caller. *)
Theorem send_request_good_or_raises `{Runtime} (net : network) (req_type : req_type)
        (full_url : string) (timeout : Z) (data : json) (files : option file_map)
        (c : CvpClient) :
  let r := fst (_send_request net req_type full_url timeout data files c) in
  let c' := snd (_send_request net req_type full_url timeout data files c) in
  same_node c c'
  /\ sessions_opened c <= sessions_opened c' <= sessions_opened c + 2
  /\ r <> Return None
  /\ forall response,
       r = Return (Some response) ->
       _is_good_response response (request_prefix req_type full_url) = Return tt
       /\ ok response = true /\ session c' <> None.
Proof.
  intros r c'.
  destruct (send_request_loop_good_only net req_type timeout data files full_url
              NUM_RETRY_REQUESTS 0 c r c' eq_refl)
    as (Hn & Ho & Hr).
  { unfold r, c', _send_request. apply surjective_pairing. }
  split; [exact Hn|]. split; [exact Ho|]. split.
  - intros E. rewrite E in Hr. discriminate.
  - intros response E. rewrite E in Hr. exact Hr.
Qed.

(** ** What a request leaves untouched *)

Section Untouched.
Context `{Runtime} (net : network).
Context {A : Type} (proj : CvpClient -> A).
Hypothesis proj_session : forall v c, proj (with_session v c) = proj c.
Hypothesis proj_opened : forall v c, proj (with_sessions_opened v c) = proj c.
Hypothesis proj_cookies : forall v c, proj (with_cookies v c) = proj c.
Hypothesis proj_headers : forall v c, proj (with_headers v c) = proj c.
Hypothesis proj_sent : forall v c, proj (with_sent v c) = proj c.
Hypothesis proj_pool : forall v c, proj (with_node_pool v c) = proj c.
Hypothesis proj_prefix : forall v c, proj (with_url_prefix v c) = proj c.
Hypothesis proj_short : forall v c, proj (with_url_prefix_short v c) = proj c.
Hypothesis proj_error_msg : forall v c, proj (with_error_msg v c) = proj c.

Lemma untouched_refl c : untouched proj c c.
Proof. reflexivity. Qed.

Lemma untouched_trans c1 c2 c3 :
  untouched proj c1 c2 -> untouched proj c2 c3 -> untouched proj c1 c3.
Proof. unfold untouched. congruence. Qed.

Ltac untouched_steps :=
  repeat first
    [ apply (keeps_bind _ untouched_trans); [|intros ?]
    | apply (keeps_ret _ untouched_refl) | apply (keeps_raise _ untouched_refl)
    | apply (keeps_read _ untouched_refl) | apply (keeps_lift _ untouched_refl)
    | apply transport_keeps; intros; unfold untouched; apply proj_sent
    | apply the_session_keeps; apply untouched_refl
    | apply keeps_assign; intros ?; unfold untouched;
      rewrite ?proj_session, ?proj_opened, ?proj_cookies, ?proj_headers, ?proj_sent,
        ?proj_pool, ?proj_prefix, ?proj_short, ?proj_error_msg; reflexivity
    | match goal with
      | |- keeps _ (match ?x with _ => _ end) => destruct x
      | |- keeps _ (if ?x then _ else _) => destruct x
      end ].

Lemma login_untouched : keeps (untouched proj) (_login net).
Proof. unfold _login, _login_on_prem, _set_headers_api_token. untouched_steps. Qed.

Lemma reset_session_untouched : keeps (untouched proj) (_reset_session net).
Proof.
  unfold _reset_session.
  apply (keeps_bind _ untouched_trans); [untouched_steps|].
  intros _. apply (keeps_try_except _ untouched_trans).
  - apply (keeps_bind _ untouched_trans); [apply login_untouched|].
    intros; apply (keeps_ret _ untouched_refl).
  - intros e. untouched_steps.
Qed.

Lemma create_session_loop_untouched rounds :
  keeps (untouched proj) (create_session_loop net rounds).
Proof.
  induction rounds as [|rounds IH]; cbn [create_session_loop].
  - apply (keeps_ret _ untouched_refl).
  - apply (keeps_bind _ untouched_trans); [apply (keeps_read _ untouched_refl)|].
    intros c. destruct (cycle_next (node_pool c)) as [[host pool']|];
      [|apply (keeps_raise _ untouched_refl)].
    do 3 (apply (keeps_bind _ untouched_trans); [untouched_steps | intros _]).
    apply (keeps_bind _ untouched_trans); [apply reset_session_untouched|].
    intros [e|]; [|apply (keeps_ret _ untouched_refl)].
    apply (keeps_bind _ untouched_trans); [untouched_steps | intros _; exact IH].
Qed.

Lemma create_session_untouched all_nodes :
  keeps (untouched proj) (_create_session net all_nodes).
Proof.
  unfold _create_session.
  apply (keeps_bind _ untouched_trans); [apply (keeps_read _ untouched_refl)|].
  intros c. apply (keeps_bind _ untouched_trans); [untouched_steps | intros _].
  apply create_session_loop_untouched.
Qed.

Section Request.
Variables (req_type : req_type) (url : string) (timeout : Z) (data : json)
          (files : option file_map).

Lemma send_untouched full_url :
  keeps (untouched proj) (send net req_type full_url timeout data files).
Proof. unfold send. untouched_steps. Qed.

Lemma send_request_loop_untouched tries req_try full_url :
  keeps (untouched proj)
        (send_request_loop net tries req_try req_type full_url timeout data files).
Proof.
  revert req_try. induction tries as [|tries IH]; intros req_try.
  - apply (keeps_ret _ untouched_refl).
  - intros c r c' E. cbn [send_request_loop] in E.
    destruct (send net req_type full_url timeout data files c) as [[response|e0] c1] eqn:Es;
      pose proof (send_untouched full_url c _ c1 Es) as H1.
    + assert (Hreset : forall error,
                 match _reset_session net c1 with
                 | (Raise e, c2) => (Raise e, c2)
                 | (Return _, c2) =>
                     match session c2 with
                     | None => (Raise error, c2)
                     | Some _ =>
                         send_request_loop net tries (S req_try) req_type full_url
                                           timeout data files c2
                     end
                 end = (r, c') -> untouched proj c c').
      { intros error E'.
        destruct (_reset_session net c1) as [[r2|e2] c2] eqn:Er;
          pose proof (reset_session_untouched c1 _ c2 Er) as H2.
        - destruct (session c2).
          + exact (untouched_trans _ _ _ (untouched_trans _ _ _ H1 H2)
                                   (IH (S req_try) c2 r c' E')).
          + inversion E'; subst. exact (untouched_trans _ _ _ H1 H2).
        - inversion E'; subst. exact (untouched_trans _ _ _ H1 H2). }
      destruct (_is_good_response response (request_prefix req_type full_url))
        as [[]|e1]; [inversion E; subst; assumption|].
      destruct e1; try (inversion E; subst; assumption).
      * destruct (unauthorized msg); [|inversion E; subst; assumption].
        destruct (Nat.eqb (req_try + 1) NUM_RETRY_REQUESTS);
          [inversion E; subst; assumption | exact (Hreset _ E)].
      * destruct (Nat.eqb (req_try + 1) NUM_RETRY_REQUESTS);
          [inversion E; subst; assumption | exact (Hreset _ E)].
    + destruct e0; try (inversion E; subst; assumption).
      destruct kind; try (inversion E; subst; assumption);
        (destruct (Nat.eqb (req_try + 1) NUM_RETRY_REQUESTS);
         [inversion E; subst; assumption
         | exact (untouched_trans _ _ _ H1 (IH (S req_try) c1 r c' E))]).
Qed.

Lemma node_loop_untouched rounds node_num :
  keeps (untouched proj) (node_loop net rounds node_num req_type url timeout data files).
Proof.
  revert node_num. induction rounds as [|rounds IH]; intros node_num.
  - apply (keeps_ret _ untouched_refl).
  - cbn [node_loop].
    apply (keeps_bind _ untouched_trans); [apply (keeps_read _ untouched_refl)|].
    intros c.
    assert (Hfail : forall error,
              keeps (untouched proj)
                    (fail_over net error node_num
                       (node_loop net rounds (S node_num) req_type url timeout
                                  data files))).
    { intros error. unfold fail_over.
      apply (keeps_bind _ untouched_trans); [apply (keeps_read _ untouched_refl)|].
      intros c0.
      destruct (Nat.eqb (node_num + 1) (node_cnt c0));
        [apply (keeps_raise _ untouched_refl)|].
      apply (keeps_bind _ untouched_trans); [apply create_session_untouched|].
      intros _.
      apply (keeps_bind _ untouched_trans); [apply (keeps_read _ untouched_refl)|].
      intros c1. destruct (session c1); [apply IH | apply (keeps_raise _ untouched_refl)]. }
    apply (keeps_try_except _ untouched_trans).
    + apply (keeps_bind _ untouched_trans);
        [apply send_request_loop_untouched | intros; apply (keeps_ret _ untouched_refl)].
    + intros e. destruct e; try apply (keeps_raise _ untouched_refl); try apply Hfail.
      destruct (negb (PyStr.contains "Unauthorized" msg)
                && negb (PyStr.contains "User is unauthorized" msg));
        [apply (keeps_raise _ untouched_refl) | apply Hfail].
Qed.
End Request.
End Untouched.

Section MakeRequestUntouched.
Context `{Runtime} (net : network).
Context {A : Type} (proj : CvpClient -> A).
Hypothesis proj_session : forall v c, proj (with_session v c) = proj c.
Hypothesis proj_opened : forall v c, proj (with_sessions_opened v c) = proj c.
Hypothesis proj_cookies : forall v c, proj (with_cookies v c) = proj c.
Hypothesis proj_headers : forall v c, proj (with_headers v c) = proj c.
Hypothesis proj_sent : forall v c, proj (with_sent v c) = proj c.
Hypothesis proj_pool : forall v c, proj (with_node_pool v c) = proj c.
Hypothesis proj_prefix : forall v c, proj (with_url_prefix v c) = proj c.
Hypothesis proj_short : forall v c, proj (with_url_prefix_short v c) = proj c.
Hypothesis proj_error_msg : forall v c, proj (with_error_msg v c) = proj c.
Hypothesis proj_used : forall v c, proj (with_last_used_node v c) = proj c.

Lemma make_request_untouched req_type url timeout data files :
  keeps (untouched proj) (_make_request net req_type url timeout data files).
Proof.
  pose proof (untouched_refl proj) as Hrefl.
  pose proof (untouched_trans proj) as Htrans.
  unfold _make_request.
  apply (keeps_bind _ Htrans); [apply (keeps_read _ Hrefl)|]. intros c.
  destruct (session c); [|apply (keeps_raise _ Hrefl)].
  apply (keeps_bind _ Htrans); [apply (keeps_lift _ Hrefl)|]. intros node.
  apply (keeps_bind _ Htrans); [apply keeps_assign; intros; apply proj_used|]. intros _.
  apply (keeps_bind _ Htrans);
    [apply node_loop_untouched; assumption|].
  intros [[response|] full_url]; [|apply (keeps_ret _ Hrefl)].
  destruct (negb (ok response)); [apply (keeps_ret _ Hrefl) | apply (keeps_lift _ Hrefl)].
Qed.
End MakeRequestUntouched.

(** A request changes nothing of the configuration: after [_make_request],
    and so after [get], [post] and [delete], the nodes and their number, the
    port, the protocol, the credentials, the certificate, the timeouts, the
    CVaaS settings and both versions are what they were, whether it returns
    or raises, and whatever retries, logins and moves to other nodes it
    made.  The same holds of [_create_session] and of [_reset_session]. *)
Theorem request_keeps_configuration `{Runtime} (net : network) (c : CvpClient) :
  (forall req_type url timeout data files,
      configuration (snd (_make_request net req_type url timeout data files c))
      = configuration c)
  /\ (forall url timeout,
         configuration (snd (get net url timeout c)) = configuration c)
  /\ (forall url data files timeout,
         configuration (snd (post net url data files timeout c)) = configuration c)
  /\ (forall url data timeout,
         configuration (snd (delete net url data timeout c)) = configuration c)
  /\ (forall all_nodes,
         configuration (snd (_create_session net all_nodes c)) = configuration c)
  /\ configuration (snd (_reset_session net c)) = configuration c.
Proof.
  assert (Hmake : forall req_type url timeout data files,
             configuration (snd (_make_request net req_type url timeout data files c))
             = configuration c).
  { intros req_type url timeout data files.
    destruct (_make_request net req_type url timeout data files c) as [r c'] eqn:E.
    refine (make_request_untouched net configuration _ _ _ _ _ _ _ _ _ _
              req_type url timeout data files c r c' E); reflexivity. }
  split; [exact Hmake|].
  split; [intros url timeout; exact (Hmake GET url timeout JNull None)|].
  split; [intros url data files timeout; exact (Hmake POST url timeout data files)|].
  split; [intros url data timeout; exact (Hmake DELETE url timeout data None)|].
  split.
  - intros all_nodes.
    destruct (_create_session net all_nodes c) as [r c'] eqn:E.
    refine (create_session_untouched net configuration _ _ _ _ _ _ _ _ _
              all_nodes c r c' E); reflexivity.
  - destruct (_reset_session net c) as [r c'] eqn:E.
    refine (reset_session_untouched net configuration _ _ _ _ _
              c r c' E); reflexivity.
Qed.

(** [last_used_node] after a request is the node of the address the
    client had when [_make_request] was entered: it is noted once, before
    the loop over the nodes, and nothing in the loop notes it again.  So
    when the request moved on to another node, [last_used_node] still names
    the node that failed, not the one the last request went to. *)
Theorem last_used_node_is_entry_node `{Runtime} (net : network) (req_type : req_type)
        (url : string) (timeout : Z) (data : json) (files : option file_map)
        (c : CvpClient) (sid : nat) (node : string) :
  session c = Some sid ->
  Re.match_node (url_prefix c) = Some node ->
  last_used_node (snd (_make_request net req_type url timeout data files c)) = Some node.
Proof.
  intros Hs Hn.
  rewrite (make_request_eq net req_type timeout data files url c sid node Hs Hn).
  destruct (node_loop net (node_cnt c) 0 req_type url timeout data files (noted node c))
    as [r c'] eqn:E.
  assert (Hused : untouched last_used_node (noted node c) c').
  { refine (node_loop_untouched net last_used_node _ _ _ _ _ _ _ _ _
              req_type url timeout data files (node_cnt c) 0 (noted node c) r c' E);
      reflexivity. }
  unfold untouched in Hused. cbn in Hused.
  destruct r as [[[response|] full_url]|e]; cbn [snd]; assumption.
Qed.

(** The first of two nodes is down: the request is answered by the second,
    which is the node in use from then on, and [last_used_node] names the
    first. *)
Lemma last_used_node_is_entry_node_witness :
  let run := @_make_request PyRuntime.runtime
               (one_node_down "n1" (Fixture.ok_response "{}"))
               GET "/inventory" 30%Z JNull None (Fixture.client "n1" ["n1"; "n2"]) in
  last_used_node (snd run) = Some "n1"
  /\ url_prefix (snd run) = "https://n2:443/web"
  /\ fst run = Return (JObj []).
Proof.
  cbv zeta. split.
  - apply (@last_used_node_is_entry_node PyRuntime.runtime _ GET _ _ _ _ _ 0 "n1");
      reflexivity.
  - vm_compute. split; reflexivity.
Defined.

(** ** The node of an address *)

Module ReFacts.

Lemma has_char_app (ch : ascii) (s t : string) :
  has_char ch (s ++ t) = has_char ch s || has_char ch t.
Proof.
  induction s as [|c s IH]; [reflexivity|].
  cbn [append has_char]. rewrite IH. now rewrite orb_assoc.
Qed.

Lemma first_line_whole (s : string) :
  has_char "010" s = false -> Re.first_line s = s.
Proof.
  induction s as [|c s IH]; [reflexivity|]. cbn [has_char Re.first_line].
  intros Hc. apply orb_false_iff in Hc as [-> Hs]. now rewrite IH.
Qed.

Lemma before_last_colon_none (s : string) :
  has_char ":" s = false -> Re.before_last_colon s = None.
Proof.
  induction s as [|c s IH]; [reflexivity|]. cbn [has_char Re.before_last_colon].
  intros Hc. apply orb_false_iff in Hc as [-> Hs]. now rewrite IH.
Qed.

Lemma before_last_colon_app (s t : string) :
  has_char ":" t = false ->
  Re.before_last_colon (s ++ String ":" t) = Some s.
Proof.
  intros Ht. induction s as [|c s IH].
  - cbn [append Re.before_last_colon]. now rewrite (before_last_colon_none t Ht).
  - cbn [append Re.before_last_colon]. now rewrite IH.
Qed.

Lemma digit_char (ch : ascii) (d : nat) :
  d < 10 -> ch = ":"%char \/ ch = "010"%char ->
  Ascii.eqb (ascii_of_nat (48 + d)) ch = false.
Proof.
  intros Hd Hch.
  do 10 (destruct d as [|d]; [destruct Hch as [-> | ->]; reflexivity|]). lia.
Qed.

Lemma pos_digits_chars (ch : ascii) (fuel : nat) :
  ch = ":"%char \/ ch = "010"%char ->
  forall (z : Z) (acc : string),
    has_char ch (PyStr.pos_digits fuel z acc) = has_char ch acc.
Proof.
  intros Hch. induction fuel as [|fuel IH]; intros z acc; [reflexivity|].
  cbn [PyStr.pos_digits].
  assert (Hd : Ascii.eqb (ascii_of_nat (48 + Z.to_nat (z mod 10))) ch = false).
  { apply digit_char; [|assumption].
    pose proof (Z.mod_pos_bound z 10 ltac:(lia)). lia. }
  destruct (Z.ltb z 10).
  - cbn [has_char]. now rewrite Hd.
  - rewrite IH. cbn [has_char]. now rewrite Hd.
Qed.

Lemma of_Z_chars (ch : ascii) (z : Z) :
  ch = ":"%char \/ ch = "010"%char -> has_char ch (PyStr.of_Z z) = false.
Proof.
  intros Hch. unfold PyStr.of_Z. destruct (Z.ltb z 0).
  - cbn [has_char]. rewrite (pos_digits_chars ch _ Hch).
    destruct Hch as [-> | ->]; reflexivity.
  - now rewrite (pos_digits_chars ch _ Hch).
Qed.

Lemma match_node_url (host : string) (port : option Z) :
  has_char "010" host = false ->
  Re.match_node (node_url host port ++ "/web") = Some host.
Proof.
  intros Hhost. unfold Re.match_node, node_url.
  change (("https://" ++ host ++ ":" ++ PyStr.of_Z (port_or_443 port)) ++ "/web")
    with ("https://" ++ ((host ++ ":" ++ PyStr.of_Z (port_or_443 port)) ++ "/web")).
  rewrite (prefix_app "https://" "https://" _ eq_refl).
  change (PyStr.drop 8 ("https://" ++ ?x)) with x.
  cbn [PyStr.drop append].
  rewrite append_assoc.
  change (":" ++ PyStr.of_Z (port_or_443 port))
    with (String ":" (PyStr.of_Z (port_or_443 port))).
  change (String ":" (PyStr.of_Z (port_or_443 port)) ++ "/web")
    with (String ":" (PyStr.of_Z (port_or_443 port) ++ "/web")).
  rewrite first_line_whole.
  - apply before_last_colon_app. rewrite has_char_app, of_Z_chars by (now left).
    reflexivity.
  - rewrite has_char_app, Hhost. cbn [has_char orb Ascii.eqb]. cbn.
    rewrite has_char_app, of_Z_chars by (now right). reflexivity.
Qed.

End ReFacts.

(** ** The node a new session is on *)

Section SelectsNode.
Context `{Runtime} (net : network).

Lemma cycle_next_in (pool pool' : cycle) (host : string) :
  cycle_next pool = Some (host, pool') ->
  In host (cycle_items pool) /\ cycle_items pool' = cycle_items pool.
Proof.
  unfold cycle_next.
  destruct (nth_error (cycle_items pool) (cycle_pos pool)) as [h|] eqn:Hn; [|discriminate].
  intros E. inversion E; subst. split; [|reflexivity].
  exact (nth_error_In _ _ Hn).
Qed.

Lemma create_session_loop_stop (rounds : nat) (c : CvpClient) :
  cycle_next (node_pool c) = None ->
  create_session_loop net (S rounds) c = (Raise StopIteration, c).
Proof.
  intros Hnext. cbn [create_session_loop]. unfold bind, read, raise.
  rewrite Hnext. reflexivity.
Qed.

Lemma create_session_loop_selects (rounds : nat) :
  forall c c' : CvpClient,
    create_session_loop net rounds c = (Return tt, c') ->
    rounds <> 0 ->
    session c' <> None ->
    exists host,
      In host (cycle_items (node_pool c))
      /\ url_prefix_short c' = node_url host (port c)
      /\ url_prefix c' = node_url host (port c) ++ "/web".
Proof.
  induction rounds as [|rounds IH]; intros c c' E Hrounds Hsession; [congruence|].
  destruct (cycle_next (node_pool c)) as [[host pool']|] eqn:Hnext.
  - rewrite (create_session_loop_step net rounds c host pool' Hnext) in E.
    destruct (cycle_next_in _ _ _ Hnext) as [Hin Hitems].
    remember (select_node host pool' c) as c0 eqn:Hc0.
    assert (Hshort : url_prefix_short c0 = node_url host (port c)) by (subst c0; reflexivity).
    assert (Hweb : url_prefix c0 = node_url host (port c) ++ "/web")
      by (subst c0; reflexivity).
    assert (Hpool : node_pool c0 = pool') by (subst c0; reflexivity).
    assert (Hport : port c0 = port c) by (subst c0; reflexivity).
    clear Hc0.
    destruct (_reset_session net c0) as [[[e|]|e] c1] eqn:Er; [| |discriminate];
      destruct (reset_session_cases net c0 _ c1 Er) as ((Np & Nu & Ns & _) & _ & Hr);
      destruct (reset_session_same_config net c0 _ c1 Er) as (_ & _ & Cp & _).
    + destruct rounds as [|rounds].
      * cbn [create_session_loop] in E. inversion E; subst c'.
        destruct Hr as [Hnone _]. exfalso. apply Hsession. exact Hnone.
      * remember (log_failure host e c1) as c2 eqn:Hc2.
        assert (Hpool2 : node_pool c2 = node_pool c1) by (subst c2; reflexivity).
        assert (Hport2 : port c2 = port c1) by (subst c2; reflexivity).
        clear Hc2.
        destruct (IH c2 c' E ltac:(discriminate) Hsession) as (host' & Hin' & Hs' & Hw').
        exists host'. rewrite Hpool2, Np, Hpool, Hitems in Hin'.
        rewrite Hport2, Cp, Hport in Hs', Hw'. auto.
    + inversion E; subst c'. exists host.
      rewrite Nu, Ns. auto.
  - rewrite (create_session_loop_stop rounds c Hnext) in E. discriminate.
Qed.
End SelectsNode.

(** When [_create_session] returns and leaves a session, the node in use
    is one of the nodes of the pool: both addresses are the ones made for
    it from its name and the port, the long one being the short one with
    [/web]; and the node name [_make_request] reads back from the address
    is that name, colons in it included, so long as it holds no line
    feed. *)
Theorem create_session_selects_node `{Runtime} (net : network) (all_nodes : bool)
        (c c' : CvpClient) :
  node_cnt c <> 0 ->
  _create_session net all_nodes c = (Return tt, c') ->
  session c' <> None ->
  exists host,
    In host (cycle_items (node_pool c))
    /\ url_prefix_short c' = "https://" ++ host ++ ":" ++ PyStr.of_Z (port_or_443 (port c))
    /\ url_prefix c' = url_prefix_short c' ++ "/web"
    /\ (has_char "010" host = false -> Re.match_node (url_prefix c') = Some host).
Proof.
  intros Hcnt E Hsession. unfold _create_session, bind, read, assign in E.
  cbv zeta in E.
  match type of E with
  | create_session_loop net ?n ?c0 = _ =>
      assert (Hn : n <> 0);
      [|destruct (create_session_loop_selects net n c0 c' E Hn Hsession)
          as (host & Hin & Hs & Hw)]
  end.
  - destruct (negb all_nodes && Nat.ltb 1 (node_cnt c)) eqn:Hb; [|assumption].
    apply andb_true_iff in Hb as [_ Hlt]. apply Nat.ltb_lt in Hlt. lia.
  - exists host. cbn [node_pool port with_error_msg] in Hin, Hs, Hw.
    split; [exact Hin|]. split; [exact Hs|]. split; [now rewrite Hw, Hs|].
    intros Hhost. rewrite Hw. now apply ReFacts.match_node_url.
Qed.

(** The second of two nodes, after the first went down. *)
Lemma create_session_selects_node_witness :
  exists host,
    In host ["n1"; "n2"]
    /\ url_prefix_short
         (snd (@_create_session PyRuntime.runtime
                 (one_node_down "n1" (Fixture.ok_response "{}")) false
                 (Fixture.client "n1" ["n1"; "n2"])))
       = "https://" ++ host ++ ":" ++ PyStr.of_Z 443
    /\ url_prefix
         (snd (@_create_session PyRuntime.runtime
                 (one_node_down "n1" (Fixture.ok_response "{}")) false
                 (Fixture.client "n1" ["n1"; "n2"])))
       = url_prefix_short
           (snd (@_create_session PyRuntime.runtime
                   (one_node_down "n1" (Fixture.ok_response "{}")) false
                   (Fixture.client "n1" ["n1"; "n2"]))) ++ "/web"
    /\ (has_char "010" host = false ->
        Re.match_node
          (url_prefix
             (snd (@_create_session PyRuntime.runtime
                     (one_node_down "n1" (Fixture.ok_response "{}")) false
                     (Fixture.client "n1" ["n1"; "n2"]))))
        = Some host).
Proof.
  apply (@create_session_selects_node PyRuntime.runtime
           (one_node_down "n1" (Fixture.ok_response "{}")) false
           (Fixture.client "n1" ["n1"; "n2"])).
  - discriminate.
  - vm_compute. reflexivity.
  - vm_compute. discriminate.
Defined.

(** ** Logging in with a token *)

Section TokenLogin.
Context `{Runtime} (net : network).

Lemma get_set_same {V : Type} (k : string) (v : V) (d : list (string * V)) :
  PyDict.get k (PyDict.set k v d) = Some v.
Proof.
  induction d as [|[k' v'] d IH]; cbn [PyDict.set PyDict.get].
  - now rewrite String.eqb_refl.
  - destruct (String.eqb k k') eqn:Hk; cbn [PyDict.get]; rewrite Hk; [reflexivity | exact IH].
Qed.

Lemma reset_session_token (c : CvpClient) (tok : string) :
  api_token c = Some tok ->
  _reset_session net c = (Return None, token_session tok c).
Proof.
  intros Htok.
  unfold _reset_session, _login, _set_headers_api_token, try_except, bind, assign,
    read, ret.
  cbn [api_token with_headers with_session with_sessions_opened].
  rewrite Htok. reflexivity.
Qed.

Lemma create_session_loop_token (rounds : nat) (c : CvpClient) (host tok : string)
      (pool' : cycle) :
  cycle_next (node_pool c) = Some (host, pool') ->
  api_token c = Some tok ->
  create_session_loop net (S rounds) c
  = (Return tt, token_session tok (select_node host pool' c)).
Proof.
  intros Hnext Htok.
  rewrite (create_session_loop_step net rounds c host pool' Hnext).
  rewrite (reset_session_token (select_node host pool' c) tok Htok). reflexivity.
Qed.
End TokenLogin.

(** With a token, [connect] sends nothing: it succeeds at once on the
    first node, whatever the world, with a fresh session, the addresses of
    that node, and the token as [Authorization: Bearer] header.  The token
    is the argument [api_token], else the argument [cvaas_token], else the
    token an earlier [connect] left in the client. *)
Theorem connect_with_token `{Runtime} (net : network) (current_node_ip : option string)
        (nodes : list string) (username password : option string)
        (connect_timeout : option Z) (request_timeout : Z) (protocol : string)
        (port' : option Z) (cert : cert_t) (is_cvaas : bool)
        (tenant api_token' cvaas_token' : option string) (c : CvpClient)
        (host tok : string) (rest : list string) :
  mask_localhost current_node_ip nodes = host :: rest ->
  token_in_use api_token' cvaas_token' c = Some tok ->
  let run := connect net current_node_ip nodes username password connect_timeout
                     request_timeout protocol port' cert is_cvaas tenant api_token'
                     cvaas_token' c in
  fst run = Return tt
  /\ sent (snd run) = sent c
  /\ session (snd run) = Some (sessions_opened c)
  /\ sessions_opened (snd run) = S (sessions_opened c)
  /\ url_prefix (snd run) = node_url host port' ++ "/web"
  /\ url_prefix_short (snd run) = node_url host port'
  /\ api_token (snd run) = Some tok
  /\ PyDict.get "Authorization" (headers (snd run)) = Some (JStr ("Bearer " ++ tok))
  /\ cycle_items (node_pool (snd run)) = host :: rest
  /\ cycle_pos (node_pool (snd run)) = match rest with [] => 0 | _ => 1 end.
Proof.
  intros Hnodes Htok run. subst run.
  rewrite connect_eq, create_session_all. rewrite Hnodes.
  remember (configure (host :: rest) username password connect_timeout
                      request_timeout protocol port' cert is_cvaas tenant
                      api_token' cvaas_token' c) as c1 eqn:Hc1.
  assert (Hcnt : node_cnt c1 = S (List.length rest)) by (subst c1; reflexivity).
  remember (with_error_msg (String "010" EmptyString) c1) as c0 eqn:Hc0.
  assert (Hnext : cycle_next (node_pool c0)
                  = Some (host, mk_cycle (host :: rest)
                                         (match rest with [] => 0 | _ => 1 end))).
  { subst c0 c1. destruct rest; reflexivity. }
  assert (Htok0 : api_token c0 = Some tok) by (subst c0 c1; exact Htok).
  assert (Hsent : sent c0 = sent c) by (subst c0 c1; reflexivity).
  assert (Hopened : sessions_opened c0 = sessions_opened c) by (subst c0 c1; reflexivity).
  assert (Hport : port c0 = port') by (subst c0 c1; reflexivity).
  clear Hc1.
  clear Hc0. rewrite Hcnt.
  rewrite (create_session_loop_token net (List.length rest) c0 host tok _ Hnext Htok0).
  unfold token_session, select_node.
  cbn [fst snd session sent sessions_opened url_prefix url_prefix_short api_token headers node_pool
       with_headers with_session with_sessions_opened with_url_prefix
       with_url_prefix_short with_node_pool cycle_items cycle_pos].
  rewrite get_set_same. unfold node_url. rewrite Hport, Hsent, Hopened.
  repeat split; assumption.
Qed.

(** Two nodes that are both down, and a token. *)
Lemma connect_with_token_witness :
  let run := @connect PyRuntime.runtime
               (Fixture.always (inr (ConnectionError, "connection refused")))
               None ["n1"; "n2"] (Some "admin") (Some "secret") (Some 10%Z) 30%Z
               "https" None (CertFlag false) false None (Some "tok") None new_client in
  fst run = Return tt
  /\ sent (snd run) = []
  /\ url_prefix (snd run) = "https://n1:443/web"
  /\ PyDict.get "Authorization" (headers (snd run)) = Some (JStr "Bearer tok").
Proof.
  cbv zeta.
  pose proof (@connect_with_token PyRuntime.runtime
                (Fixture.always (inr (ConnectionError, "connection refused")))
                None ["n1"; "n2"] (Some "admin") (Some "secret") (Some 10%Z) 30%Z
                "https" None (CertFlag false) false None (Some "tok") None new_client
                "n1" "tok" ["n2"] eq_refl eq_refl) as Hc.
  cbv zeta in Hc.
  destruct Hc as (Hr & Hs & _ & _ & Hu & _ & _ & Ha & _).
  repeat split; assumption.
Defined.

(** ** Logging out *)

Section LogoutFacts.
Context `{Runtime} (net : network).

Lemma logout_eq (c : CvpClient) :
  logout net c
  = match post net "/login/logout.do" JNull None 30%Z c with
    | (Return response, c1) =>
        match py_getitem response "data" with
        | Return status =>
            if eq_str "success" status then (Return tt, with_session None c1)
            else (Return tt, c1)
        | Raise e => (Raise e, c1)
        end
    | (Raise e, c1) => (Raise e, c1)
    end.
Proof.
  unfold logout, bind, lift, assign, ret.
  destruct (post net "/login/logout.do" JNull None 30%Z c) as [[response|e] c1];
    [|reflexivity].
  destruct (py_getitem response "data") as [status|e]; [|reflexivity].
  destruct (eq_str "success" status); reflexivity.
Qed.

Lemma no_session_no_request (c : CvpClient) (req_type : req_type) (url : string)
      (timeout : Z) (data : json) (files : option file_map) :
  session c = None ->
  _make_request net req_type url timeout data files c
  = (Raise (ValueError "No valid session to CVP node"), c).
Proof.
  intros Hs. unfold _make_request, bind, read, raise. rewrite Hs. reflexivity.
Qed.
End LogoutFacts.

(** [logout] posts to [/login/logout.do].  When the reply decodes to an
    object whose [data] is the string [success], it drops the session, and
    every request made afterwards raises the [ValueError] of a client
    without session and sends nothing; with any other [data] the session
    stays.  A reply that decodes to an object without [data] raises
    [KeyError], one that decodes to [None], a list or a string raises
    [TypeError]. *)
Theorem logout_ends_session `{Runtime} (net : network) (c : CvpClient) (sid : nat)
        (node : string) (rq : Request) (response : Response) (reply : json) :
  answered net c POST "/login/logout.do" 30%Z JNull None sid node rq response ->
  _is_good_response response
    (request_prefix POST (full_url_of c "/login/logout.do")) = Return tt ->
  decode_response response (full_url_of c "/login/logout.do") = Return reply ->
  let c1 := after_sending rq (noted node c) in
  match reply with
  | JObj members =>
      match PyDict.get "data" members with
      | Some status =>
          if eq_str "success" status
          then logout net c = (Return tt, with_session None c1)
               /\ forall req_type url timeout data files,
                   _make_request net req_type url timeout data files
                                 (with_session None c1)
                   = (Raise (ValueError "No valid session to CVP node"),
                      with_session None c1)
          else logout net c = (Return tt, c1) /\ session c1 = Some sid
      | None => logout net c = (Raise (KeyError "data"), c1)
      end
  | _ => logout net c = (Raise TypeError, c1)
  end.
Proof.
  intros Ha Hgood Hdec c1.
  pose proof (make_request_good net POST "/login/logout.do" 30%Z JNull None c sid node
                rq response Ha Hgood) as Hpost.
  rewrite (is_good_response_only_ok _ _ Hgood) in Hpost. cbn [negb] in Hpost.
  rewrite Hdec in Hpost. fold c1 in Hpost.
  assert (Hlog := logout_eq net c). unfold post in Hlog. rewrite Hpost in Hlog.
  destruct reply as [| | | | |items|members]; try exact Hlog.
  cbn [py_getitem] in Hlog.
  destruct (PyDict.get "data" members) as [status|]; [|exact Hlog].
  destruct (eq_str "success" status).
  - split; [exact Hlog|]. intros. now apply no_session_no_request.
  - split; [exact Hlog|]. destruct Ha as (Hs & _). exact Hs.
Qed.

(** A reply [{'data': 'success'}]: the session is gone and a [get] is
    refused. *)
Lemma logout_ends_session_witness :
  let net := Fixture.always
               (inl (Fixture.ok_response (PyJson.text "{'data': 'success'}"))) in
  let c := Fixture.client "n1" ["n1"] in
  fst (@logout PyRuntime.runtime net c) = Return tt
  /\ session (snd (@logout PyRuntime.runtime net c)) = None
  /\ fst (@get PyRuntime.runtime net "/inventory" 30%Z
               (snd (@logout PyRuntime.runtime net c)))
     = Raise (ValueError "No valid session to CVP node").
Proof.
  cbv zeta.
  assert (Ha : exists rq,
             answered (Fixture.always
                         (inl (Fixture.ok_response (PyJson.text "{'data': 'success'}"))))
                      (Fixture.client "n1" ["n1"]) POST "/login/logout.do" 30%Z JNull None
                      0 "n1" rq
                      (Fixture.ok_response (PyJson.text "{'data': 'success'}"))).
  { eexists. repeat split; try reflexivity. discriminate. }
  destruct Ha as [rq Ha].
  pose proof (@logout_ends_session PyRuntime.runtime _ _ 0 "n1" rq _
                (JObj [("data", JStr "success")]) Ha eq_refl eq_refl) as Hl.
  cbv zeta in Hl. cbn [PyDict.get String.eqb Ascii.eqb Bool.eqb eq_str] in Hl.
  destruct Hl as [Hl Hreq]. rewrite Hl. cbn [fst snd].
  split; [reflexivity|]. split; [reflexivity|].
  unfold get. rewrite Hreq. reflexivity.
Defined.

(** ** The order of the nodes *)

Section RoundRobin.
Context `{Runtime} (net : network).

Lemma mod_shift (n k j : nat) : n <> 0 -> (S k mod n + j) mod n = (k + S j) mod n.
Proof.
  intros Hn. rewrite Nat.Div0.add_mod_idemp_l. f_equal. lia.
Qed.

Lemma cursor_next (n k : nat) :
  k < n -> (if Nat.eqb (S k) n then 0 else S k) = S k mod n.
Proof.
  intros Hk. destruct (Nat.eqb (S k) n) eqn:E.
  - apply Nat.eqb_eq in E. subst n. now rewrite Nat.Div0.mod_same.
  - apply Nat.eqb_neq in E. rewrite Nat.mod_small; [reflexivity | lia].
Qed.

Lemma rotation_S (items : list string) (k j : nat) :
  k < List.length items ->
  rotation items k (S j)
  = nth k items EmptyString :: rotation items (S k mod List.length items) j.
Proof.
  intros Hk. unfold rotation. cbn [seq map].
  rewrite Nat.add_0_r, (Nat.mod_small k) by assumption. f_equal.
  rewrite <- seq_shift, map_map. apply map_ext. intros i.
  rewrite mod_shift by lia. reflexivity.
Qed.

Lemma rotation_firstn (items : list string) (j : nat) :
  j <= List.length items -> rotation items 0 j = firstn j items.
Proof.
  unfold rotation. cbn [Nat.add]. revert j.
  assert (Hgen : forall (pre rest : list string) (j : nat),
             j <= List.length rest ->
             map (fun i => nth (i mod List.length (pre ++ rest)) (pre ++ rest) EmptyString)
                 (seq (List.length pre) j)
             = firstn j rest).
  { intros pre rest. revert pre. induction rest as [|x rest IH]; intros pre j Hj.
    - destruct j; [reflexivity | cbn in Hj; lia].
    - destruct j as [|j]; [reflexivity|]. cbn [seq map firstn]. f_equal.
      + rewrite Nat.mod_small by (rewrite length_app; cbn; lia).
        rewrite app_nth2 by lia. now rewrite Nat.sub_diag.
      + specialize (IH (pre ++ [x])%list j ltac:(cbn in Hj; lia)).
        rewrite <- app_assoc in IH. cbn [app] in IH.
        replace (List.length (pre ++ [x])%list) with (S (List.length pre)) in IH
          by (rewrite length_app; cbn; lia).
        exact IH. }
  intros j Hj. exact (Hgen [] items j Hj).
Qed.

Lemma cycle_next_cursor (items : list string) (k : nat) :
  k < List.length items ->
  cycle_next (mk_cycle items k)
  = Some (nth k items EmptyString, mk_cycle items (S k mod List.length items)).
Proof.
  intros Hk. unfold cycle_next. cbn [cycle_items cycle_pos].
  rewrite (nth_error_nth' items EmptyString Hk), (cursor_next _ k Hk). reflexivity.
Qed.

Lemma create_session_loop_round_robin (items : list string) (rounds : nat) :
  forall (k : nat) (c c' : CvpClient),
    node_pool c = mk_cycle items k ->
    k < List.length items ->
    create_session_loop net rounds c = (Return tt, c') ->
    exists j reasons c_mid,
      j <= rounds
      /\ rejected_in_turn net c (rotation items k j) reasons c_mid
      /\ Forall (fun e => login_error e = true) reasons
      /\ error_msg c_mid = error_msg c ++ failure_lines (rotation items k j) reasons
      /\ port c_mid = port c
      /\ ((j = rounds
           /\ c' = c_mid
           /\ node_pool c' = mk_cycle items ((k + j) mod List.length items)
           /\ (rounds <> 0 -> session c' = None))
          \/ (j < rounds
              /\ accepted net c_mid (nth ((k + j) mod List.length items) items EmptyString) c'
              /\ session c' <> None
              /\ error_msg c' = error_msg c_mid
              /\ url_prefix_short c'
                 = node_url (nth ((k + j) mod List.length items) items EmptyString) (port c)
              /\ url_prefix c' = url_prefix_short c' ++ "/web"
              /\ node_pool c' = mk_cycle items ((k + j + 1) mod List.length items))).
Proof.
  induction rounds as [|rounds IH]; intros k c c' Hpool Hk E.
  - cbn [create_session_loop] in E. assert (c' = c) by (inversion E; reflexivity).
    subst c'. exists 0, [], c. split; [lia|]. split; [constructor|].
    split; [constructor|].
    split; [cbn; now rewrite append_empty|]. split; [reflexivity|]. left.
    rewrite Nat.add_0_r, Nat.mod_small by assumption.
    split; [reflexivity|]. split; [reflexivity|]. split; [exact Hpool | congruence].
  - pose proof (cycle_next_cursor items k Hk) as Hnext. rewrite <- Hpool in Hnext.
    rewrite (create_session_loop_step net rounds c _ _ Hnext) in E.
    set (host := nth k items EmptyString) in *.
    set (k' := S k mod List.length items) in *.
    assert (Hk' : k' < List.length items) by (apply Nat.mod_upper_bound; lia).
    remember (select_node host (mk_cycle items k') c) as c0 eqn:Hc0.
    assert (Hshort : url_prefix_short c0 = node_url host (port c))
      by (rewrite Hc0; reflexivity).
    assert (Hweb : url_prefix c0 = url_prefix_short c0 ++ "/web")
      by (rewrite Hc0; reflexivity).
    assert (Hpool0 : node_pool c0 = mk_cycle items k') by (rewrite Hc0; reflexivity).
    assert (Hmsg0 : error_msg c0 = error_msg c) by (rewrite Hc0; reflexivity).
    assert (Hport0 : port c0 = port c) by (rewrite Hc0; reflexivity).
    destruct (_reset_session net c0) as [rr c1] eqn:Er.
    destruct (reset_session_cases net c0 rr c1 Er) as ((Hp1 & Hu1 & Hs1 & _) & _ & Hcase).
    pose proof (reset_session_same_log net c0 rr c1 Er) as Hlog.
    pose proof (reset_session_same_config net c0 rr c1 Er) as (_ & _ & Hport1 & _).
    unfold same_log in Hlog.
    destruct rr as [[e|]|e]; [| |discriminate].
    + remember (log_failure host e c1) as c2 eqn:Hc2.
      assert (Hpool2 : node_pool c2 = node_pool c1) by (rewrite Hc2; reflexivity).
      assert (Hport2 : port c2 = port c1) by (rewrite Hc2; reflexivity).
      assert (Hsess2 : session c2 = session c1) by (rewrite Hc2; reflexivity).
      assert (Hmsg2 : error_msg c2
                      = error_msg c1 ++ host ++ ": " ++ exn_str e
                                  ++ String "010" EmptyString)
        by (rewrite Hc2; reflexivity).
      assert (Hstep : forall hosts reasons c3,
                 rejected_in_turn net c2 hosts reasons c3 ->
                 rejected_in_turn net c (host :: hosts) (e :: reasons) c3).
      { intros hosts reasons c3 Hrest.
        apply (rejected_next net c host (mk_cycle items k') e c1 hosts reasons c3 Hnext).
        - rewrite <- Hc0. exact Er.
        - rewrite <- Hc2. exact Hrest. }
      clear Hc0 Hc2 Hnext.
      destruct (IH k' c2 c' ltac:(congruence) Hk' E)
        as (j & reasons & c_mid & Hj & Hall & Hkinds & Hmsg & Hportm & Hend).
      exists (S j), (e :: reasons), c_mid. split; [lia|].
      rewrite (rotation_S items k j Hk). fold host. fold k'.
      split; [exact (Hstep _ _ _ Hall)|].
      split; [constructor; [exact (proj2 Hcase) | exact Hkinds]|].
      split; [rewrite Hmsg, Hmsg2, Hlog, Hmsg0; cbn [failure_lines];
              rewrite !append_assoc; reflexivity|].
      split; [congruence|].
      replace ((k + S j) mod List.length items) with ((k' + j) mod List.length items)
        by (apply mod_shift; lia).
      replace ((k + S j + 1) mod List.length items)
        with ((k' + j + 1) mod List.length items)
        by (rewrite <- !Nat.add_assoc; apply mod_shift; lia).
      destruct Hend as [(-> & Hsame & Hp & Hnone)
                       | (Hlt & Hacc & Hsess & Hm & Hu & Hw & Hp)].
      * left. split; [reflexivity|]. split; [exact Hsame|]. split; [exact Hp|].
        intros _. destruct rounds as [|rounds]; [|apply Hnone; discriminate].
        inversion Hall; subst. rewrite Hsess2. exact (proj1 Hcase).
      * right. split; [lia|]. split; [exact Hacc|]. split; [exact Hsess|].
        split; [exact Hm|]. split; [|split; [exact Hw | exact Hp]].
        rewrite Hu. f_equal. congruence.
    + assert (c' = c1) by (inversion E; reflexivity). subst c'.
      exists 0, [], c. split; [lia|]. split; [constructor|]. split; [constructor|].
      split; [cbn; now rewrite append_empty|]. split; [reflexivity|]. right.
      split; [lia|].
      rewrite !Nat.add_0_r, (Nat.mod_small k) by assumption. fold host.
      split; [exists (mk_cycle items k'); split; [exact Hnext | rewrite <- Hc0; exact Er]|].
      split; [congruence|]. split; [congruence|].
      split; [congruence|]. split; [congruence|].
      rewrite Hp1, Hpool0. unfold k'. f_equal. f_equal. lia.
Qed.
End RoundRobin.

(** [_create_session] goes through the nodes round robin from the cursor
    of the pool, as many as [all_nodes] allows, and stops at the first node
    that accepts the login.  The nodes before it were each rejected, in the
    very run: the login made for each, on the client as the loop had it
    then, returned an error the [except] clause names, and each has its line
    in [error_msg], in that order.  The addresses are those of the node that
    accepted, and the cursor is left just after it.  When every node is
    rejected there is no session and the cursor has moved on by their
    number.  With [all_nodes] false and more than one node, one node is left
    out: the one just before the cursor. *)
Theorem create_session_round_robin `{Runtime} (net : network) (all_nodes : bool)
        (c c' : CvpClient) (items : list string) (k : nat) :
  node_pool c = mk_cycle items k ->
  k < List.length items ->
  node_cnt c = List.length items ->
  _create_session net all_nodes c = (Return tt, c') ->
  let n := List.length items in
  exists j reasons c_mid,
    j <= rounds_of all_nodes n
    /\ (all_nodes = false -> 1 < n -> rounds_of all_nodes n = n - 1)
    /\ rejected_in_turn net (with_error_msg (String "010" EmptyString) c)
                        (rotation items k j) reasons c_mid
    /\ Forall (fun e => login_error e = true) reasons
    /\ error_msg c_mid
       = String "010" EmptyString ++ failure_lines (rotation items k j) reasons
    /\ ((j = rounds_of all_nodes n
         /\ c' = c_mid
         /\ session c' = None
         /\ node_pool c' = mk_cycle items ((k + j) mod n))
        \/ (j < rounds_of all_nodes n
            /\ accepted net c_mid (nth ((k + j) mod n) items EmptyString) c'
            /\ session c' <> None
            /\ error_msg c' = error_msg c_mid
            /\ url_prefix_short c' = node_url (nth ((k + j) mod n) items EmptyString) (port c)
            /\ url_prefix c' = url_prefix_short c' ++ "/web"
            /\ node_pool c' = mk_cycle items ((k + j + 1) mod n))).
Proof.
  intros Hpool Hk Hcnt E n.
  change (_create_session net all_nodes c)
    with (create_session_loop net (rounds_of all_nodes (node_cnt c))
            (with_error_msg (String "010" EmptyString) c)) in E.
  rewrite Hcnt in E. fold n in E.
  assert (Hrounds : rounds_of all_nodes n <> 0 /\ (all_nodes = false -> 1 < n ->
                                                   rounds_of all_nodes n = n - 1)).
  { unfold rounds_of. fold n in Hk. split.
    - destruct (negb all_nodes && Nat.ltb 1 n) eqn:Hb; [|lia].
      apply andb_true_iff in Hb as [_ Hlt]. apply Nat.ltb_lt in Hlt. lia.
    - intros -> Hn. cbn [negb andb].
      destruct (Nat.ltb 1 n) eqn:Hlt; [reflexivity|]. apply Nat.ltb_ge in Hlt. lia. }
  destruct Hrounds as [Hne Hskip].
  destruct (create_session_loop_round_robin net items (rounds_of all_nodes n) k
              (with_error_msg (String "010" EmptyString) c) c' Hpool Hk E)
    as (j & reasons & c_mid & Hj & Hall & Hkinds & Hmsg & _ & Hend).
  exists j, reasons, c_mid. split; [exact Hj|].
  split; [exact Hskip|].
  split; [exact Hall|]. split; [exact Hkinds|]. split; [exact Hmsg|].
  destruct Hend as [(Hjr & Hsame & Hp & Hnone) | Hfound]; [left | right; exact Hfound].
  split; [exact Hjr|]. split; [exact Hsame|]. split; [exact (Hnone Hne) | exact Hp].
Qed.

(** Three nodes, the cursor on the second, which is down: the third takes
    the session and the first, the node in use before, is not tried. *)
Lemma create_session_round_robin_witness :
  let net := one_node_down "n2" (Fixture.ok_response (PyJson.text "{'sessionId': 's1'}")) in
  let c := Fixture.password_client "n1" ["n1"; "n2"; "n3"] in
  let c' := snd (@_create_session PyRuntime.runtime net false c) in
  (exists j reasons c_mid,
      j <= rounds_of false 3
      /\ (false = false -> 1 < 3 -> rounds_of false 3 = 3 - 1)
      /\ @rejected_in_turn PyRuntime.runtime net
           (with_error_msg (String "010" EmptyString) c)
           (rotation ["n1"; "n2"; "n3"] 1 j) reasons c_mid
      /\ Forall (fun e => login_error e = true) reasons
      /\ error_msg c_mid
         = String "010" EmptyString
             ++ @failure_lines PyRuntime.runtime (rotation ["n1"; "n2"; "n3"] 1 j) reasons
      /\ ((j = rounds_of false 3
           /\ c' = c_mid
           /\ session c' = None
           /\ node_pool c' = mk_cycle ["n1"; "n2"; "n3"] ((1 + j) mod 3))
          \/ (j < rounds_of false 3
              /\ @accepted PyRuntime.runtime net c_mid
                   (nth ((1 + j) mod 3) ["n1"; "n2"; "n3"] EmptyString) c'
              /\ session c' <> None
              /\ error_msg c' = error_msg c_mid
              /\ url_prefix_short c'
                 = node_url (nth ((1 + j) mod 3) ["n1"; "n2"; "n3"] EmptyString) (port c)
              /\ url_prefix c' = url_prefix_short c' ++ "/web"
              /\ node_pool c' = mk_cycle ["n1"; "n2"; "n3"] ((1 + j + 1) mod 3))))
  /\ url_prefix c' = "https://n3:443/web"
  /\ error_msg c' = String "010" ("n2: connection refused" ++ String "010" EmptyString).
Proof.
  cbv zeta. split.
  - apply (@create_session_round_robin PyRuntime.runtime
             (one_node_down "n2" (Fixture.ok_response (PyJson.text "{'sessionId': 's1'}")))
             false (Fixture.password_client "n1" ["n1"; "n2"; "n3"]) _
             ["n1"; "n2"; "n3"] 1 eq_refl).
    + cbn. lia.
    + reflexivity.
    + vm_compute. reflexivity.
  - vm_compute. split; reflexivity.
Defined.

(** When [connect] returns, the client is on the first node of the list
    that accepted the login.  The nodes before it, in the order given (the
    local host replaced by [CURRENT_NODE_IP] when that is set), were each
    tried in this very call and rejected: the login made for each, on the
    client as [connect] had it then, returned an error.  The login on the
    node itself returned none.  The addresses are those of that node on the
    port given or 443, always with [https] whatever [protocol] says, and the
    cursor of the pool is on the node after it. *)
Theorem connect_first_accepting `{Runtime} (net : network)
        (current_node_ip : option string) (node_list : list string)
        (username password : option string) (connect_timeout : option Z)
        (request_timeout : Z) (protocol : string) (port' : option Z) (cert : cert_t)
        (is_cvaas : bool) (tenant api_token' cvaas_token' : option string)
        (c c' : CvpClient) :
  mask_localhost current_node_ip node_list <> [] ->
  connect net current_node_ip node_list username password connect_timeout
          request_timeout protocol port' cert is_cvaas tenant api_token'
          cvaas_token' c = (Return tt, c') ->
  let nodes' := mask_localhost current_node_ip node_list in
  let c0 := with_error_msg (String "010" EmptyString)
              (configure nodes' username password connect_timeout request_timeout
                         protocol port' cert is_cvaas tenant api_token' cvaas_token' c) in
  exists j reasons c_mid,
    j < List.length nodes'
    /\ rejected_in_turn net c0 (firstn j nodes') reasons c_mid
    /\ Forall (fun e => login_error e = true) reasons
    /\ accepted net c_mid (nth j nodes' EmptyString) c'
    /\ session c' <> None
    /\ url_prefix_short c' = node_url (nth j nodes' EmptyString) port'
    /\ url_prefix c' = url_prefix_short c' ++ "/web"
    /\ node_pool c' = mk_cycle nodes' ((j + 1) mod List.length nodes')
    /\ nodes c' = nodes'
    /\ node_cnt c' = List.length nodes'.
Proof.
  intros Hnodes E nodes' c0. rewrite connect_eq in E. fold nodes' in E, Hnodes.
  remember (configure nodes' username password connect_timeout request_timeout
                      protocol port' cert is_cvaas tenant api_token' cvaas_token' c)
    as c1 eqn:Hc1.
  assert (Hpool : node_pool c1 = mk_cycle nodes' 0) by (rewrite Hc1; reflexivity).
  assert (Hcnt : node_cnt c1 = List.length nodes') by (rewrite Hc1; reflexivity).
  assert (Hnodes0 : nodes c1 = nodes') by (rewrite Hc1; reflexivity).
  assert (Hport : port c1 = port') by (rewrite Hc1; reflexivity).
  assert (Hlen : 0 < List.length nodes') by (destruct nodes'; [congruence | cbn; lia]).
  destruct (_create_session net true c1) as [[[]|e] c2] eqn:Ec; [|discriminate].
  destruct (session c2) as [sid|] eqn:Hs; [|discriminate].
  assert (c' = c2) by (inversion E; reflexivity). subst c2.
  destruct (create_session_same_config net true c1 _ c' Ec) as (Hn & Hc & _).
  rewrite create_session_all, Hcnt in Ec.
  destruct (create_session_loop_round_robin net nodes' (List.length nodes') 0
              (with_error_msg (String "010" EmptyString) c1) c' Hpool Hlen Ec)
    as (j & reasons & c_mid & Hj & Hall & Hkinds & _ & _
        & [(_ & _ & _ & Hnone) | (Hjn & Hacc & _ & _ & Hu & Hw & Hp)]);
    [rewrite Hnone in Hs by lia; discriminate|].
  change (port (with_error_msg (String "010" EmptyString) c1)) with (port c1) in Hu.
  exists j, reasons, c_mid. rewrite Hport in Hu.
  cbn [Nat.add] in Hu, Hp, Hacc. rewrite (Nat.mod_small j) in Hu, Hacc by assumption.
  rewrite (rotation_firstn nodes' j (Nat.lt_le_incl _ _ Hjn)) in Hall.
  subst c0.
  repeat split; try assumption; congruence.
Qed.

(** Two nodes, the first down: the client ends on the second. *)
Lemma connect_first_accepting_witness :
  let net := one_node_down "n1" (Fixture.ok_response (PyJson.text "{'sessionId': 's1'}")) in
  let run := @connect PyRuntime.runtime net None ["n1"; "n2"] (Some "admin")
               (Some "secret") (Some 10%Z) 30%Z "http" None (CertFlag false)
               false None None None new_client in
  let c0 := with_error_msg (String "010" EmptyString)
              (configure ["n1"; "n2"] (Some "admin") (Some "secret") (Some 10%Z) 30%Z
                         "http" None (CertFlag false) false None None None new_client) in
  (exists j reasons c_mid,
      j < 2
      /\ @rejected_in_turn PyRuntime.runtime net c0 (firstn j ["n1"; "n2"]) reasons c_mid
      /\ Forall (fun e => login_error e = true) reasons
      /\ @accepted PyRuntime.runtime net c_mid (nth j ["n1"; "n2"] EmptyString) (snd run)
      /\ session (snd run) <> None
      /\ url_prefix_short (snd run) = node_url (nth j ["n1"; "n2"] EmptyString) None
      /\ url_prefix (snd run) = url_prefix_short (snd run) ++ "/web"
      /\ node_pool (snd run) = mk_cycle ["n1"; "n2"] ((j + 1) mod 2)
      /\ nodes (snd run) = ["n1"; "n2"]
      /\ node_cnt (snd run) = 2)
  /\ url_prefix (snd run) = "https://n2:443/web".
Proof.
  cbv zeta. split.
  - apply (@connect_first_accepting PyRuntime.runtime
             (one_node_down "n1" (Fixture.ok_response (PyJson.text "{'sessionId': 's1'}")))
             None ["n1"; "n2"] (Some "admin") (Some "secret") (Some 10%Z) 30%Z "http"
             None (CertFlag false) false None None None new_client).
    + discriminate.
    + vm_compute. reflexivity.
  - vm_compute. reflexivity.
Defined.

(** ** Uploads *)

Section Upload.
Context `{Runtime} (net : network).

Lemma get_set {V : Type} (k k' : string) (v : V) (d : list (string * V)) :
  PyDict.get k (PyDict.set k' v d)
  = if String.eqb k k' then Some v else PyDict.get k d.
Proof.
  induction d as [|[k0 v0] d IH]; cbn [PyDict.set PyDict.get]; [reflexivity|].
  destruct (String.eqb k' k0) eqn:E0; cbn [PyDict.get].
  - apply String.eqb_eq in E0. subst k0. destruct (String.eqb k k'); reflexivity.
  - rewrite IH. destruct (String.eqb k k0) eqn:E1; [|reflexivity].
    apply String.eqb_eq in E1. subst k0. now rewrite String.eqb_sym, E0.
Qed.

Lemma upload_headers (headers : header_map) (accept : json) (k : string) :
  PyDict.get "Accept" headers = Some accept ->
  let fhs := [("Accept", accept)] in
  let fhs := match PyDict.get "APP_SESSION_ID" headers with
             | Some v => PyDict.set "APP_SESSION_ID" v fhs
             | None => fhs
             end in
  let fhs := match PyDict.get "Authorization" headers with
             | Some v => PyDict.set "Authorization" v fhs
             | None => fhs
             end in
  PyDict.get k fhs
  = if String.eqb k "Accept" || String.eqb k "APP_SESSION_ID"
       || String.eqb k "Authorization"
    then PyDict.get k headers else None.
Proof.
  intros Ha. cbv zeta.
  destruct (PyDict.get "Authorization" headers) as [auth|] eqn:Hauth;
    destruct (PyDict.get "APP_SESSION_ID" headers) as [sess|] eqn:Hsess;
    rewrite ?get_set; cbn [PyDict.get];
    destruct (String.eqb k "Authorization") eqn:E1;
    destruct (String.eqb k "APP_SESSION_ID") eqn:E2;
    destruct (String.eqb k "Accept") eqn:E3; cbn [orb];
    try (apply String.eqb_eq in E1; subst k);
    try (apply String.eqb_eq in E2; subst k);
    try (apply String.eqb_eq in E3; subst k);
    try discriminate; congruence.
Qed.

Lemma send_build_error (c : CvpClient) (req_type : req_type) (full_url : string)
      (timeout : Z) (data : json) (files : option file_map) (sid : nat) (e : exn) :
  session c = Some sid ->
  build_request c sid req_type full_url timeout data files = Raise e ->
  send net req_type full_url timeout data files c = (Raise e, c).
Proof.
  intros Hs Hb. unfold send, bind, read, the_session, lift.
  rewrite Hs, Hb. reflexivity.
Qed.

Lemma make_request_build_error (c : CvpClient) (req_type : req_type) (url : string)
      (timeout : Z) (data : json) (files : option file_map) (sid : nat)
      (node : string) (key : string) :
  session c = Some sid ->
  Re.match_node (url_prefix c) = Some node ->
  node_cnt c <> 0 ->
  build_request c sid req_type (full_url_of c url) timeout data files
  = Raise (KeyError key) ->
  _make_request net req_type url timeout data files c
  = (Raise (KeyError key), noted node c).
Proof.
  intros Hs Hn Hcnt Hb.
  rewrite (make_request_eq net req_type timeout data files url c sid node Hs Hn).
  destruct (node_cnt c) as [|rounds]; [congruence|].
  rewrite (node_loop_raises net req_type timeout data files rounds 0 url
             (noted node c) (noted node c) (KeyError key)); [reflexivity| |reflexivity].
  unfold _send_request.
  change (send_request_loop net NUM_RETRY_REQUESTS) with (send_request_loop net 3).
  cbn [send_request_loop].
  assert (Hsend : send net req_type (full_url_of (noted node c) url) timeout data files
                       (noted node c)
                  = (Raise (KeyError key), noted node c)).
  { apply (send_build_error (noted node c) req_type _ timeout data files sid _ Hs).
    exact Hb. }
  rewrite Hsend. reflexivity.
Qed.
End Upload.

(** An upload, that is a POST with [files]: the request carries the files
    and no data, whatever [data] was given, and of the client's headers only
    [Accept], [APP_SESSION_ID] and [Authorization], so no [Content-Type].
    A client whose headers have no [Accept] raises [KeyError] before
    anything is sent, and no other node is tried. *)
Theorem upload_request `{Runtime} (net : network) (c : CvpClient) (url : string)
        (timeout : Z) (data : json) (files : file_map) (sid : nat) (node : string) :
  session c = Some sid ->
  Re.match_node (url_prefix c) = Some node ->
  node_cnt c <> 0 ->
  match PyDict.get "Accept" (headers c) with
  | None =>
      _make_request net POST url timeout data (Some files) c
      = (Raise (KeyError "Accept"), noted node c)
  | Some _ =>
      exists rq,
        build_request c sid POST (full_url_of c url) timeout data (Some files) = Return rq
        /\ send net POST (full_url_of c url) timeout data (Some files) c
           = (match net (sent c) rq with
              | inl response => Return response
              | inr (kind, msg) => Raise (RequestsError kind msg)
              end, after_sending rq c)
        /\ rq_data rq = None
        /\ rq_files rq = Some files
        /\ rq_url rq = full_url_of c url
        /\ forall k,
             PyDict.get k (rq_headers rq)
             = if String.eqb k "Accept" || String.eqb k "APP_SESSION_ID"
                  || String.eqb k "Authorization"
               then PyDict.get k (headers c) else None
  end.
Proof.
  intros Hs Hn Hcnt.
  destruct (PyDict.get "Accept" (headers c)) as [accept|] eqn:Ha.
  - eexists. split; [unfold build_request; rewrite Ha; reflexivity|].
    split; [apply (send_eq net POST timeout data (Some files) c sid _ _ Hs);
            unfold build_request; rewrite Ha; reflexivity|].
    cbn [rq_data rq_files rq_url rq_headers]. repeat split.
    intros k. exact (upload_headers (headers c) accept k Ha).
  - apply (make_request_build_error net c POST url timeout data (Some files) sid node
             "Accept" Hs Hn Hcnt).
    unfold build_request. rewrite Ha. reflexivity.
Qed.

(** The headers of an upload by a client logged in with a token. *)
Lemma upload_request_witness :
  exists rq,
    build_request (Fixture.client "n1" ["n1"]) 0 POST
                  (@full_url_of (Fixture.client "n1" ["n1"]) "/image")
                  30%Z (JObj [("name", JStr "eos.swi")]) (Some [("file", "eos.swi")])
    = Return rq
    /\ rq_data rq = None
    /\ PyDict.get "Content-Type" (rq_headers rq) = None
    /\ PyDict.get "Authorization" (rq_headers rq) = Some (JStr "Bearer tok").
Proof.
  destruct (@upload_request PyRuntime.runtime (Fixture.always (inl (Fixture.ok_response "{}")))
              (Fixture.client "n1" ["n1"]) "/image" 30%Z
              (JObj [("name", JStr "eos.swi")]) [("file", "eos.swi")] 0 "n1"
              eq_refl eq_refl ltac:(discriminate))
    as (rq & Hb & _ & Hd & _ & _ & Hh).
  exists rq. split; [exact Hb|]. split; [exact Hd|].
  split; [rewrite Hh; reflexivity | rewrite Hh; reflexivity].
Defined.

(** ** Where a result comes from *)

Section ResultFacts.
Context `{Runtime} (net : network).
Variables (req_type : req_type) (url : string) (timeout : Z) (data : json)
          (files : option file_map).

Lemma fail_over_eq (e : exn) (node_num : nat) (next_node : M (option Response * string))
      (c1 : CvpClient) :
  fail_over net e node_num next_node c1
  = if Nat.eqb (node_num + 1) (node_cnt c1) then (Raise e, c1)
    else match _create_session net false c1 with
         | (Return _, c2) =>
             match session c2 with
             | None => (Raise e, c2)
             | Some _ => next_node c2
             end
         | (Raise e', c2) => (Raise e', c2)
         end.
Proof.
  unfold fail_over, bind, read, raise.
  destruct (Nat.eqb (node_num + 1) (node_cnt c1)); [reflexivity|].
  destruct (_create_session net false c1) as [[[]|e'] c2]; [|reflexivity].
  destruct (session c2); reflexivity.
Qed.

Lemma full_url_of_same (c c' : CvpClient) :
  same_node c c' -> is_cvaas c' = is_cvaas c -> full_url_of c' url = full_url_of c url.
Proof.
  intros (_ & Hu & Hs & _) Hc. unfold full_url_of. now rewrite Hu, Hs, Hc.
Qed.

Lemma send_request_good_only_at (c c1 : CvpClient) (resp : option Response) :
  _send_request net req_type (full_url_of c url) timeout data files c
  = (Return resp, c1) ->
  exists response,
    resp = Some response
    /\ full_url_of c url = full_url_of c1 url
    /\ _is_good_response response (request_prefix req_type (full_url_of c url))
       = Return tt
    /\ ok response = true
    /\ session c1 <> None.
Proof.
  intros Es.
  destruct (send_request_loop_good_only net req_type timeout data files
              (full_url_of c url) NUM_RETRY_REQUESTS 0 c (Return resp) c1 eq_refl Es)
    as (Hnode & _ & Hr).
  destruct (send_request_loop_same_config net req_type timeout data files _ _ _
              c _ c1 Es) as (_ & _ & _ & _ & Hcv).
  destruct resp as [response|]; [|discriminate].
  exists response. destruct Hr as (Hg & Hok & Hs).
  split; [reflexivity|].
  split; [symmetry; now apply full_url_of_same|]. auto.
Qed.

Lemma node_loop_result (rounds : nat) :
  forall (node_num : nat) (c : CvpClient) (r : option Response) (u : string)
         (c' : CvpClient),
    node_num + rounds = node_cnt c ->
    rounds <> 0 ->
    node_loop net rounds node_num req_type url timeout data files c = (Return (r, u), c') ->
    exists response,
      r = Some response
      /\ u = full_url_of c' url
      /\ _is_good_response response (request_prefix req_type u) = Return tt
      /\ ok response = true
      /\ session c' <> None.
Proof.
  induction rounds as [|rounds IH]; intros node_num c r u c' Hcnt Hrounds E; [congruence|].
  destruct (_send_request net req_type (full_url_of c url) timeout data files c)
    as [[resp|e] c1] eqn:Es.
  - rewrite (node_loop_returns net req_type timeout data files rounds node_num url
               c c1 resp Es) in E.
    assert (r = resp /\ u = full_url_of c url /\ c' = c1) as (-> & -> & ->)
      by (inversion E; auto).
    pose proof (send_request_good_only_at c c1 resp Es) as Hgood. exact Hgood.
  - destruct (send_request_loop_same_config net req_type timeout data files _ _ _
                c _ c1 Es) as (_ & Hn1 & _).
    destruct (retryable e) eqn:Hret.
    + rewrite (node_loop_fail_over net req_type url timeout data files rounds node_num
                 c c1 e Es Hret) in E.
      rewrite fail_over_eq in E.
      destruct (Nat.eqb (node_num + 1) (node_cnt c1)) eqn:Hlast; [discriminate|].
      apply Nat.eqb_neq in Hlast.
      destruct (_create_session net false c1) as [[[]|e'] c2] eqn:Ec; [|discriminate].
      destruct (create_session_same_config net false c1 _ c2 Ec) as (_ & Hn2 & _).
      destruct (session c2); [|discriminate].
      apply (IH (S node_num) c2 r u c'); [lia | lia | exact E].
    + rewrite (node_loop_raises net req_type timeout data files rounds node_num url
                 c c1 e Es Hret) in E.
      discriminate.
Qed.
End ResultFacts.

(** Whatever [_make_request] returns was decoded from a response that is
    OK and passed [_is_good_response], received from the node in use at the
    end, with a session in place: on a client with at least one node the
    branch that returns [None] for want of a response is never taken, so
    [None] is returned only for a body that decodes to [None]. *)
Theorem make_request_result `{Runtime} (net : network) (req_type : req_type)
        (url : string) (timeout : Z) (data : json) (files : option file_map)
        (c c' : CvpClient) (v : json) :
  node_cnt c <> 0 ->
  _make_request net req_type url timeout data files c = (Return v, c') ->
  exists response,
    ok response = true
    /\ _is_good_response response (request_prefix req_type (full_url_of c' url))
       = Return tt
    /\ decode_response response (full_url_of c' url) = Return v
    /\ session c' <> None.
Proof.
  intros Hcnt E.
  destruct (session c) as [sid|] eqn:Hs;
    [|rewrite (no_session_no_request net c req_type url timeout data files Hs) in E;
      discriminate].
  destruct (Re.match_node (url_prefix c)) as [node|] eqn:Hn.
  - rewrite (make_request_eq net req_type timeout data files url c sid node Hs Hn) in E.
    destruct (node_loop net (node_cnt c) 0 req_type url timeout data files (noted node c))
      as [[[r u]|e] c2] eqn:El; [|destruct e; discriminate].
    destruct (node_loop_result net req_type url timeout data files (node_cnt c) 0
                (noted node c) r u c2 eq_refl Hcnt El)
      as (response & -> & -> & Hgood & Hok & Hsession).
    rewrite Hok in E. cbn [negb] in E.
    assert (c' = c2) by (inversion E; reflexivity). subst c2.
    exists response. repeat split; try assumption. now inversion E.
  - unfold _make_request, bind, read, lift in E. rewrite Hs, Hn in E. discriminate.
Qed.

(** A good reply from the second node after the first went down. *)
Lemma make_request_result_witness :
  let run := @_make_request PyRuntime.runtime
               (one_node_down "n1" (Fixture.ok_response (PyJson.text "{'total': 0}")))
               GET "/inventory" 30%Z JNull None (Fixture.client "n1" ["n1"; "n2"]) in
  fst run = Return (JObj [("total", JInt 0)])
  /\ exists response,
       ok response = true
       /\ @_is_good_response PyRuntime.runtime response
            (request_prefix GET (@full_url_of (snd run) "/inventory")) = Return tt
       /\ @decode_response PyRuntime.runtime response (@full_url_of (snd run) "/inventory")
          = Return (JObj [("total", JInt 0)])
       /\ session (snd run) <> None.
Proof.
  cbv zeta. split; [vm_compute; reflexivity|].
  apply (@make_request_result PyRuntime.runtime
           (one_node_down "n1" (Fixture.ok_response (PyJson.text "{'total': 0}")))
           GET "/inventory" 30%Z JNull None (Fixture.client "n1" ["n1"; "n2"])).
  - discriminate.
  - vm_compute. reflexivity.
Defined.

(** ** Logging in with a password *)

Section PasswordLogin.
Context `{Runtime} (net : network).

Lemma login_on_prem_eq (c : CvpClient) (sid : nat) (response : Response)
      (body session_id : json) :
  session c = Some sid ->
  net (sent c)
      {| rq_session := sid; rq_method := POST;
         rq_url := url_prefix c ++ "/login/authenticate.do";
         rq_cookies := None; rq_data := Some (authdata c);
         rq_headers := headers c; rq_timeout := ConnectOnly (connect_timeout c);
         rq_verify := cert c; rq_files := None |} = inl response ->
  _is_good_response response
    ("Authenticate: " ++ url_prefix c ++ "/login/authenticate.do") = Return tt ->
  PyJsonDecode.loads (text response) = inl body ->
  py_getitem body "sessionId" = Return session_id ->
  _login_on_prem net c
  = (Return tt,
     with_headers (PyDict.set "APP_SESSION_ID" session_id (headers c))
       (with_cookies (Some (response_cookies response))
          (with_sent (sent c ++ [{| rq_session := sid; rq_method := POST;
                                    rq_url := url_prefix c ++ "/login/authenticate.do";
                                    rq_cookies := None; rq_data := Some (authdata c);
                                    rq_headers := headers c;
                                    rq_timeout := ConnectOnly (connect_timeout c);
                                    rq_verify := cert c; rq_files := None |}])%list c))).
Proof.
  intros Hs Hnet Hgood Hload Hsid.
  unfold _login_on_prem, bind, read, the_session, transport, lift, assign, response_json.
  rewrite Hs, Hnet, Hgood, Hload. cbn [and_then]. rewrite Hsid. reflexivity.
Qed.

Lemma reset_session_password (c : CvpClient) (response : Response) (body session_id : json) :
  api_token c = None ->
  is_cvaas c = false ->
  net (sent c) (login_request c) = inl response ->
  _is_good_response response
    ("Authenticate: " ++ url_prefix c ++ "/login/authenticate.do") = Return tt ->
  PyJsonDecode.loads (text response) = inl body ->
  py_getitem body "sessionId" = Return session_id ->
  _reset_session net c = (Return None, password_session response session_id c).
Proof.
  intros Htok Hcv Hnet Hgood Hload Hsid.
  pose (c2 := with_headers (PyDict.pop "APP_SESSION_ID" (headers c))
                (with_session (Some (sessions_opened c))
                   (with_sessions_opened (S (sessions_opened c)) c))).
  pose proof (login_on_prem_eq c2 (sessions_opened c) response body session_id eq_refl
                Hnet Hgood Hload Hsid) as Hl.
  unfold _reset_session, _login, try_except, bind, assign, read, ret.
  cbn [api_token is_cvaas headers with_headers with_session with_sessions_opened].
  rewrite Htok, Hcv.
  match goal with
  | |- context [_login_on_prem net ?x] => change x with c2
  end.
  rewrite Hl. reflexivity.
Qed.

Lemma get_pop_other {V : Type} (k k' : string) (d : list (string * V)) :
  String.eqb k k' = false -> PyDict.get k (PyDict.pop k' d) = PyDict.get k d.
Proof.
  intros Hk. induction d as [|[k0 v0] d IH]; [reflexivity|].
  cbn [PyDict.pop PyDict.get].
  destruct (String.eqb k' k0) eqn:E0.
  - apply String.eqb_eq in E0. subst k0. now rewrite Hk.
  - cbn [PyDict.get]. now rewrite IH.
Qed.
End PasswordLogin.

(** A login with user name and password.  [_reset_session] sends the
    credentials once, to [/login/authenticate.do] of the node in use, with
    no cookie and without the session id of an earlier login.  When the
    reply is good and has a [sessionId], it returns [None] with a session in
    place, keeps the cookies of the reply and puts the id in the header
    [APP_SESSION_ID], the other headers left as they were; every request
    built afterwards without files carries those cookies and that id. *)
Theorem password_login `{Runtime} (net : network) (c : CvpClient) (response : Response)
        (body session_id : json) :
  api_token c = None ->
  is_cvaas c = false ->
  net (sent c) (login_request c) = inl response ->
  _is_good_response response
    ("Authenticate: " ++ url_prefix c ++ "/login/authenticate.do") = Return tt ->
  PyJsonDecode.loads (text response) = inl body ->
  py_getitem body "sessionId" = Return session_id ->
  let c' := snd (_reset_session net c) in
  fst (_reset_session net c) = Return None
  /\ session c' = Some (sessions_opened c)
  /\ sent c' = (sent c ++ [login_request c])%list
  /\ cookies c' = Some (response_cookies response)
  /\ PyDict.get "APP_SESSION_ID" (headers c') = Some session_id
  /\ (forall k, String.eqb k "APP_SESSION_ID" = false ->
                PyDict.get k (headers c') = PyDict.get k (headers c))
  /\ (forall req_type full_url timeout data rq,
         build_request c' (sessions_opened c) req_type full_url timeout data None
         = Return rq ->
         rq_cookies rq = Some (response_cookies response)
         /\ PyDict.get "APP_SESSION_ID" (rq_headers rq) = Some session_id).
Proof.
  intros Htok Hcv Hnet Hgood Hload Hsid c'. subst c'.
  rewrite (reset_session_password net c response body session_id
             Htok Hcv Hnet Hgood Hload Hsid).
  cbn [fst snd]. unfold password_session.
  cbn [session sent cookies headers with_headers with_cookies with_sent with_session
       with_sessions_opened].
  split; [reflexivity|]. split; [reflexivity|]. split; [reflexivity|].
  split; [reflexivity|]. split; [apply get_set_same|]. split.
  - intros k Hk. rewrite get_set, Hk. now apply get_pop_other.
  - intros req_type full_url timeout data rq Hb.
    destruct req_type; cbn in Hb; inversion Hb; subst rq;
      cbn [rq_cookies rq_headers]; (split; [reflexivity | apply get_set_same]).
Qed.

(** A first login, then a [get]: the request shows the session id and the
    cookie of the login reply. *)
Lemma password_login_witness :
  let reply := {| ok := true; reason := "OK";
                  content := PyJson.text "{'sessionId': 's1'}";
                  response_cookies := [("session_id", "s1")] |} in
  let c := Fixture.password_client "n1" ["n1"] in
  let c' := snd (@_reset_session PyRuntime.runtime (Fixture.always (inl reply)) c) in
  fst (@_reset_session PyRuntime.runtime (Fixture.always (inl reply)) c) = Return None
  /\ session c' = Some 0
  /\ cookies c' = Some [("session_id", "s1")]
  /\ PyDict.get "APP_SESSION_ID" (headers c') = Some (JStr "s1")
  /\ PyDict.get "Accept" (headers c') = Some (JStr "application/json").
Proof.
  cbv zeta.
  destruct (@password_login PyRuntime.runtime
              (Fixture.always
                 (inl {| ok := true; reason := "OK";
                         content := PyJson.text "{'sessionId': 's1'}";
                         response_cookies := [("session_id", "s1")] |}))
              (Fixture.password_client "n1" ["n1"])
              {| ok := true; reason := "OK";
                 content := PyJson.text "{'sessionId': 's1'}";
                 response_cookies := [("session_id", "s1")] |}
              (JObj [("sessionId", JStr "s1")]) (JStr "s1")
              eq_refl eq_refl eq_refl eq_refl eq_refl eq_refl)
    as (Hr & Hs & _ & Hc & Hid & Hother & _).
  split; [exact Hr|]. split; [exact Hs|]. split; [exact Hc|]. split; [exact Hid|].
  rewrite (Hother "Accept" eq_refl). reflexivity.
Defined.

(** ** Moving to another node *)

Section FailOverFacts.
Context `{Runtime} (net : network).
Variables (req_type : req_type) (url : string) (timeout : Z) (data : json)
          (files : option file_map).

Lemma send_request_connection_error (c : CvpClient) (sid : nat) (full_url : string)
      (rq : Request) (kind : requests_error) (msg : string) :
  session c = Some sid ->
  build_request c sid req_type full_url timeout data files = Return rq ->
  net (sent c) rq = inr (kind, msg) ->
  is_timeout kind = false ->
  _send_request net req_type full_url timeout data files c
  = (Raise (RequestsError kind msg), after_sending rq c).
Proof.
  intros Hs Hb Hnet Hkind.
  pose proof (send_eq net req_type timeout data files c sid full_url rq Hs Hb) as Hsend.
  rewrite Hnet in Hsend. unfold _send_request.
  change (send_request_loop net NUM_RETRY_REQUESTS) with (send_request_loop net 3).
  cbn [send_request_loop]. rewrite Hsend.
  destruct kind; try discriminate; reflexivity.
Qed.
End FailOverFacts.

(** A connection that fails (refused, timed out while connecting, bad
    HTTP, too many redirects) is not tried again on the same node: after
    one request [_make_request] raises the error on a client with one node,
    and on a client with more it opens a session on another node.  When it
    gets one, the request is built anew for that node, with its address and
    the headers and cookies of its session, and a good reply to it is what
    [_make_request] returns. *)
Theorem connection_error_fails_over `{Runtime} (net : network) (c : CvpClient)
        (req_type : req_type) (url : string) (timeout : Z) (data : json)
        (files : option file_map) (sid : nat) (node : string) (rq : Request)
        (kind : requests_error) (msg : string) :
  session c = Some sid ->
  Re.match_node (url_prefix c) = Some node ->
  build_request c sid req_type (full_url_of c url) timeout data files = Return rq ->
  net (sent c) rq = inr (kind, msg) ->
  is_timeout kind = false ->
  let c1 := after_sending rq (noted node c) in
  (node_cnt c = 1 ->
   _make_request net req_type url timeout data files c
   = (Raise (RequestsError kind msg), c1))
  /\ (1 < node_cnt c ->
      forall (c2 : CvpClient) (sid2 : nat) (rq2 : Request) (response : Response),
        _create_session net false c1 = (Return tt, c2) ->
        session c2 = Some sid2 ->
        build_request c2 sid2 req_type (full_url_of c2 url) timeout data files
        = Return rq2 ->
        net (sent c2) rq2 = inl response ->
        _is_good_response response (request_prefix req_type (full_url_of c2 url))
        = Return tt ->
        _make_request net req_type url timeout data files c
        = (decode_response response (full_url_of c2 url), after_sending rq2 c2)).
Proof.
  intros Hs Hn Hb Hnet Hkind c1.
  pose proof (send_request_connection_error net req_type timeout data files
                (noted node c) sid (full_url_of (noted node c) url) rq kind msg
                Hs Hb Hnet Hkind) as Hsend.
  fold c1 in Hsend.
  rewrite (make_request_eq net req_type timeout data files url c sid node Hs Hn).
  assert (Hcnt1 : node_cnt c1 = node_cnt c) by reflexivity.
  split.
  - intros Hone. rewrite Hone.
    rewrite (node_loop_fail_over net req_type url timeout data files 0 0
               (noted node c) c1 (RequestsError kind msg) Hsend eq_refl).
    rewrite fail_over_eq, Hcnt1, Hone. reflexivity.
  - intros Hmore c2 sid2 rq2 response Hcreate Hs2 Hb2 Hnet2 Hgood.
    destruct (node_cnt c) as [|[|rounds]] eqn:Hc; [lia | lia |].
    rewrite (node_loop_fail_over net req_type url timeout data files (S rounds) 0
               (noted node c) c1 (RequestsError kind msg) Hsend eq_refl).
    rewrite fail_over_eq, Hcnt1. rewrite ?Hc. cbn [Nat.add Nat.eqb].
    rewrite Hcreate, Hs2.
    pose proof (send_eq net req_type timeout data files c2 sid2 _ rq2 Hs2 Hb2) as Hsend2.
    rewrite Hnet2 in Hsend2.
    rewrite (node_loop_returns net req_type timeout data files rounds 1 url c2
               (after_sending rq2 c2) (Some response)).
    + rewrite (is_good_response_only_ok _ _ Hgood). reflexivity.
    + apply send_request_loop_good; assumption.
Qed.

(** One node, which refuses the connection: one request, and the error. *)
Lemma connection_error_fails_over_witness :
  @_make_request PyRuntime.runtime
     (Fixture.always (inr (ConnectionError, "connection refused")))
     GET "/inventory" 30%Z JNull None (Fixture.client "n1" ["n1"])
  = (Raise (RequestsError ConnectionError "connection refused"),
     after_sending (Fixture.get_request "n1" ["n1"] "/inventory")
                   (noted "n1" (Fixture.client "n1" ["n1"]))).
Proof.
  exact (proj1 (@connection_error_fails_over PyRuntime.runtime
                  (Fixture.always (inr (ConnectionError, "connection refused")))
                  (Fixture.client "n1" ["n1"]) GET "/inventory" 30%Z JNull None
                  0 "n1" (Fixture.get_request "n1" ["n1"] "/inventory")
                  ConnectionError "connection refused"
                  eq_refl eq_refl eq_refl eq_refl eq_refl) eq_refl).
Defined.

(** ** A version that cannot be read *)

(** [set_version] fails only for an on-prem client and only because the
    version (with its appended zero) cannot be parsed: it then raises the
    parser's error for that string.  By then [version] is already set to the
    argument while [apiversion] is still what it was, so the two no longer
    go together.  For CVaaS it never fails. *)
Theorem set_version_failure (c c' : CvpClient) (release : string) (e : exn) :
  set_version release c = (Raise e, c') ->
  is_cvaas c = false
  /\ PkgResources.parse_version (Spec.pad release) = None
  /\ e = InvalidVersion (Spec.pad release)
  /\ c' = with_version (Some release) c
  /\ version c' = Some release
  /\ apiversion c' = apiversion c.
Proof.
  intros E. unfold set_version, bind, assign, read in E.
  cbn [is_cvaas with_version] in E.
  destruct (is_cvaas c) eqn:Hc; [discriminate|].
  cbv zeta in E. fold (Spec.pad release) in E.
  unfold version_ge, lift in E.
  destruct (PkgResources.parse_version (Spec.pad release)) as [a|] eqn:Hp.
  - exfalso.
    repeat match type of E with
           | context [PkgResources.parse_version ?t] =>
               let r := eval vm_compute in (PkgResources.parse_version t) in
               change (PkgResources.parse_version t) with r in E
           end.
    cbv beta iota in E.
    repeat match type of E with
           | context [PkgResources.ge a ?t] => destruct (PkgResources.ge a t)
           end; discriminate.
  - cbv beta iota in E. inversion E; subst. repeat split.
Qed.

(** A release candidate. *)
Lemma set_version_failure_witness :
  is_cvaas new_client = false
  /\ PkgResources.parse_version (Spec.pad "2021.2.x") = None
  /\ InvalidVersion "2021.2.x" = InvalidVersion (Spec.pad "2021.2.x")
  /\ with_version (Some "2021.2.x") new_client = with_version (Some "2021.2.x") new_client
  /\ version (with_version (Some "2021.2.x") new_client) = Some "2021.2.x"
  /\ apiversion (with_version (Some "2021.2.x") new_client) = apiversion new_client.
Proof.
  exact (set_version_failure new_client (with_version (Some "2021.2.x") new_client)
           "2021.2.x" (InvalidVersion "2021.2.x") eq_refl).
Defined.

(** ** The errors of the scanner *)

Module ScannerMessages.
Import PyJson.

Ltac known_message :=
  cbn [known scanner_messages In];
  repeat first [left; reflexivity | right].

Ltac known_cases :=
  repeat match goal with
         | |- known (match ?x with _ => _ end) => destruct x eqn:?
         | |- known (if ?x then _ else _) => destruct x eqn:?
         end.

Ltac known_from IH :=
  match goal with
  | E : ?t = ScanError ?m ?a |- known (ScanError ?m ?a) =>
      let K := fresh "K" in
      assert (K : known t) by IH; rewrite E in K; exact K
  end.

Lemma scanstring_known (begin s : string) : known (scanstring begin s).
Proof.
  remember (String.length s) as n eqn:Hn. revert s Hn.
  induction n as [n IH] using lt_wf_ind. intros s Hn.
  destruct s as [|c s]; [known_message|]. cbn [scanstring].
  cbn [String.length] in Hn.
  destruct (Ascii.eqb c dquote); [exact I|].
  destruct (Ascii.eqb c "\").
  - destruct s as [|esc s1]; [known_message|].
    destruct (Ascii.eqb esc "u").
    + destruct s1 as [|h1 [|h2 [|h3 [|h4 s2]]]]; try known_message.
      destruct (is_empty s2); [known_message|].
      destruct (hex_val h1), (hex_val h2), (hex_val h3), (hex_val h4);
        try known_message.
      destruct (scanstring begin s2) as [str' r'|msg at_] eqn:Es; [exact I|].
      known_from ltac:(apply (IH (String.length s2)); [cbn [String.length] in *; lia
                                                     | reflexivity]).
    + destruct (backslash esc); [|known_message].
      destruct (scanstring begin s1) as [str' r'|msg at_] eqn:Es; [exact I|].
      known_from ltac:(apply (IH (String.length s1)); [cbn [String.length] in *; lia
                                                     | reflexivity]).
  - destruct (Nat.ltb (nat_of_ascii c) 32); [known_message|].
    destruct (scanstring begin s) as [str' r'|msg at_] eqn:Es; [exact I|].
    known_from ltac:(apply (IH (String.length s)); [lia | reflexivity]).
Qed.

Lemma scan_known (fuel : nat) :
  (forall s, known (scan_once fuel s))
  /\ (forall begin s pairs, known (object_members fuel begin s pairs))
  /\ (forall s values, known (array_elements fuel s values)).
Proof.
  induction fuel as [|fuel (IHscan & IHobj & IHarr)];
    [repeat split; intros; known_message|].
  split; [|split].
  - intros s. cbn [scan_once]. destruct s as [|c rest]; [known_message|].
    destruct (Ascii.eqb c dquote).
    { destruct (scanstring (String c rest) rest) as [str r1|msg at_] eqn:Es; [exact I|].
      known_from ltac:(apply scanstring_known). }
    destruct (Ascii.eqb c "{").
    { cbv zeta. destruct (next_is "}" (skip_ws rest)); [exact I|].
      destruct (next_is dquote (skip_ws rest)); [apply IHobj | known_message]. }
    destruct (Ascii.eqb c "[").
    { cbv zeta. destruct (next_is "]" (skip_ws rest)); [exact I | apply IHarr]. }
    destruct (prefix "null" (String c rest)); [exact I|].
    destruct (prefix "true" (String c rest)); [exact I|].
    destruct (prefix "false" (String c rest)); [exact I|].
    destruct (match_number (String c rest)) as [[v' r']|]; [exact I|].
    destruct (prefix "NaN" (String c rest)); [exact I|].
    destruct (prefix "Infinity" (String c rest)); [exact I|].
    destruct (prefix "-Infinity" (String c rest)); [exact I | known_message].
  - intros begin s pairs. cbn [object_members].
    destruct (scanstring begin s) as [key r1|msg at_] eqn:Es;
      [|known_from ltac:(apply scanstring_known)].
    cbv zeta.
    destruct (next_is ":" (if next_is ":" r1 then r1 else skip_ws r1)); [|known_message].
    destruct (scan_once fuel _) as [value r3|msg at_] eqn:Ev;
      [|known_from ltac:(apply IHscan)].
    destruct (next_is "}" (skip_ws r3)); [exact I|].
    destruct (next_is "," (skip_ws r3)); [|known_message].
    destruct (next_is dquote _); [apply IHobj | known_message].
  - intros s values. cbn [array_elements].
    destruct (scan_once fuel s) as [value r1|msg at_] eqn:Ev;
      [|known_from ltac:(apply IHscan)].
    cbv zeta. destruct (next_is "]" (skip_ws r1)); [exact I|].
    destruct (next_is "," (skip_ws r1)); [apply IHarr | known_message].
Qed.

End ScannerMessages.

Module ErrorStr.

Lemma prefix_first (n0 c : ascii) (n s : string) :
  Ascii.eqb c n0 = false -> prefix (String n0 n) (String c s) = false.
Proof.
  intros Hc.
  change (prefix (String n0 n) (String c s))
    with (if ascii_dec n0 c then prefix n s else false).
  destruct (ascii_dec n0 c) as [E|E]; [|reflexivity].
  subst c. rewrite Ascii.eqb_refl in Hc. discriminate.
Qed.

Lemma contains_without_first (n0 : ascii) (n s : string) :
  has_char n0 s = false -> PyStr.contains (String n0 n) s = false.
Proof.
  induction s as [|c s IH]; intros Hs; [reflexivity|].
  cbn [has_char] in Hs. apply orb_false_iff in Hs as [Hc Hs].
  unfold PyStr.contains; fold PyStr.contains.
  rewrite (prefix_first n0 c n s Hc). now apply IH.
Qed.

Lemma pos_digits_without (ch : ascii) (fuel : nat) :
  (forall d, d < 10 -> Ascii.eqb (ascii_of_nat (48 + d)) ch = false) ->
  forall (z : Z) (acc : string),
    has_char ch (PyStr.pos_digits fuel z acc) = has_char ch acc.
Proof.
  intros Hch. induction fuel as [|fuel IH]; intros z acc; [reflexivity|].
  cbn [PyStr.pos_digits].
  assert (Hd : Ascii.eqb (ascii_of_nat (48 + Z.to_nat (z mod 10))) ch = false).
  { apply Hch. pose proof (Z.mod_pos_bound z 10 ltac:(lia)). lia. }
  destruct (Z.ltb z 10).
  - cbn [has_char]. now rewrite Hd.
  - rewrite IH. cbn [has_char]. now rewrite Hd.
Qed.

Lemma of_Z_no_E (z : Z) : has_char "E" (PyStr.of_Z z) = false.
Proof.
  assert (Hch : forall d, d < 10 -> Ascii.eqb (ascii_of_nat (48 + d)) "E" = false).
  { intros d Hd. do 10 (destruct d as [|d]; [reflexivity|]). lia. }
  unfold PyStr.of_Z. destruct (Z.ltb z 0).
  - cbn [has_char]. now rewrite (pos_digits_without "E" _ Hch).
  - now rewrite (pos_digits_without "E" _ Hch).
Qed.

Lemma known_no_extra (msg suffix : string) :
  In msg scanner_messages ->
  has_char "E" suffix = false ->
  PyStr.contains "Extra data" (msg ++ suffix) = false.
Proof.
  intros Hin Hs.
  pose proof (contains_without_first "E" "xtra data" suffix Hs) as Hc.
  cbn [In scanner_messages] in Hin.
  repeat (destruct Hin as [<- | Hin]; [vm_compute; exact Hc|]).
  contradiction.
Qed.

Lemma error_str_no_extra (e : json_error) :
  In (je_msg e) scanner_messages ->
  PyStr.contains "Extra data" (PyJsonDecode.error_str e) = false.
Proof.
  intros Hin. unfold PyJsonDecode.error_str.
  destruct (PyJsonDecode.line_col (je_doc e) (je_pos e) 1 1) as [line col].
  apply known_no_extra; [assumption|].
  rewrite !ReFacts.has_char_app, !of_Z_no_E. reflexivity.
Qed.

Lemma py_raw_decode_known (s : string) (idx : nat) (err : json_error) :
  PyJsonDecode.py_raw_decode s idx = inr err -> In (je_msg err) scanner_messages.
Proof.
  unfold PyJsonDecode.py_raw_decode. intros E.
  destruct (Nat.ltb (String.length s) idx).
  - inversion E; subst. cbn. auto.
  - pose proof (proj1 (ScannerMessages.scan_known (2 * String.length s + 1))
                  (PyStr.drop idx s)) as K.
    destruct (PyJson.scan_once _ _) as [v r|m a]; [discriminate|].
    inversion E; subst. exact K.
Qed.

End ErrorStr.

(** ** Bodies that are no JSON text *)

Lemma extra_data_str (doc : string) (pos : nat) :
  PyStr.contains "Extra data"
    (PyJsonDecode.error_str (mk_json_error "Extra data" doc pos)) = true.
Proof.
  unfold PyJsonDecode.error_str. cbn [je_doc je_pos je_msg].
  destruct (PyJsonDecode.line_col doc pos 1 1) as [line col].
  apply contains_app_l. reflexivity.
Qed.

(** The scanner reports no failure as [Extra data]. *)
Lemma py_decoder_reports : @decoder_reports PyRuntime.runtime.
Proof.
  intros s idx err Ed. apply ErrorStr.error_str_no_extra.
  exact (ErrorStr.py_raw_decode_known s idx err Ed).
Qed.

(** A good response whose body is no single JSON text, for any decoder
    that reports none of its own failures as [Extra data].  When the body
    does not begin (after whitespace) with a JSON value, [_make_request]
    raises the [JSONDecodeError] of the decoder.  When it begins with a value
    and something other than whitespace follows, nothing is raised: the
    result is [{'data': d}] with [d] what [json_decoder] makes of the
    body. *)
Theorem make_request_malformed_body `{Runtime} (net : network) (c : CvpClient)
        (req_type : req_type) (url : string) (timeout : Z) (data : json)
        (files : option file_map) (sid : nat) (node : string) (rq : Request)
        (response : Response) :
  decoder_reports ->
  answered net c req_type url timeout data files sid node rq response ->
  _is_good_response response (request_prefix req_type (full_url_of c url)) = Return tt ->
  content response <> EmptyString ->
  content response <> "null" ->
  match raw_decode (text response) (PyJsonDecode.ws_end (text response) 0) with
  | inr err =>
      _make_request net req_type url timeout data files c
      = (Raise (JSONDecodeError err), after_sending rq (noted node c))
  | inl (obj, e) =>
      PyJsonDecode.ws_end (text response) e <> String.length (text response) ->
      _make_request net req_type url timeout data files c
      = (Return (JObj [("data", json_decoder (text response))]),
         after_sending rq (noted node c))
  end.
Proof.
  intros Hrep Ha Hgood Hne Hnn.
  rewrite (make_request_good net req_type url timeout data files c
             sid node rq response Ha Hgood).
  rewrite (is_good_response_only_ok _ _ Hgood). cbn [negb].
  unfold decode_response. apply String.eqb_neq in Hne, Hnn. rewrite Hne, Hnn.
  cbn [orb]. unfold PyJsonDecode.loads.
  destruct (raw_decode (text response) (PyJsonDecode.ws_end (text response) 0))
    as [[obj e]|err] eqn:Ed.
  - intros Hextra. apply Nat.eqb_neq in Hextra. rewrite Hextra.
    rewrite extra_data_str. reflexivity.
  - rewrite (Hrep _ _ _ Ed). reflexivity.
Qed.

(** A body cut short. *)
Lemma make_request_malformed_body_witness :
  exists err,
    fst (@_make_request PyRuntime.runtime
           (Fixture.always (inl (Fixture.ok_response (PyJson.text "{'total': 12"))))
           GET "/inventory" 30%Z JNull None (Fixture.client "n1" ["n1"]))
    = Raise (JSONDecodeError err)
    /\ je_msg err = "Expecting ',' delimiter".
Proof.
  pose proof (@make_request_malformed_body PyRuntime.runtime
                (Fixture.always (inl (Fixture.ok_response (PyJson.text "{'total': 12"))))
                (Fixture.client "n1" ["n1"]) GET "/inventory" 30%Z JNull None 0 "n1"
                (Fixture.get_request "n1" ["n1"] "/inventory")
                (Fixture.ok_response (PyJson.text "{'total': 12"))
                py_decoder_reports) as Hm.
  assert (Ha : answered
                 (Fixture.always (inl (Fixture.ok_response (PyJson.text "{'total': 12"))))
                 (Fixture.client "n1" ["n1"]) GET "/inventory" 30%Z JNull None 0 "n1"
                 (Fixture.get_request "n1" ["n1"] "/inventory")
                 (Fixture.ok_response (PyJson.text "{'total': 12"))).
  { repeat split; try reflexivity. discriminate. }
  specialize (Hm Ha eq_refl ltac:(vm_compute; discriminate) ltac:(vm_compute; discriminate)).
  match type of Hm with
  | match ?t with _ => _ end =>
      let v := eval vm_compute in t in change t with v in Hm
  end.
  cbv beta iota in Hm.
  eexists. split; [rewrite Hm; reflexivity | reflexivity].
Defined.

(** ** The requests a call sends *)

Section SentFacts.
Context `{Runtime} (net : network).

Lemma sent_more_refl (c : CvpClient) : sent_more 0 c c.
Proof. exists []. split; [now rewrite app_nil_r | apply le_n]. Qed.

Lemma sent_more_trans (j k : nat) (c1 c2 c3 : CvpClient) :
  sent_more j c1 c2 -> sent_more k c2 c3 -> sent_more (j + k) c1 c3.
Proof.
  intros (m1 & E1 & L1) (m2 & E2 & L2). exists (m1 ++ m2)%list. split.
  - rewrite E2, E1. now rewrite app_assoc.
  - rewrite length_app. lia.
Qed.

Lemma sent_more_le (j k : nat) (c c' : CvpClient) :
  j <= k -> sent_more j c c' -> sent_more k c c'.
Proof. intros Hjk (m & E & L). exists m. split; [assumption | lia]. Qed.

Lemma sent_more_same (k : nat) (c c' : CvpClient) : sent c' = sent c -> sent_more k c c'.
Proof. intros E. exists []. split; [now rewrite app_nil_r | cbn; lia]. Qed.

Lemma login_on_prem_sent (c : CvpClient) (r : outcome unit) (c' : CvpClient) :
  _login_on_prem net c = (r, c') -> sent_more 1 c c'.
Proof.
  unfold _login_on_prem, bind, read, the_session, transport, lift, assign.
  intros E.
  destruct (session c) as [sid|];
    [|apply sent_more_same; inversion E; reflexivity].
  match type of E with
  | context [with_sent (sent c ++ [?rq])%list c] =>
      assert (Hone : forall c1, sent c1 = (sent c ++ [rq])%list -> sent_more 1 c c1)
        by (intros c1 E1; exists [rq]; split; [exact E1 | apply le_n])
  end.
  destruct (net (sent c) _) as [response|[kind msg]];
    [|apply Hone; inversion E; reflexivity].
  destruct (_is_good_response response _) as [[]|e];
    [|apply Hone; inversion E; reflexivity].
  destruct (and_then (response_json response) _) as [session_id|e];
    apply Hone; inversion E; reflexivity.
Qed.

Lemma login_sent (c : CvpClient) (r : outcome unit) (c' : CvpClient) :
  _login net c = (r, c') -> sent_more 1 c c'.
Proof.
  unfold _login, bind, assign, read, _set_headers_api_token, raise.
  cbn [api_token is_cvaas with_headers].
  destruct (api_token c) as [token|].
  - intros E. apply sent_more_same. inversion E. reflexivity.
  - destruct (is_cvaas c).
    + intros E. apply sent_more_same. inversion E. reflexivity.
    + intros E. apply login_on_prem_sent in E.
      destruct E as (more & E & L). exists more. split; assumption.
Qed.

Lemma reset_session_sent (c : CvpClient) (r : outcome (option exn)) (c' : CvpClient) :
  _reset_session net c = (r, c') -> sent_more 1 c c'.
Proof.
  unfold _reset_session, bind, assign, try_except, ret, raise. intros E.
  match type of E with
  | context [_login net ?c1] =>
      destruct (_login net c1) as [[[]|e] c2] eqn:El;
      apply login_sent in El; destruct El as (more & El & L)
  end; cbn [sent with_session with_sessions_opened] in El.
  - exists more. split; [inversion E; subst; exact El | exact L].
  - destruct (login_error e); exists more;
      (split; [inversion E; subst; exact El | exact L]).
Qed.

Section SendSent.
Variables (req_type : req_type) (timeout : Z) (data : json)
          (files : option file_map).

Lemma send_sent (full_url : string) (c : CvpClient) (r : outcome Response)
      (c' : CvpClient) :
  send net req_type full_url timeout data files c = (r, c') -> sent_more 1 c c'.
Proof.
  unfold send, bind, read, the_session, lift, transport. intros E.
  destruct (session c) as [sid|]; [|apply sent_more_same; inversion E; reflexivity].
  destruct (build_request c sid req_type full_url timeout data files) as [rq|e];
    [|apply sent_more_same; inversion E; reflexivity].
  exists [rq]. split; [inversion E; reflexivity | apply le_n].
Qed.

Lemma send_request_loop_after (full_url : string) (tries : nat) :
  forall (req_try : nat) (c c1 : CvpClient) (r1 : outcome Response)
         (r : outcome (option Response)) (c' : CvpClient),
    req_try + S tries = NUM_RETRY_REQUESTS ->
    send net req_type full_url timeout data files c = (r1, c1) ->
    send_request_loop net (S tries) req_try req_type full_url timeout data files c
    = (r, c') ->
    sent_more (2 * tries) c1 c'.
Proof.
  induction tries as [|tries IH]; intros req_try c c1 r1 r c' Hn Es E.
  - cbn [send_request_loop] in E. rewrite Es in E.
    replace (Nat.eqb (req_try + 1) NUM_RETRY_REQUESTS) with true in E
      by (symmetry; apply Nat.eqb_eq; lia).
    apply sent_more_same.
    destruct r1 as [response|e0].
    + destruct (_is_good_response response (request_prefix req_type full_url))
        as [[]|e1]; [inversion E; reflexivity|].
      destruct e1; try (inversion E; reflexivity).
      destruct (unauthorized msg); inversion E; reflexivity.
    + destruct e0; try (inversion E; reflexivity).
      destruct kind; inversion E; reflexivity.
  - remember (S tries) as tries' eqn:Ht.
    cbn [send_request_loop] in E. rewrite Es in E.
    assert (Hlast : Nat.eqb (req_try + 1) NUM_RETRY_REQUESTS = false)
      by (apply Nat.eqb_neq; lia).
    rewrite Hlast in E.
    assert (Hstop : sent_more (2 * tries') c1 c1)
      by (apply (sent_more_le 0); [lia | apply sent_more_refl]).
    assert (Hnext : forall c2,
               sent_more 1 c1 c2 ->
               send_request_loop net tries' (S req_try) req_type full_url timeout data
                                 files c2 = (r, c') ->
               sent_more (2 * tries') c1 c').
    { intros c2 S2 E'.
      destruct (send net req_type full_url timeout data files c2) as [r3 c3] eqn:Es3.
      pose proof (send_sent full_url c2 r3 c3 Es3) as S3.
      subst tries'.
      pose proof (IH (S req_try) c2 c3 r3 r c' ltac:(lia) Es3 E') as S4.
      apply (sent_more_le (1 + (1 + 2 * tries))); [lia|].
      exact (sent_more_trans _ _ _ _ _ S2 (sent_more_trans _ _ _ _ _ S3 S4)). }
    assert (Hreset : forall error,
               match _reset_session net c1 with
               | (Raise e, c2) => (Raise e, c2)
               | (Return _, c2) =>
                   match session c2 with
                   | None => (Raise error, c2)
                   | Some _ =>
                       send_request_loop net tries' (S req_try) req_type full_url
                                         timeout data files c2
                   end
               end = (r, c') -> sent_more (2 * tries') c1 c').
    { intros error E'.
      destruct (_reset_session net c1) as [[r2|e2] c2] eqn:Er;
        pose proof (reset_session_sent c1 _ c2 Er) as S2.
      - destruct (session c2); [exact (Hnext c2 S2 E')|].
        inversion E'; subst c'. apply (sent_more_le 1); [lia | exact S2].
      - inversion E'; subst c'. apply (sent_more_le 1); [lia | exact S2]. }
    destruct r1 as [response|e0].
    + destruct (_is_good_response response (request_prefix req_type full_url))
        as [[]|e1]; [inversion E; subst; exact Hstop|].
      destruct e1; try (inversion E; subst; exact Hstop).
      * destruct (unauthorized msg); [exact (Hreset _ E) | inversion E; subst; exact Hstop].
      * exact (Hreset _ E).
    + destruct e0; try (inversion E; subst; exact Hstop).
      destruct kind; try (inversion E; subst; exact Hstop);
        (apply (Hnext c1);
         [apply (sent_more_le 0); [lia | apply sent_more_refl] | exact E]).
Qed.

End SendSent.
End SentFacts.

(** [_send_request] puts at most five requests on the wire: three
    attempts and, between them, the two logins of the session resets.  With
    a session and a request that can be built, the first of them is that
    request; without a session nothing is sent. *)
Theorem send_request_at_most_five `{Runtime} (net : network) (req_type : req_type)
        (full_url : string) (timeout : Z) (data : json) (files : option file_map)
        (c : CvpClient) :
  let c' := snd (_send_request net req_type full_url timeout data files c) in
  sent_more 5 c c'
  /\ (forall sid rq,
         session c = Some sid ->
         build_request c sid req_type full_url timeout data files = Return rq ->
         exists rest,
           sent c' = (sent c ++ rq :: rest)%list /\ List.length rest <= 4)
  /\ (session c = None -> sent c' = sent c).
Proof.
  intros c'.
  destruct (_send_request net req_type full_url timeout data files c) as [r c2] eqn:E.
  cbn [snd] in c'. subst c'.
  destruct (send net req_type full_url timeout data files c) as [r1 c1] eqn:Es.
  pose proof (send_sent net req_type timeout data files full_url c r1 c1 Es) as S1.
  pose proof (send_request_loop_after net req_type timeout data files full_url 2 0
                c c1 r1 r c2 eq_refl Es E) as S2.
  split; [|split].
  - exact (sent_more_trans 1 4 _ _ _ S1 S2).
  - intros sid rq Hs Hb.
    rewrite (send_eq net req_type timeout data files c sid full_url rq Hs Hb) in Es.
    assert (Hc1 : sent c1 = (sent c ++ [rq])%list) by (inversion Es; reflexivity).
    destruct S2 as (rest & Hrest & Hlen). exists rest. split; [|exact Hlen].
    rewrite Hrest, Hc1, <- app_assoc. reflexivity.
  - intros Hs. unfold _send_request in E.
    change (send_request_loop net NUM_RETRY_REQUESTS) with (send_request_loop net 3) in E.
    cbn [send_request_loop] in E.
    assert (Hsend : send net req_type full_url timeout data files c
                    = (Raise AttributeError, c)).
    { unfold send, bind, read, the_session. rewrite Hs. reflexivity. }
    rewrite Hsend in E. inversion E. reflexivity.
Qed.

(** ** A session that ran out *)

Lemma send_request_loop_reset `{Runtime} (net : network) (req_type : req_type)
      (full_url : string) (timeout : Z) (data : json) (files : option file_map)
      (tries req_try : nat) (c c1 c2 : CvpClient) (response : Response) (e : exn)
      (sid : nat) :
  send net req_type full_url timeout data files c = (Return response, c1) ->
  _is_good_response response (request_prefix req_type full_url) = Raise e ->
  final e = false ->
  Nat.eqb (req_try + 1) NUM_RETRY_REQUESTS = false ->
  _reset_session net c1 = (Return None, c2) ->
  session c2 = Some sid ->
  send_request_loop net (S tries) req_try req_type full_url timeout data files c
  = send_request_loop net tries (S req_try) req_type full_url timeout data files c2.
Proof.
  intros Hsend Hbad Hfinal Hlast Hreset Hs2.
  cbn [send_request_loop]. rewrite Hsend, Hbad.
  destruct e; try discriminate.
  - cbn [final] in Hfinal. apply negb_false_iff in Hfinal.
    rewrite Hfinal, Hlast, Hreset, Hs2. reflexivity.
  - rewrite Hlast, Hreset, Hs2. reflexivity.
Qed.

(** A reply that shows the session logged out, or the user unauthorized,
    is not the end of a request: [_send_request] logs in again on the same
    node and, when that gives a session, builds the request anew, with the
    headers and cookies of the new session, and returns the good reply to
    it.  The caller sees nothing of the first reply. *)
Theorem send_request_recovers `{Runtime} (net : network) (c c2 : CvpClient)
        (req_type : req_type) (full_url : string) (timeout : Z) (data : json)
        (files : option file_map) (sid : nat) (rq rq2 : Request)
        (response response2 : Response) (e : exn) :
  session c = Some sid ->
  build_request c sid req_type full_url timeout data files = Return rq ->
  net (sent c) rq = inl response ->
  _is_good_response response (request_prefix req_type full_url) = Raise e ->
  final e = false ->
  _reset_session net (after_sending rq c) = (Return None, c2) ->
  build_request c2 (sessions_opened c) req_type full_url timeout data files = Return rq2 ->
  net (sent c2) rq2 = inl response2 ->
  _is_good_response response2 (request_prefix req_type full_url) = Return tt ->
  _send_request net req_type full_url timeout data files c
  = (Return (Some response2), after_sending rq2 c2)
  /\ session c2 = Some (sessions_opened c)
  /\ same_node c c2.
Proof.
  intros Hs Hb Hnet Hbad Hfinal Hreset Hb2 Hnet2 Hgood2.
  destruct (reset_session_cases net _ _ c2 Hreset) as (Hnode & _ & Hs2).
  cbn [sessions_opened after_sending with_sent] in Hs2.
  split; [|split; [exact Hs2|]].
  - pose proof (send_eq net req_type timeout data files c sid full_url rq Hs Hb) as Hsend.
    rewrite Hnet in Hsend.
    pose proof (send_eq net req_type timeout data files c2 _ full_url rq2 Hs2 Hb2)
      as Hsend2.
    rewrite Hnet2 in Hsend2.
    pose proof (send_request_loop_good net req_type timeout data files 1 1 c2 _ full_url
                  response2 Hsend2 Hgood2) as Hloop.
    unfold _send_request.
    change (send_request_loop net NUM_RETRY_REQUESTS) with (send_request_loop net 3).
    rewrite (send_request_loop_reset net req_type full_url timeout data files 2 0
               c _ c2 response e _ Hsend Hbad Hfinal eq_refl Hreset Hs2).
    exact Hloop.
  - destruct Hnode as (H1 & H2 & H3 & H4 & H5). repeat split; assumption.
Qed.

(** A token client whose first reply is unauthorized gets the second
    reply, on a second session. *)
Lemma send_request_recovers_witness :
  let c := Fixture.client "n1" ["n1"; "n2"] in
  let rq := Fixture.get_request "n1" ["n1"; "n2"] "/inventory" in
  let net := first_then (inl (Fixture.bad_response "Unauthorized" EmptyString))
                        (inl (Fixture.ok_response "{}")) in
  let full_url := "https://n1:443/web/inventory" in
  let c2 := snd (@_reset_session PyRuntime.runtime net (after_sending rq c)) in
  let rq2 := match build_request c2 1 GET full_url 30%Z JNull None with
             | Return r => r
             | Raise _ => rq
             end in
  @_send_request PyRuntime.runtime net GET full_url 30%Z JNull None c
  = (Return (Some (Fixture.ok_response "{}")), after_sending rq2 c2)
  /\ session c2 = Some (sessions_opened c)
  /\ same_node c c2.
Proof.
  cbv zeta.
  apply (@send_request_recovers PyRuntime.runtime
           (first_then (inl (Fixture.bad_response "Unauthorized" EmptyString))
                       (inl (Fixture.ok_response "{}")))
           (Fixture.client "n1" ["n1"; "n2"]) _ GET "https://n1:443/web/inventory"
           30%Z JNull None 0 (Fixture.get_request "n1" ["n1"; "n2"] "/inventory") _
           (Fixture.bad_response "Unauthorized" EmptyString)
           (Fixture.ok_response "{}")
           (CvpApiError "GET: https://n1:443/web/inventory : Request Error: Unauthorized")).
  - reflexivity.
  - reflexivity.
  - reflexivity.
  - vm_compute. reflexivity.
  - reflexivity.
  - vm_compute. reflexivity.
  - vm_compute. reflexivity.
  - vm_compute. reflexivity.
  - vm_compute. reflexivity.
Defined.

(** ** Unauthorized: log in again and try again *)

Section ResetLogin.
Context `{Runtime} (net : network).


End ResetLogin.


